(** * Sponsorship-management backend: policy, integrity and pagination layer

    A shallow embedding of the FastAPI handlers under
    [apps/backend/app/api] and of [apps/backend/app/utils/helpers.py].
    The relational store is a record of tables, every table a list of
    rows in primary-key (insertion) order; a handler is a function from
    the store and the request to a [result]. *)

From Stdlib Require Import ZArith List String Ascii Bool Lia PrimFloat.
From Stdlib Require Import DecimalString.
Import ListNotations.
Open Scope string_scope.
Open Scope Z_scope.

(** ** Outcomes of a handler

    [HTTPException] is what the handlers raise themselves; [Unhandled]
    is an exception of the runtime or of the store that no handler
    catches (the framework answers 500). *)

Inductive result (A : Type) : Type :=
| Ok (a : A)
| HTTPException (status_code : Z) (detail : string)
| Unhandled (exc : string).

Arguments Ok {A} a.
Arguments HTTPException {A} status_code detail.
Arguments Unhandled {A} exc.

Definition bind {A B} (m : result A) (k : A -> result B) : result B :=
  match m with
  | Ok a => k a
  | HTTPException c d => HTTPException c d
  | Unhandled e => Unhandled e
  end.

Notation "x <- m ;; k" := (bind m (fun x => k))
  (at level 61, m at next level, right associativity).
Notation "' pat <- m ;; k" :=
  (bind m (fun x => match x with pat => k end))
  (at level 61, pat pattern, m at next level, right associativity).

Definition is_ok {A} (r : result A) : bool :=
  match r with Ok _ => true | _ => false end.

(** starlette.status *)
Definition HTTP_200_OK : Z := 200.
Definition HTTP_201_CREATED : Z := 201.
Definition HTTP_400_BAD_REQUEST : Z := 400.
Definition HTTP_403_FORBIDDEN : Z := 403.
Definition HTTP_404_NOT_FOUND : Z := 404.

(** Python truthiness of an [Optional[int]]: [None] and [0] are falsy. *)
Definition truthy (x : option Z) : bool :=
  match x with
  | Some z => negb (z =? 0)
  | None => false
  end.

(** [Query.first()] *)
Definition first {A} (rows : list A) : option A :=
  match rows with
  | [] => None
  | r :: _ => Some r
  end.

(** ** Pagination engine ([utils/helpers.py]) *)

Record Pagination (A : Type) : Type := {
  results : list A;
  total_count : Z;
  total_pages : Z
}.

Arguments results {A} _.
Arguments total_count {A} _.
Arguments total_pages {A} _.

(** [query] is the filtered query, given by the rows it selects, in the
    order it selects them.  The endpoints validate [page >= 1] and
    [1 <= page_size <= 100] before the call. *)
Definition paginate_query {A} (query : list A) (page page_size : Z)
  : Pagination A :=
  let total_count := Z.of_nat (List.length query) in
  let total_pages := (total_count + page_size - 1) / page_size in
  let results :=
    firstn (Z.to_nat page_size)
           (skipn (Z.to_nat ((page - 1) * page_size)) query) in
  {| results := results;
     total_count := total_count;
     total_pages := total_pages |}.

(** ** Data model ([models/], [schemas/]) *)

(** [class UserRole(str, Enum)] and [class Gender(str, Enum)] *)
Inductive UserRole : Type := ADMIN | SPONSOR | CHILD.
Inductive Gender : Type := MALE | FEMALE | OTHER.

Definition UserRole_value (r : UserRole) : string :=
  match r with
  | ADMIN => "admin"
  | SPONSOR => "sponsor"
  | CHILD => "child"
  end.

Definition UserRole_eqb (a b : UserRole) : bool :=
  match a, b with
  | ADMIN, ADMIN | SPONSOR, SPONSOR | CHILD, CHILD => true
  | _, _ => false
  end.

Definition UserRole_eq_dec (a b : UserRole) : {a = b} + {a <> b}.
Proof. decide equality. Defined.

(** [datetime.date]; [datetime.datetime] as its naive fields and its
    [tzinfo] (the UTC offset in minutes when aware). *)
Record date : Type := { year : Z; month : Z; day : Z }.

Record datetime : Type := {
  dt_date : date;
  dt_microseconds : Z;
  tzinfo : option Z
}.

Definition timezone_utc : option Z := Some 0.

(** [value.replace(tzinfo=tz)] *)
Definition replace_tzinfo (value : datetime) (tz : option Z) : datetime :=
  {| dt_date := dt_date value;
     dt_microseconds := dt_microseconds value;
     tzinfo := tz |}.

(** A [DateTime] column (declared without [timezone=True]) keeps the
    fields of the value it is given and no tzinfo: what a flush writes
    is read back naive. *)
Definition naive (value : datetime) : datetime :=
  replace_tzinfo value None.

(** Equality of a nullable column with a bound value, as the ORM
    renders it: [col == None] is [col IS NULL]. *)
Definition opt_string_eqb (a b : option string) : bool :=
  match a, b with
  | Some x, Some y => String.eqb x y
  | None, None => true
  | _, _ => false
  end.

Module User.
Record t : Type := {
  id : Z;
  first_name : string;
  last_name : string;
  role : UserRole;
  username : string;
  hashed_password : string;
  email : option string;
  phone_number : option string;
  date_of_birth : option date;
  gender : option Gender;
  background_info : option string;
  profile_image : option string;
  image_gallery : option (list string);
  is_active : bool
}.
End User.

Module Sponsorship.
Record t : Type := {
  id : Z;
  sponsor_id : Z;
  child_id : Z;
  start_date : date;
  status : string
}.
End Sponsorship.

Module Payment.
Record t : Type := {
  id : Z;
  sponsor_id : Z;
  child_id : Z;
  amount : float;
  currency : string;
  transaction_id : string;
  payment_method : string;
  status : string;
  payment_date : datetime
}.
End Payment.

Module ChildReport.
Record t : Type := {
  id : Z;
  child_id : Z;
  report_date : date;
  report_type : string;
  details : string;
  status : string
}.
End ChildReport.

(** The request bodies. *)
Record UserCreate : Type := {
  uc_first_name : string;
  uc_last_name : string;
  uc_role : UserRole;
  uc_is_active : option bool;
  uc_username : string;
  uc_password : string;
  uc_email : option string;
  uc_phone_number : option string;
  uc_date_of_birth : option date;
  uc_gender : option Gender;
  uc_background_info : option string
}.

Record SponsorshipBase : Type := {
  sb_sponsor_id : Z;
  sb_child_id : Z;
  sb_start_date : date;
  sb_status : string
}.

Record SponsorshipUpdate : Type := {
  su_start_date : option date;
  su_status : option string
}.

Record PaymentCreate : Type := {
  pc_sponsor_id : Z;
  pc_child_id : Z;
  pc_amount : float;
  pc_currency : string;
  pc_transaction_id : string;
  pc_payment_method : string;
  pc_status : string;
  pc_payment_date : option datetime
}.

Record PaymentUpdate : Type := {
  pu_amount : option float;
  pu_currency : option string;
  pu_transaction_id : option string;
  pu_payment_method : option string;
  pu_status : option string;
  pu_payment_date : option datetime
}.

Record ChildReportUpdate : Type := {
  ru_report_date : option date;
  ru_report_type : option string;
  ru_details : option string;
  ru_status : option string
}.

(** The decoded token, [{"id": ..., "username": ..., "role": ...}]. *)
Record LoggedInUser : Type := {
  token_id : Z;
  token_username : string;
  token_role : string
}.

(** ** The store ([database.py]): one list of rows per table *)

Record Session : Type := {
  users : list User.t;
  sponsorships : list Sponsorship.t;
  payments : list Payment.t;
  child_reports : list ChildReport.t
}.

(** The next value of an integer primary key: one more than the largest
    key of the table. *)
Definition next_id (ids : list Z) : Z :=
  1 + fold_right Z.max 0 ids.

(** The flush of a modified row: [UPDATE ... WHERE id = key new]. *)
Definition replace_row {A} (key : A -> Z) (new : A) (x : A) : A :=
  if key x =? key new then new else x.

(** The relationship [User.sponsorships_as_child]. *)
Definition sponsorships_as_child (db : Session) (child : User.t)
  : list Sponsorship.t :=
  filter (fun s => Sponsorship.child_id s =? User.id child)
         (sponsorships db).

(** Python's [x in xs] / [x not in xs] over integers. *)
Definition Z_in (x : Z) (xs : list Z) : bool :=
  existsb (Z.eqb x) xs.

(** ** Helpers ([utils/helpers.py]) *)

Definition is_admin (user : User.t) : bool :=
  String.eqb (UserRole_value (User.role user)) (UserRole_value ADMIN).

Definition is_sponsor_of_child (db : Session) (sponsor_id child_id : Z)
  : bool :=
  existsb (fun s => (Sponsorship.sponsor_id s =? sponsor_id)
                    && (Sponsorship.child_id s =? child_id))
          (sponsorships db).

Definition get_user_or_404 (db : Session) (user_id : Z) (detail : string)
  : result User.t :=
  match first (filter (fun u => User.id u =? user_id) (users db)) with
  | None => HTTPException HTTP_404_NOT_FOUND detail
  | Some user => Ok user
  end.

(** [f"{n}"] for an integer. *)
Definition str_int (n : Z) : string :=
  NilZero.string_of_int (Z.to_int n).

Definition get_sponsorship_or_404 (db : Session) (sponsorship_id : Z)
  : result Sponsorship.t :=
  match first (filter (fun s => Sponsorship.id s =? sponsorship_id)
                      (sponsorships db)) with
  | None => HTTPException HTTP_404_NOT_FOUND
                     ("Sponsorship with ID " ++ str_int sponsorship_id
                        ++ " not found")
  | Some sponsorship => Ok sponsorship
  end.

Definition get_payment_or_404 (db : Session) (payment_id : Z)
  : result Payment.t :=
  match first (filter (fun p => Payment.id p =? payment_id)
                      (payments db)) with
  | None => HTTPException HTTP_404_NOT_FOUND
                     ("Payment with ID " ++ str_int payment_id
                        ++ " not found")
  | Some payment => Ok payment
  end.

(** The user of a given id and role:
    [db.query(User).filter(User.id == i, User.role == r).first()]. *)
Definition user_with_role (db : Session) (i : Z) (r : UserRole)
  : option User.t :=
  first (filter (fun u => (User.id u =? i) && UserRole_eqb (User.role u) r)
                (users db)).

(** ** Responses ([utils/response.py]) *)

Record JSONResponse (D : Type) : Type := {
  message : string;
  data : D;
  status_code : Z;
  location : option string
}.

Arguments message {D} _.
Arguments data {D} _.
Arguments status_code {D} _.
Arguments location {D} _.

Definition create_response {D} (message : string) (data : D)
           (status_code : Z) (location : option string) : JSONResponse D :=
  {| message := message;
     data := data;
     status_code := status_code;
     location := location |}.

(** The body of a list response: page, page size, filtered total,
    page count and the rows of the page. *)
Record ListData (A : Type) : Type := {
  ld_page : Z;
  ld_page_size : Z;
  ld_total : Z;
  ld_total_pages : Z;
  ld_items : list A
}.

Arguments ld_page {A} _.
Arguments ld_page_size {A} _.
Arguments ld_total {A} _.
Arguments ld_total_pages {A} _.
Arguments ld_items {A} _.

(** [JSONResponse] renders its content with [allow_nan=False]: a float
    that is NaN or infinite is no JSON number and the rendering raises
    ValueError, which no handler catches. *)
Definition json_compliant (x : float) : bool := is_finite x.

(** ** Payments ([api/payments.py]) *)

(** Column [transaction_id] is declared [unique=True]: a flush that
    leaves two rows with one value is refused by the store, and no
    handler catches that. *)
Definition transaction_id_taken (db : Session) (self_id : Z) (t : string)
  : bool :=
  existsb (fun q => negb (Payment.id q =? self_id)
                    && String.eqb (Payment.transaction_id q) t)
          (payments db).

Definition with_payments (db : Session) (ps : list Payment.t) : Session :=
  {| users := users db;
     sponsorships := sponsorships db;
     payments := ps;
     child_reports := child_reports db |}.

(** Column [amount] is declared [nullable=False], and the driver binds
    a NaN as NULL: a flush that writes a NaN amount is refused by the
    store like a duplicate [transaction_id]. *)
Definition amount_is_null (payment : Payment.t) : bool :=
  is_nan (Payment.amount payment).

(** [db.add(new_payment); db.commit(); db.refresh(new_payment)].  The
    row read back has its [payment_date] as the column keeps it. *)
Definition add_payment (db : Session) (now : datetime)
           (payment_data : PaymentCreate) : result (Session * Payment.t) :=
  let new_id := next_id (map Payment.id (payments db)) in
  let new_payment :=
    {| Payment.id := new_id;
       Payment.sponsor_id := pc_sponsor_id payment_data;
       Payment.child_id := pc_child_id payment_data;
       Payment.amount := pc_amount payment_data;
       Payment.currency := pc_currency payment_data;
       Payment.transaction_id := pc_transaction_id payment_data;
       Payment.payment_method := pc_payment_method payment_data;
       Payment.status := pc_status payment_data;
       Payment.payment_date :=
         naive match pc_payment_date payment_data with
               | Some d => d
               | None => now      (* column default: now in UTC *)
               end |} in
  if amount_is_null new_payment
     || transaction_id_taken db new_id (Payment.transaction_id new_payment)
  then Unhandled "IntegrityError"
  else Ok (with_payments db (payments db ++ [new_payment]), new_payment).

(** The flush of a modified payment row, [db.commit(); db.refresh()]. *)
Definition commit_payment (db : Session) (payment : Payment.t)
  : result Session :=
  if amount_is_null payment
     || transaction_id_taken db (Payment.id payment)
                             (Payment.transaction_id payment)
  then Unhandled "IntegrityError"
  else Ok (with_payments db
             (map (replace_row Payment.id payment) (payments db))).

(** [create_payment] up to and including [db.refresh(new_payment)]:
    the checks and the commit.  What it returns is in the store
    whatever becomes of the response. *)
Definition create_payment_commit (db : Session) (now : datetime)
           (logged_in_user : LoggedInUser) (payment_data : PaymentCreate)
  : result (Session * Payment.t) :=
  user <- get_user_or_404 db (token_id logged_in_user) "User not found" ;;
  if negb (is_admin user)
     && negb (User.id user =? pc_sponsor_id payment_data)
  then HTTPException HTTP_403_FORBIDDEN
         "You do not have permission to create this payment."
  else
  match user_with_role db (pc_sponsor_id payment_data) SPONSOR with
  | None => HTTPException HTTP_404_NOT_FOUND "Sponsor not found"
  | Some _ =>
  match user_with_role db (pc_child_id payment_data) CHILD with
  | None => HTTPException HTTP_404_NOT_FOUND "Child not found"
  | Some _ =>
  match first (filter
          (fun s => (Sponsorship.sponsor_id s =? pc_sponsor_id payment_data)
                    && (Sponsorship.child_id s =? pc_child_id payment_data)
                    && String.eqb (Sponsorship.status s) "active")
          (sponsorships db)) with
  | None =>
      HTTPException HTTP_400_BAD_REQUEST
        ("No active sponsorship found between the sponsor and child. "
           ++ "Create sponsorship first.")
  | Some _ =>
  match first (filter
          (fun q => String.eqb (Payment.transaction_id q)
                               (pc_transaction_id payment_data))
          (payments db)) with
  | Some _ =>
      HTTPException HTTP_400_BAD_REQUEST "Transaction ID already exists"
  | None => add_payment db now payment_data
  end end end end.

(** The handler: the commit, then the response with the new payment as
    its data. *)
Definition create_payment (db : Session) (now : datetime)
           (logged_in_user : LoggedInUser) (payment_data : PaymentCreate)
  : result (Session * JSONResponse Payment.t) :=
  '(db', new_payment) <-
    create_payment_commit db now logged_in_user payment_data ;;
  if json_compliant (Payment.amount new_payment)
  then Ok (db',
           create_response "Payment recorded successfully" new_payment
             HTTP_201_CREATED
             (Some ("/payments/" ++ str_int (Payment.id new_payment))))
  else Unhandled "ValueError".

(** The detail of the 400 that [create_payment] raises without an active
    sponsorship, as one string. *)
Definition no_active_sponsorship_detail : string :=
  "No active sponsorship found between the sponsor and child. Create sponsorship first.".

(** The tail of [get_payments]: paginate, answer 404 on an empty page,
    else the list response. *)
Definition payments_page (query : list Payment.t) (page page_size : Z)
  : result (JSONResponse (ListData Payment.t)) :=
  let pagination := paginate_query query page page_size in
  match results pagination with
  | [] => HTTPException HTTP_404_NOT_FOUND "No payments found"
  | _ :: _ =>
      Ok (create_response "Payments retrieved successfully"
            {| ld_page := page;
               ld_page_size := page_size;
               ld_total := total_count pagination;
               ld_total_pages := total_pages pagination;
               ld_items := results pagination |}
            HTTP_200_OK None)
  end.

Definition get_payments (db : Session) (logged_in_user : LoggedInUser)
           (sponsor_id child_id : option Z) (page page_size : Z)
  : result (JSONResponse (ListData Payment.t)) :=
  user <- get_user_or_404 db (token_id logged_in_user) "User not found" ;;
  match sponsor_id, child_id with
  | None, None =>
      HTTPException HTTP_400_BAD_REQUEST
        "Either 'sponsor_id' or 'child_id' must be provided."
  | _, _ =>
  let query := payments db in
  (* if sponsor_id: *)
  query <-
    (if truthy sponsor_id then
       let sid := match sponsor_id with Some i => i | None => 0 end in
       match user_with_role db sid SPONSOR with
       | None => HTTPException HTTP_404_NOT_FOUND "Sponsor not found"
       | Some _ =>
           if negb (is_admin user) && negb (User.id user =? sid)
           then HTTPException HTTP_403_FORBIDDEN
                  "You do not have permission to access this resource."
           else Ok (filter (fun q => Payment.sponsor_id q =? sid) query)
       end
     else Ok query) ;;
  (* if child_id: *)
  query <-
    (if truthy child_id then
       let cid := match child_id with Some i => i | None => 0 end in
       match user_with_role db cid CHILD with
       | None => HTTPException HTTP_404_NOT_FOUND "Child not found"
       | Some child =>
           let sponsor_ids :=
             map Sponsorship.sponsor_id (sponsorships_as_child db child) in
           if negb (is_admin user)
              && negb (Z_in (User.id user) sponsor_ids)
           then HTTPException HTTP_403_FORBIDDEN
                  "You do not have permission to access this resource."
           else if truthy sponsor_id then
             let sid := match sponsor_id with Some i => i | None => 0 end in
             match first (filter
                     (fun s => (Sponsorship.sponsor_id s =? sid)
                               && (Sponsorship.child_id s =? cid))
                     (sponsorships db)) with
             | None =>
                 HTTPException HTTP_400_BAD_REQUEST
                   "No sponsorship relationship exists between the sponsor and child."
             | Some _ =>
                 Ok (filter (fun q => (Payment.sponsor_id q =? sid)
                                      && (Payment.child_id q =? cid))
                            query)
             end
           else Ok (filter (fun q => Payment.child_id q =? cid) query)
       end
     else Ok query) ;;
  payments_page query page page_size
  end.

(** The loop over [update_fields]: a field of the patch that is not
    [None] is assigned, [payment_date] with its [tzinfo] replaced by
    UTC. *)
Definition or_else {A} (value : option A) (old : A) : A :=
  match value with
  | Some v => v
  | None => old
  end.

(** The loop over [update_fields], with the row as [db.refresh] reads
    it back: a supplied [payment_date] is given [tzinfo=timezone.utc]
    and written to the column, which keeps no tzinfo. *)
Definition apply_payment_update (payment : Payment.t)
           (payment_data : PaymentUpdate) : Payment.t :=
  {| Payment.id := Payment.id payment;
     Payment.sponsor_id := Payment.sponsor_id payment;
     Payment.child_id := Payment.child_id payment;
     Payment.amount := or_else (pu_amount payment_data)
                               (Payment.amount payment);
     Payment.currency := or_else (pu_currency payment_data)
                                 (Payment.currency payment);
     Payment.transaction_id := or_else (pu_transaction_id payment_data)
                                       (Payment.transaction_id payment);
     Payment.payment_method := or_else (pu_payment_method payment_data)
                                       (Payment.payment_method payment);
     Payment.status := or_else (pu_status payment_data)
                               (Payment.status payment);
     Payment.payment_date :=
       match pu_payment_date payment_data with
       | Some value => naive (replace_tzinfo value timezone_utc)
       | None => Payment.payment_date payment
       end |}.

(** Truthiness of an [Optional[str]]: [None] and the empty string are
    falsy. *)
Definition truthy_str (x : option string) : bool :=
  match x with
  | Some s => negb (String.eqb s "")
  | None => false
  end.

(** [update_payment] up to and including [db.refresh(payment)]. *)
Definition update_payment_commit (db : Session)
           (logged_in_user : LoggedInUser)
           (payment_data : PaymentUpdate) (payment_id : Z)
  : result (Session * Payment.t) :=
  user <- get_user_or_404 db (token_id logged_in_user) "User not found" ;;
  if negb (is_admin user)
  then HTTPException HTTP_403_FORBIDDEN
         "You do not have permission to update payment details."
  else
  payment <- get_payment_or_404 db payment_id ;;
  (* if payment_data.transaction_id: *)
  _ <-
    match pu_transaction_id payment_data with
    | Some new_transaction_id =>
        if truthy_str (Some new_transaction_id) then
          match first (filter
                  (fun q => String.eqb (Payment.transaction_id q)
                                       new_transaction_id
                            && negb (Payment.id q =? payment_id))
                  (payments db)) with
          | Some _ =>
              HTTPException HTTP_400_BAD_REQUEST
                "Transaction ID already exists"
          | None => Ok tt
          end
        else Ok tt
    | None => Ok tt
    end ;;
  let payment := apply_payment_update payment payment_data in
  db' <- commit_payment db payment ;;
  Ok (db', payment).

(** The handler: the commit, then the response with the updated payment
    as its data. *)
Definition update_payment (db : Session) (logged_in_user : LoggedInUser)
           (payment_data : PaymentUpdate) (payment_id : Z)
  : result (Session * JSONResponse Payment.t) :=
  '(db', payment) <-
    update_payment_commit db logged_in_user payment_data payment_id ;;
  if json_compliant (Payment.amount payment)
  then Ok (db', create_response "Payment updated successfully" payment
                  HTTP_200_OK None)
  else Unhandled "ValueError".

(** ** Sponsorships ([api/sponsorships.py]) *)

Definition with_sponsorships (db : Session) (ss : list Sponsorship.t)
  : Session :=
  {| users := users db;
     sponsorships := ss;
     payments := payments db;
     child_reports := child_reports db |}.

Definition create_sponsorship (db : Session) (logged_in_user : LoggedInUser)
           (sponsorship_data : SponsorshipBase)
  : result (Session * JSONResponse Sponsorship.t) :=
  user <- get_user_or_404 db (token_id logged_in_user) "User not found" ;;
  if negb (is_admin user)
  then HTTPException HTTP_403_FORBIDDEN
         "You do not have permission to perform this action"
  else
  _ <- get_user_or_404 db (sb_child_id sponsorship_data) "Child not found" ;;
  match user_with_role db (sb_sponsor_id sponsorship_data) SPONSOR with
  | None => HTTPException HTTP_404_NOT_FOUND "Sponsor not found"
  | Some _ =>
  match first (filter
          (fun s => (Sponsorship.child_id s =? sb_child_id sponsorship_data)
                    && (Sponsorship.sponsor_id s
                          =? sb_sponsor_id sponsorship_data))
          (sponsorships db)) with
  | Some _ =>
      HTTPException HTTP_400_BAD_REQUEST
        "Child already sponsored by this sponsor"
  | None =>
      let sponsorship :=
        {| Sponsorship.id := next_id (map Sponsorship.id (sponsorships db));
           Sponsorship.sponsor_id := sb_sponsor_id sponsorship_data;
           Sponsorship.child_id := sb_child_id sponsorship_data;
           Sponsorship.start_date := sb_start_date sponsorship_data;
           Sponsorship.status := sb_status sponsorship_data |} in
      Ok (with_sponsorships db (sponsorships db ++ [sponsorship]),
          create_response "Sponsorship added successfully" sponsorship
            HTTP_201_CREATED
            (Some ("/users/" ++ str_int (Sponsorship.id sponsorship))))
  end end.

(** [if sponsorship_data.start_date:] holds for every date that is not
    [None]; [if sponsorship_data.status:] also skips the empty string. *)
Definition apply_sponsorship_update (sponsorship : Sponsorship.t)
           (sponsorship_data : SponsorshipUpdate) : Sponsorship.t :=
  {| Sponsorship.id := Sponsorship.id sponsorship;
     Sponsorship.sponsor_id := Sponsorship.sponsor_id sponsorship;
     Sponsorship.child_id := Sponsorship.child_id sponsorship;
     Sponsorship.start_date :=
       or_else (su_start_date sponsorship_data)
               (Sponsorship.start_date sponsorship);
     Sponsorship.status :=
       if truthy_str (su_status sponsorship_data)
       then or_else (su_status sponsorship_data)
                    (Sponsorship.status sponsorship)
       else Sponsorship.status sponsorship |}.

Definition update_sponsorship (db : Session) (logged_in_user : LoggedInUser)
           (sponsorship_data : SponsorshipUpdate) (sponsorship_id : Z)
  : result (Session * JSONResponse Sponsorship.t) :=
  user <- get_user_or_404 db (token_id logged_in_user) "User not found" ;;
  if negb (is_admin user)
  then HTTPException HTTP_403_FORBIDDEN
         "You do not have permission to update sponsorships"
  else
  sponsorship <- get_sponsorship_or_404 db sponsorship_id ;;
  let sponsorship := apply_sponsorship_update sponsorship sponsorship_data in
  Ok (with_sponsorships db
        (map (replace_row Sponsorship.id sponsorship) (sponsorships db)),
      create_response "Sponsorship updated successfully" sponsorship
        HTTP_200_OK None).

(** ** Child reports ([api/child_reports.py]) *)

Definition with_child_reports (db : Session) (rs : list ChildReport.t)
  : Session :=
  {| users := users db;
     sponsorships := sponsorships db;
     payments := payments db;
     child_reports := rs |}.

(** Column [status] is [Enum("unread", "read")].  A flush writes any
    string; [db.refresh] raises LookupError when the value it reads
    back is none of the two. *)
Definition report_status (s : string) : bool :=
  String.eqb s "unread" || String.eqb s "read".

(** The flush of a modified report row. *)
Definition commit_report (db : Session) (report : ChildReport.t) : Session :=
  with_child_reports db
    (map (replace_row ChildReport.id report) (child_reports db)).

(** The loop over [update_fields] with
    [getattr(report_data, field, None)]; the body itself may be
    [None]. *)
Definition getattr_report {A} (report_data : option ChildReportUpdate)
           (field : ChildReportUpdate -> option A) : option A :=
  match report_data with
  | Some d => field d
  | None => None
  end.

Definition apply_report_update (report : ChildReport.t)
           (report_data : option ChildReportUpdate) : ChildReport.t :=
  {| ChildReport.id := ChildReport.id report;
     ChildReport.child_id := ChildReport.child_id report;
     ChildReport.report_date :=
       or_else (getattr_report report_data ru_report_date)
               (ChildReport.report_date report);
     ChildReport.report_type :=
       or_else (getattr_report report_data ru_report_type)
               (ChildReport.report_type report);
     ChildReport.details :=
       or_else (getattr_report report_data ru_details)
               (ChildReport.details report);
     ChildReport.status :=
       or_else (getattr_report report_data ru_status)
               (ChildReport.status report) |}.

(** [update_child_report] up to and including [db.commit()]. *)
Definition update_child_report_commit (db : Session)
           (logged_in_user : LoggedInUser)
           (report_data : option ChildReportUpdate) (report_id : Z)
  : result (Session * ChildReport.t) :=
  user <- get_user_or_404 db (token_id logged_in_user) "User not found" ;;
  if negb (is_admin user)
  then HTTPException HTTP_403_FORBIDDEN
         "You do not have permission to update reports."
  else
  match first (filter (fun r => ChildReport.id r =? report_id)
                      (child_reports db)) with
  | None => HTTPException HTTP_404_NOT_FOUND "Report not found."
  | Some report =>
      let report := apply_report_update report report_data in
      Ok (commit_report db report, report)
  end.

(** The handler: the commit, then [db.refresh(report)] and the response
    with the updated report as its data. *)
Definition update_child_report (db : Session)
           (logged_in_user : LoggedInUser)
           (report_data : option ChildReportUpdate) (report_id : Z)
  : result (Session * JSONResponse ChildReport.t) :=
  '(db', report) <-
    update_child_report_commit db logged_in_user report_data report_id ;;
  if report_status (ChildReport.status report)
  then Ok (db', create_response "Report updated successfully." report
                  HTTP_200_OK None)
  else Unhandled "LookupError".

(** [report.status = "read"] *)
Definition set_status_read (report : ChildReport.t) : ChildReport.t :=
  {| ChildReport.id := ChildReport.id report;
     ChildReport.child_id := ChildReport.child_id report;
     ChildReport.report_date := ChildReport.report_date report;
     ChildReport.report_type := ChildReport.report_type report;
     ChildReport.details := ChildReport.details report;
     ChildReport.status := "read" |}.

Definition mark_report_as_read (report_id : Z) (db : Session)
           (logged_in_user : LoggedInUser)
  : result (Session * JSONResponse ChildReport.t) :=
  user <- get_user_or_404 db (token_id logged_in_user) "User not found" ;;
  match first (filter (fun r => ChildReport.id r =? report_id)
                      (child_reports db)) with
  | None => HTTPException HTTP_404_NOT_FOUND "Report not found."
  | Some report =>
  match user_with_role db (ChildReport.child_id report) CHILD with
  | None => HTTPException HTTP_404_NOT_FOUND "Associated child not found."
  | Some child =>
      if negb (is_admin user)
         && negb (Z_in (User.id user)
                       (map Sponsorship.sponsor_id
                            (sponsorships_as_child db child)))
      then HTTPException HTTP_403_FORBIDDEN
             "You do not have permission to mark this report as read."
      else
        let report := set_status_read report in
        Ok (commit_report db report,
            create_response "Report marked as read successfully." report
              HTTP_200_OK None)
  end end.

(** ** Users ([api/users.py]) *)

Definition with_users (db : Session) (us : list User.t) : Session :=
  {| users := us;
     sponsorships := sponsorships db;
     payments := payments db;
     child_reports := child_reports db |}.

(** Columns [username] and [email] are declared [unique=True]; a NULL
    email collides with nothing. *)
Definition user_identity_taken (db : Session) (user : User.t) : bool :=
  existsb (fun u => negb (User.id u =? User.id user)
                    && (String.eqb (User.username u) (User.username user)
                        || match User.email u, User.email user with
                           | Some a, Some b => String.eqb a b
                           | _, _ => false
                           end))
          (users db).

(** [User.sponsorships_as_sponsor], [sponsorships_as_child],
    [payments_as_sponsor], [payments_as_child] and [reports] are all
    declared with [cascade="all, delete-orphan"]. *)
Definition delete_user_cascade (db : Session) (user_id : Z) : Session :=
  {| users := filter (fun u => negb (User.id u =? user_id)) (users db);
     sponsorships :=
       filter (fun s => negb (Sponsorship.sponsor_id s =? user_id)
                        && negb (Sponsorship.child_id s =? user_id))
              (sponsorships db);
     payments :=
       filter (fun q => negb (Payment.sponsor_id q =? user_id)
                        && negb (Payment.child_id q =? user_id))
              (payments db);
     child_reports :=
       filter (fun r => negb (ChildReport.child_id r =? user_id))
              (child_reports db) |}.

Section Users.

(** The password primitive of [core/security.py] (bcrypt) and
    [re.match(password_pattern, _)] of the standard library. *)
Variable hash_password : string -> string.
Variable password_pattern_match : string -> bool.

Definition create_user (db : Session) (logged_in_user : LoggedInUser)
           (user_data : UserCreate)
  : result (Session * JSONResponse User.t) :=
  user <- get_user_or_404 db (token_id logged_in_user) "User not found" ;;
  if negb (is_admin user)
  then HTTPException HTTP_403_FORBIDDEN
         "You do not have permission to perform this action"
  else
  match first (filter
          (fun u => String.eqb (User.username u) (uc_username user_data)
                    || opt_string_eqb (User.email u) (uc_email user_data))
          (users db)) with
  | Some _ =>
      HTTPException HTTP_400_BAD_REQUEST
        "Email or username already registered"
  | None =>
      if negb (password_pattern_match (uc_password user_data))
      then HTTPException HTTP_400_BAD_REQUEST
             ("Password must be 8-64 chars long, contain 1 uppercase, "
                ++ "1 lowercase, 1 digit, 1 special character, "
                ++ "and no spaces.")
      else
        let created_user :=
          {| User.id := next_id (map User.id (users db));
             User.first_name := uc_first_name user_data;
             User.last_name := uc_last_name user_data;
             User.role := uc_role user_data;
             User.username := uc_username user_data;
             User.hashed_password :=
               hash_password (uc_password user_data);
             User.email := uc_email user_data;
             User.phone_number := uc_phone_number user_data;
             User.date_of_birth := uc_date_of_birth user_data;
             User.gender := uc_gender user_data;
             User.background_info := uc_background_info user_data;
             User.profile_image := None;
             User.image_gallery := None;
             (* a [None] is not sent and the column default applies *)
             User.is_active := or_else (uc_is_active user_data) true |} in
        if user_identity_taken db created_user
        then Unhandled "IntegrityError"
        else
          Ok (with_users db (users db ++ [created_user]),
              create_response "User successfully registered" created_user
                HTTP_201_CREATED
                (Some ("/users/" ++ str_int (User.id created_user))))
  end.

(** The loop over [vars(user_data).items()]: every value that is not
    [None] is assigned, the password under [hashed_password]. *)
Definition apply_user_update (user_update : User.t)
           (user_data : UserCreate) : User.t :=
  {| User.id := User.id user_update;
     User.first_name := uc_first_name user_data;
     User.last_name := uc_last_name user_data;
     User.role := uc_role user_data;
     User.username := uc_username user_data;
     User.hashed_password := hash_password (uc_password user_data);
     User.email := match uc_email user_data with
                   | Some e => Some e
                   | None => User.email user_update
                   end;
     User.phone_number := match uc_phone_number user_data with
                          | Some v => Some v
                          | None => User.phone_number user_update
                          end;
     User.date_of_birth := match uc_date_of_birth user_data with
                           | Some v => Some v
                           | None => User.date_of_birth user_update
                           end;
     User.gender := match uc_gender user_data with
                    | Some v => Some v
                    | None => User.gender user_update
                    end;
     User.background_info := match uc_background_info user_data with
                             | Some v => Some v
                             | None => User.background_info user_update
                             end;
     User.profile_image := User.profile_image user_update;
     User.image_gallery := User.image_gallery user_update;
     User.is_active := or_else (uc_is_active user_data)
                               (User.is_active user_update) |}.

(** [if not user:] after [get_user_or_404] tests a row object, which
    is never falsy: the branch that raises 403 is dead. *)
Definition update_user (db : Session) (logged_in_user : LoggedInUser)
           (user_data : UserCreate) (user_id : Z) : result Session :=
  user <- get_user_or_404 db (token_id logged_in_user) "User not found" ;;
  user_update <- get_user_or_404 db user_id "User to update not found" ;;
  let user_update := apply_user_update user_update user_data in
  if user_identity_taken db user_update
  then Unhandled "IntegrityError"
  else Ok (with_users db
             (map (replace_row User.id user_update) (users db))).

Definition delete_user (db : Session) (logged_in_user : LoggedInUser)
           (user_id : Z) : result (Session * JSONResponse unit) :=
  user_to_delete <- get_user_or_404 db user_id "User to delete not found" ;;
  user <- get_user_or_404 db (token_id logged_in_user) "User not found" ;;
  if negb (is_admin user)
  then HTTPException HTTP_403_FORBIDDEN
         "You do not have permission to perform this action"
  else if User.id user =? user_id
  then HTTPException HTTP_400_BAD_REQUEST
         "You cannot delete your own account"
  else
    Ok (delete_user_cascade db (User.id user_to_delete),
        create_response
          ("User with ID " ++ str_int user_id
             ++ " has been deleted successfully")
          tt HTTP_200_OK None).

End Users.

(** ** Sponsor views ([api/sponsors.py]) *)

(** The rows the child's detail view is built from; the body of the
    response formats them (names, ISO dates, the sum of the amounts). *)
Record ChildDetails : Type := {
  cd_child : User.t;
  cd_age : Z;
  cd_gender : Gender;
  cd_sponsorship : option Sponsorship.t;
  cd_payments : list Payment.t;
  cd_reports : list ChildReport.t
}.

(** [(today.month, today.day) < (dob.month, dob.day)] *)
Definition month_day_lt (a b : date) : bool :=
  (month a <? month b) || ((month a =? month b) && (day a <? day b)).

Definition get_child_details (db : Session) (today : date)
           (logged_in_user : LoggedInUser) (id : Z)
  : result (JSONResponse ChildDetails) :=
  user <- get_user_or_404 db (token_id logged_in_user) "User not found" ;;
  match user_with_role db id CHILD with
  | None => HTTPException HTTP_404_NOT_FOUND "Child not found"
  | Some child =>
      let sponsorship :=
        first (filter (fun s => Sponsorship.child_id s =? id)
                      (sponsorships db)) in
      if negb (is_admin user)
         && match sponsorship with
            | None => true
            | Some s => negb (Sponsorship.sponsor_id s =? User.id user)
            end
      then HTTPException HTTP_403_FORBIDDEN "Access denied"
      else
        match User.date_of_birth child, User.gender child with
        | Some dob, Some g =>
            let age := year today - year dob
                       - (if month_day_lt today dob then 1 else 0) in
            Ok (create_response "Child details retrieved successfully"
                  {| cd_child := child;
                     cd_age := age;
                     cd_gender := g;
                     cd_sponsorship := sponsorship;
                     cd_payments :=
                       filter (fun q => Payment.child_id q =? id)
                              (payments db);
                     cd_reports :=
                       filter (fun r => ChildReport.child_id r =? id)
                              (child_reports db) |}
                  HTTP_200_OK None)
        | _, _ => Unhandled "AttributeError"
        end
  end.

(** ** Payments, the other handlers ([api/payments.py]) *)



(** [db.delete(row); db.commit()]: [DELETE ... WHERE id = key row]. *)
Definition delete_row {A} (key : A -> Z) (row : A) (rows : list A)
  : list A :=
  filter (fun x => negb (key x =? key row)) rows.

Definition delete_payment (db : Session) (logged_in_user : LoggedInUser)
           (payment_id : Z) : result (Session * JSONResponse unit) :=
  user <- get_user_or_404 db (token_id logged_in_user) "User not found" ;;
  if negb (is_admin user)
  then HTTPException HTTP_403_FORBIDDEN
         "You do not have permission to delete payments."
  else
  payment <- get_payment_or_404 db payment_id ;;
  Ok (with_payments db (delete_row Payment.id payment (payments db)),
      create_response
        ("Payment with ID " ++ str_int payment_id
           ++ " has been deleted successfully.")
        tt HTTP_200_OK None).

(** ** Users, the reading handlers ([api/users.py]) *)

Definition read_logged_in_user (db : Session)
           (logged_in_user : LoggedInUser) : result (JSONResponse User.t) :=
  user <- get_user_or_404 db (token_id logged_in_user) "User not found" ;;
  Ok (create_response "User profile retrieved successfully" user
        HTTP_200_OK None).

Definition read_user (db : Session) (logged_in_user : LoggedInUser)
           (user_id : Z) : result (JSONResponse User.t) :=
  user <- get_user_or_404 db (token_id logged_in_user)
                          "User no longer exists" ;;
  fetched_user <- get_user_or_404 db user_id "User not found" ;;
  if is_admin fetched_user && negb (is_admin user)
  then HTTPException HTTP_403_FORBIDDEN
         "You do not have permission to perform this action"
  else
    Ok (create_response "User profile retrieved successfully" fetched_user
          HTTP_200_OK None).

(** The body of the response of [read_users]: the count of the whole
    table beside the count of the filtered query. *)
Record UsersData : Type := {
  ud_page : Z;
  ud_page_size : Z;
  ud_total_users : Z;
  ud_filtered_user_count : Z;
  ud_total_pages : Z;
  ud_users : list User.t
}.

Definition Gender_eqb (a b : Gender) : bool :=
  match a, b with
  | MALE, MALE | FEMALE, FEMALE | OTHER, OTHER => true
  | _, _ => false
  end.

Section ReadUsers.

(** The SQL operator [column ILIKE pattern] of the store. *)
Variable ilike : string -> string -> bool.

(** [query.filter(cond)] under [if value:] for an optional string. *)
Definition filter_ilike (value : option string)
           (column : User.t -> string) (query : list User.t)
  : list User.t :=
  match value with
  | Some v =>
      if truthy_str (Some v)
      then filter (fun u => ilike (column u) ("%" ++ v ++ "%")) query
      else query
  | None => query
  end.

Definition read_users (db : Session) (logged_in_user : LoggedInUser)
           (first_name last_name : option string)
           (role : option UserRole) (gender : option Gender)
           (page page_size : Z) : result (JSONResponse UsersData) :=
  user <- get_user_or_404 db (token_id logged_in_user) "User not found" ;;
  if negb (is_admin user)
  then HTTPException HTTP_403_FORBIDDEN
         "You do not have permission to perform this action"
  else
    let query := users db in
    let query := filter_ilike first_name User.first_name query in
    let query := filter_ilike last_name User.last_name query in
    let query :=
      match role with
      | Some r => filter (fun u => UserRole_eqb (User.role u) r) query
      | None => query
      end in
    let query :=
      match gender with
      | Some g =>
          filter (fun u => match User.gender u with
                           | Some g' => Gender_eqb g' g
                           | None => false
                           end) query
      | None => query
      end in
    let pagination := paginate_query query page page_size in
    let total_users := Z.of_nat (List.length (users db)) in
    Ok (create_response
          (if 0 <? total_pages pagination
           then "Users retrieved successfully" else "No users found")
          {| ud_page := page;
             ud_page_size := page_size;
             ud_total_users := total_users;
             ud_filtered_user_count := total_count pagination;
             ud_total_pages := total_pages pagination;
             ud_users := results pagination |}
          HTTP_200_OK None).

End ReadUsers.

(** ** Sponsorships, the other handlers ([api/sponsorships.py]) *)

Definition get_sponsor_of_child (db : Session)
           (logged_in_user : LoggedInUser) (child_id : Z)
  : result (JSONResponse User.t) :=
  _ <- get_user_or_404 db (token_id logged_in_user) "User not found" ;;
  match user_with_role db child_id CHILD with
  | None =>
      HTTPException HTTP_404_NOT_FOUND
        "Child not found or is not a registered child"
  | Some _ =>
  match first (filter (fun s => Sponsorship.child_id s =? child_id)
                      (sponsorships db)) with
  | None =>
      HTTPException HTTP_404_NOT_FOUND "This child does not have a sponsor"
  | Some sponsorship =>
      sponsor <- get_user_or_404 db (Sponsorship.sponsor_id sponsorship)
                                 "Sponsor not found" ;;
      Ok (create_response "Sponsor retrieved successfully" sponsor
            HTTP_200_OK None)
  end end.

(** The handler answers 204 and returns nothing. *)
Definition delete_sponsorship (db : Session)
           (logged_in_user : LoggedInUser) (sponsorship_id : Z)
  : result Session :=
  user <- get_user_or_404 db (token_id logged_in_user) "User not found" ;;
  if negb (is_admin user)
  then HTTPException HTTP_403_FORBIDDEN
         "You do not have permission to cancel sponsorships"
  else
  sponsorship <- get_sponsorship_or_404 db sponsorship_id ;;
  Ok (with_sponsorships db
        (delete_row Sponsorship.id sponsorship (sponsorships db))).

(** ** Child reports, the other handlers ([api/child_reports.py]) *)

Record ChildReportCreate : Type := {
  rc_child_id : Z;
  rc_report_date : date;
  rc_report_type : string;
  rc_details : string;
  rc_status : string
}.

(** [create_child_report] up to and including [db.commit()]. *)
Definition create_child_report_commit (db : Session)
           (logged_in_user : LoggedInUser) (report_data : ChildReportCreate)
  : result (Session * ChildReport.t) :=
  user <- get_user_or_404 db (token_id logged_in_user) "User not found" ;;
  if negb (is_admin user)
  then HTTPException HTTP_403_FORBIDDEN
         "You do not have permission to create child reports."
  else
  match user_with_role db (rc_child_id report_data) CHILD with
  | None => HTTPException HTTP_404_NOT_FOUND "Child not found."
  | Some _ =>
      let new_report :=
        {| ChildReport.id := next_id (map ChildReport.id (child_reports db));
           ChildReport.child_id := rc_child_id report_data;
           ChildReport.report_date := rc_report_date report_data;
           ChildReport.report_type := rc_report_type report_data;
           ChildReport.details := rc_details report_data;
           ChildReport.status := rc_status report_data |} in
      Ok (with_child_reports db (child_reports db ++ [new_report]),
          new_report)
  end.

(** The handler: the commit, then [db.refresh(new_report)] and the
    response with the new report as its data. *)
Definition create_child_report (db : Session)
           (logged_in_user : LoggedInUser) (report_data : ChildReportCreate)
  : result (Session * JSONResponse ChildReport.t) :=
  '(db', new_report) <-
    create_child_report_commit db logged_in_user report_data ;;
  if report_status (ChildReport.status new_report)
  then Ok (db',
           create_response "Child report created successfully." new_report
             HTTP_201_CREATED
             (Some ("/users/" ++ str_int (ChildReport.id new_report))))
  else Unhandled "LookupError".

(** The relationship [User.sponsorships_as_sponsor]. *)
Definition sponsorships_as_sponsor (db : Session) (sponsor : User.t)
  : list Sponsorship.t :=
  filter (fun s => Sponsorship.sponsor_id s =? User.id sponsor)
         (sponsorships db).

(** The tail of the report listings: paginate, answer 404 with the
    given detail on an empty page, else the list response. *)
Definition reports_page (query : list ChildReport.t) (page page_size : Z)
           (not_found : string)
  : result (JSONResponse (ListData ChildReport.t)) :=
  let pagination := paginate_query query page page_size in
  match results pagination with
  | [] => HTTPException HTTP_404_NOT_FOUND not_found
  | _ :: _ =>
      Ok (create_response "Reports retrieved successfully."
            {| ld_page := page;
               ld_page_size := page_size;
               ld_total := total_count pagination;
               ld_total_pages := total_pages pagination;
               ld_items := results pagination |}
            HTTP_200_OK None)
  end.

Definition get_reports (db : Session) (logged_in_user : LoggedInUser)
           (child_id sponsor_id : option Z) (page page_size : Z)
  : result (JSONResponse (ListData ChildReport.t)) :=
  user <- get_user_or_404 db (token_id logged_in_user) "User not found" ;;
  if negb (truthy child_id) && negb (truthy sponsor_id)
  then HTTPException HTTP_400_BAD_REQUEST
         "Either 'child_id' or 'sponsor_id' must be provided."
  else
  let cid := match child_id with Some i => i | None => 0 end in
  let sid := match sponsor_id with Some i => i | None => 0 end in
  let query := child_reports db in
  query <-
    (if truthy child_id && truthy sponsor_id then
       match user_with_role db cid CHILD with
       | None => HTTPException HTTP_404_NOT_FOUND "Child not found."
       | Some child =>
       match user_with_role db sid SPONSOR with
       | None => HTTPException HTTP_404_NOT_FOUND "Sponsor not found."
       | Some _ =>
           let is_sponsored :=
             existsb (fun s => Sponsorship.sponsor_id s =? sid)
                     (sponsorships_as_child db child) in
           if negb is_sponsored
           then HTTPException HTTP_400_BAD_REQUEST
                  "This sponsor does not sponsor the specified child."
           else if negb (is_admin user) && negb (User.id user =? sid)
           then HTTPException HTTP_403_FORBIDDEN
                  "You do not have permission to view these reports."
           else Ok (filter (fun r => ChildReport.child_id r =? cid) query)
       end end
     else if truthy child_id then
       match user_with_role db cid CHILD with
       | None => HTTPException HTTP_404_NOT_FOUND "Child not found."
       | Some child =>
           let sponsor_ids :=
             map Sponsorship.sponsor_id (sponsorships_as_child db child) in
           if negb (is_admin user)
              && negb (Z_in (User.id user) sponsor_ids)
           then HTTPException HTTP_403_FORBIDDEN
                  "You do not have permission to view this child's reports."
           else Ok (filter (fun r => ChildReport.child_id r =? cid) query)
       end
     else
       (* elif sponsor_id: *)
       if negb (is_admin user) && negb (User.id user =? sid)
       then HTTPException HTTP_403_FORBIDDEN
              "You do not have permission to view these reports."
       else
       match user_with_role db sid SPONSOR with
       | None => HTTPException HTTP_404_NOT_FOUND "Sponsor not found."
       | Some sponsor =>
           let child_ids :=
             map Sponsorship.child_id (sponsorships_as_sponsor db sponsor) in
           match child_ids with
           | [] =>
               HTTPException HTTP_404_NOT_FOUND
                 "No sponsored children found."
           | _ :: _ =>
               Ok (filter (fun r => Z_in (ChildReport.child_id r) child_ids)
                          query)
           end
       end) ;;
  reports_page query page page_size "No reports found.".

Definition delete_child_report (db : Session)
           (logged_in_user : LoggedInUser) (report_id : Z)
  : result (Session * JSONResponse Z) :=
  user <- get_user_or_404 db (token_id logged_in_user) "User not found" ;;
  if negb (is_admin user)
  then HTTPException HTTP_403_FORBIDDEN
         "You do not have permission to delete reports."
  else
  match first (filter (fun r => ChildReport.id r =? report_id)
                      (child_reports db)) with
  | None => HTTPException HTTP_404_NOT_FOUND "Report not found."
  | Some report =>
      Ok (with_child_reports db
            (delete_row ChildReport.id report (child_reports db)),
          create_response "Report deleted successfully." report_id
            HTTP_200_OK None)
  end.

(** ** Sponsor views, the listings ([api/sponsors.py]) *)

Definition get_sponsor_payments (db : Session)
           (logged_in_user : LoggedInUser) (page page_size : Z)
  : result (JSONResponse (ListData Payment.t)) :=
  user <- get_user_or_404 db (token_id logged_in_user) "User not found" ;;
  if negb (UserRole_eqb (User.role user) SPONSOR)
  then HTTPException HTTP_403_FORBIDDEN
         "Only sponsors can access this resource."
  else
    let query :=
      filter (fun q => Payment.sponsor_id q =? User.id user) (payments db) in
    let pagination := paginate_query query page page_size in
    match results pagination with
    | [] => HTTPException HTTP_404_NOT_FOUND "No payments found."
    | _ :: _ =>
        Ok (create_response "Sponsor payments retrieved successfully."
              {| ld_page := page;
                 ld_page_size := page_size;
                 ld_total := total_count pagination;
                 ld_total_pages := total_pages pagination;
                 ld_items := results pagination |}
              HTTP_200_OK None)
    end.

Definition get_sponsor_reports (db : Session)
           (logged_in_user : LoggedInUser) (page page_size : Z)
  : result (JSONResponse (ListData ChildReport.t)) :=
  user <- get_user_or_404 db (token_id logged_in_user) "User not found" ;;
  if negb (UserRole_eqb (User.role user) SPONSOR)
  then HTTPException HTTP_403_FORBIDDEN
         "Only sponsors can access this resource."
  else
    let child_ids :=
      map Sponsorship.child_id (sponsorships_as_sponsor db user) in
    match child_ids with
    | [] => HTTPException HTTP_404_NOT_FOUND "No sponsored children found."
    | _ :: _ =>
        reports_page
          (filter (fun r => Z_in (ChildReport.child_id r) child_ids)
                  (child_reports db))
          page page_size "No reports found for your sponsored children."
    end.

Definition get_sponsor_report_by_id (db : Session)
           (logged_in_user : LoggedInUser) (report_id : Z)
  : result (JSONResponse ChildReport.t) :=
  user <- get_user_or_404 db (token_id logged_in_user) "User not found" ;;
  if negb (UserRole_eqb (User.role user) SPONSOR)
  then HTTPException HTTP_403_FORBIDDEN
         "Only sponsors can access this resource."
  else
  match first (filter (fun r => ChildReport.id r =? report_id)
                      (child_reports db)) with
  | None => HTTPException HTTP_404_NOT_FOUND "Report not found."
  | Some report =>
      let sponsored_child_ids :=
        map Sponsorship.child_id (sponsorships_as_sponsor db user) in
      if negb (Z_in (ChildReport.child_id report) sponsored_child_ids)
      then HTTPException HTTP_403_FORBIDDEN
             "You are not authorized to view this report."
      else
        Ok (create_response "Report retrieved successfully." report
              HTTP_200_OK None)
  end.

(** ** Admin views ([api/admin.py]) *)

Record DashboardStats : Type := {
  total_sponsors : Z;
  total_children : Z;
  total_payments : Z;
  total_amount : float
}.

(** [query.count()] *)
Definition count {A} (rows : list A) : Z := Z.of_nat (List.length rows).

(** [func.coalesce(x, 0)]: a NULL is replaced by 0. *)
Definition coalesce (x : option float) : float :=
  match x with
  | Some v => v
  | None => 0%float
  end.

Section Dashboard.

(** [func.sum] is evaluated by the database engine: [sql_sum] is its
    SUM over a column of floats, [None] for NULL (which is what SQL
    gives for no row). *)
Variable sql_sum : list float -> option float.

Definition get_admin_dashboard (db : Session)
           (logged_in_user : LoggedInUser)
  : result (JSONResponse DashboardStats) :=
  user <- get_user_or_404 db (token_id logged_in_user) "User not found" ;;
  if negb (is_admin user)
  then HTTPException HTTP_403_FORBIDDEN "You do not have admin privileges"
  else
    let total_sponsors :=
      count (filter (fun u => UserRole_eqb (User.role u) SPONSOR)
                    (users db)) in
    let total_children :=
      count (filter (fun u => UserRole_eqb (User.role u) CHILD)
                    (users db)) in
    let total_payments := count (payments db) in
    let total_amount :=
      coalesce (sql_sum (map Payment.amount (payments db))) in
    if json_compliant total_amount
    then Ok (create_response
               "Admin dashboard statistics retrieved successfully"
               {| total_sponsors := total_sponsors;
                  total_children := total_children;
                  total_payments := total_payments;
                  total_amount := total_amount |}
               HTTP_200_OK None)
    else Unhandled "ValueError".

End Dashboard.

(** The five listings of the admin have one body: the count of the
    query, the page by offset and limit, the ceiling division, and for
    an empty page the bare empty list (here [None]) under the
    "No ... found" message; else the rows of the page go into the
    response.  [loads] says of a stored row that [.all()] can read it
    back, [renders] that the response can carry it. *)
Definition admin_listing {A} (db : Session) (logged_in_user : LoggedInUser)
           (query : list A) (loads renders : A -> bool)
           (none_found retrieved : string) (page page_size : Z)
  : result (JSONResponse (option (ListData A))) :=
  user <- get_user_or_404 db (token_id logged_in_user) "User not found" ;;
  if negb (is_admin user)
  then HTTPException HTTP_403_FORBIDDEN "You do not have admin privileges"
  else
    let total := count query in
    let offset := (page - 1) * page_size in
    let rows :=
      firstn (Z.to_nat page_size) (skipn (Z.to_nat offset) query) in
    if negb (forallb loads rows) then Unhandled "LookupError" else
    let total_pages := (total + page_size - 1) / page_size in
    match rows with
    | [] => Ok (create_response none_found None HTTP_200_OK None)
    | _ :: _ =>
        if forallb renders rows
        then Ok (create_response retrieved
                   (Some {| ld_page := page;
                            ld_page_size := page_size;
                            ld_total := total;
                            ld_total_pages := total_pages;
                            ld_items := rows |})
                   HTTP_200_OK None)
        else Unhandled "ValueError"
    end.

Definition get_all_sponsors (db : Session) (logged_in_user : LoggedInUser)
           (page page_size : Z) :=
  admin_listing db logged_in_user
    (filter (fun u => UserRole_eqb (User.role u) SPONSOR) (users db))
    (fun _ => true) (fun _ => true)
    "No sponsors found" "Sponsors retrieved successfully" page page_size.

Definition get_all_children (db : Session) (logged_in_user : LoggedInUser)
           (page page_size : Z) :=
  admin_listing db logged_in_user
    (filter (fun u => UserRole_eqb (User.role u) CHILD) (users db))
    (fun _ => true) (fun _ => true)
    "No children found" "Children retrieved successfully" page page_size.

(** A payment whose amount is not finite is stored (see
    [create_payment]) and cannot be rendered. *)
Definition get_all_payments (db : Session) (logged_in_user : LoggedInUser)
           (page page_size : Z) :=
  admin_listing db logged_in_user (payments db)
    (fun _ => true) (fun q => json_compliant (Payment.amount q))
    "No payments found" "Payments retrieved successfully" page page_size.

Definition get_all_sponsorships (db : Session)
           (logged_in_user : LoggedInUser) (page page_size : Z) :=
  admin_listing db logged_in_user (sponsorships db)
    (fun _ => true) (fun _ => true)
    "No sponsorships found" "Sponsorships retrieved successfully"
    page page_size.

(** A report whose status is no member of the column's Enum is stored
    (see [create_child_report]) and cannot be read back. *)
Definition get_all_child_reports (db : Session)
           (logged_in_user : LoggedInUser) (page page_size : Z) :=
  admin_listing db logged_in_user (child_reports db)
    (fun r => report_status (ChildReport.status r)) (fun _ => true)
    "No child reports found" "Child reports retrieved successfully"
    page page_size.

(** The rows that a list response shows: those of its page, none under
    the bare empty list and none when the call fails. *)
Definition listed {A} (r : result (JSONResponse (option (ListData A))))
  : list A :=
  match r with
  | Ok resp =>
      match data resp with
      | Some d => ld_items d
      | None => []
      end
  | _ => []
  end.

(** A listing, as a function of the page, pages through [table] by
    [page_size]: every page from 1 on is answered with 200, with the
    bare empty list under the message [none_found] when the page
    starts past the last row and else, under the message [retrieved],
    with the page number, the page size, the number of rows of the
    table, the number of pages and the rows of the page, which are as
    many as the table has left, up to [page_size]; and pages 1 to the
    last, one after the other, are the table. *)
Definition pages_through {A} (table : list A) (page_size : Z)
           (none_found retrieved : string)
           (endpoint : Z -> result (JSONResponse (option (ListData A))))
  : Prop :=
  (forall page, 1 <= page ->
     exists resp,
       endpoint page = Ok resp
       /\ status_code resp = HTTP_200_OK
       /\ match data resp with
          | None =>
              message resp = none_found
              /\ count table <= (page - 1) * page_size
          | Some d =>
              message resp = retrieved
              /\ (page - 1) * page_size < count table
              /\ ld_page d = page
              /\ ld_page_size d = page_size
              /\ ld_total d = count table
              /\ ld_total_pages d = (count table + page_size - 1) / page_size
              /\ count (ld_items d)
                 = Z.min page_size (count table - (page - 1) * page_size)
              /\ forall x, In x (ld_items d) -> In x table
          end)
  /\ List.concat
       (map (fun page => listed (endpoint (Z.of_nat page)))
            (seq 1 (Z.to_nat ((count table + page_size - 1) / page_size))))
     = table.

(** ** Authentication ([core/security.py], [api/auth.py]) *)

Definition HTTP_401_UNAUTHORIZED : Z := 401.

(** [s[n:]] *)
Fixpoint drop (n : nat) (s : string) : string :=
  match n, s with
  | O, _ => s
  | S n', String _ s' => drop n' s'
  | S _, EmptyString => EmptyString
  end.

(** The piece of [s] before the first occurrence of [sep] (all of [s]
    when there is none): [s.split(sep)[0]]. *)
Fixpoint until_sep (sep s : string) : string :=
  match s with
  | EmptyString => EmptyString
  | String c s' =>
      if String.prefix sep s then EmptyString
      else String c (until_sep sep s')
  end.

(** What follows the first occurrence of [sep] in [s], if any. *)
Fixpoint after_first (sep s : string) : option string :=
  if String.prefix sep s then Some (drop (String.length sep) s)
  else match s with
       | EmptyString => None
       | String _ s' => after_first sep s'
       end.

(** [s.split(sep)[1]] for a non-empty [sep]; [None] is the IndexError
    of a string without [sep]. *)
Definition split_1 (sep s : string) : option string :=
  match after_first sep s with
  | Some rest => Some (until_sep sep rest)
  | None => None
  end.

(** What the dependency reads of the request, and the claims of a
    decoded token ([payload.get] of a missing claim is [None]). *)
Record Request : Type := {
  cookies_access_token : option string;
  headers_authorization : option string
}.

Record Payload : Type := {
  payload_sub : option string;
  payload_id : option Z;
  payload_role : option string
}.

Record CurrentUser : Type := {
  cu_id : Z;
  cu_username : string;
  cu_role : option string
}.

Section Security.

(** [jwt.decode(token, SECRET_KEY, algorithms=[ALGORITHM])] of
    python-jose; [None] is a [JWTError]. *)
Variable jwt_decode : string -> option Payload.

Definition get_current_user (request : Request) : result CurrentUser :=
  let token := cookies_access_token request in
  let token :=
    if truthy_str token then token
    else
      match headers_authorization request with
      | Some auth_header =>
          if truthy_str (Some auth_header)
             && String.prefix "Bearer " auth_header
          then split_1 "Bearer " auth_header
          else token
      | None => token
      end in
  match token with
  | None => HTTPException HTTP_401_UNAUTHORIZED "Not authenticated"
  | Some token =>
      if negb (truthy_str (Some token))
      then HTTPException HTTP_401_UNAUTHORIZED "Not authenticated"
      else
        token <-
          (if String.prefix "Bearer " token
           then match split_1 "Bearer " token with
                | Some t => Ok t
                | None => Unhandled "IndexError"
                end
           else Ok token) ;;
        match jwt_decode token with
        | None =>
            HTTPException HTTP_401_UNAUTHORIZED "Invalid or expired token"
        | Some payload =>
            if negb (truthy (payload_id payload))
               || negb (truthy_str (payload_sub payload))
            then HTTPException HTTP_401_UNAUTHORIZED "Invalid token"
            else
              Ok {| cu_id := or_else (payload_id payload) 0;
                    cu_username := or_else (payload_sub payload) "";
                    cu_role := payload_role payload |}
        end
  end.

End Security.

(** The answer of the login: the body and the [access_token] cookie. *)
Record LoginResult : Type := {
  lr_id : Z;
  lr_username : string;
  lr_role : UserRole;
  lr_access_token : string;
  lr_cookie : string
}.

Section Auth.

(** [verify_password] (bcrypt) and [create_access_token] (a signed
    token of the id, the username, the role and the days of validity)
    of [core/security.py].  The limit of 20 requests a minute is a
    matter of time and is not part of the model. *)
Variable verify_password : string -> string -> bool.
Variable create_access_token : Z -> string -> string -> Z -> string.

Definition create_token (db : Session) (username password : string)
  : result LoginResult :=
  match first (filter (fun u => String.eqb (User.username u) username)
                      (users db)) with
  | None => HTTPException HTTP_404_NOT_FOUND "User not found"
  | Some user =>
      if negb (verify_password password (User.hashed_password user))
      then HTTPException HTTP_401_UNAUTHORIZED "Incorrect password"
      else
        let token :=
          create_access_token (User.id user) (User.username user)
                              (UserRole_value (User.role user)) 7 in
        Ok {| lr_id := User.id user;
              lr_username := User.username user;
              lr_role := User.role user;
              lr_access_token := token;
              lr_cookie := "Bearer " ++ token |}
  end.

End Auth.

(** ** The API as a transition system

    [main.py] registers the routers; the calls that write to the store
    are the thirteen below.  [handle] runs one of them for a principal
    and keeps the store it leaves: what the call committed, also when
    the refresh or the response that follows the commit raises. *)

Inductive Call : Type :=
| CreateUser (user_data : UserCreate)
| UpdateUser (user_data : UserCreate) (user_id : Z)
| DeleteUser (user_id : Z)
| CreateSponsorship (sponsorship_data : SponsorshipBase)
| UpdateSponsorship (sponsorship_data : SponsorshipUpdate)
                    (sponsorship_id : Z)
| DeleteSponsorship (sponsorship_id : Z)
| CreatePayment (now : datetime) (payment_data : PaymentCreate)
| UpdatePayment (payment_data : PaymentUpdate) (payment_id : Z)
| DeletePayment (payment_id : Z)
| CreateChildReport (report_data : ChildReportCreate)
| UpdateChildReport (report_data : option ChildReportUpdate) (report_id : Z)
| DeleteChildReport (report_id : Z)
| MarkReportAsRead (report_id : Z).

Definition store_of {A} (r : result (Session * A)) : result Session :=
  match r with
  | Ok (db, _) => Ok db
  | HTTPException c d => HTTPException c d
  | Unhandled e => Unhandled e
  end.

Section Api.

Variable hash_password : string -> string.
Variable password_pattern_match : string -> bool.

Definition handle (db : Session) (logged_in_user : LoggedInUser)
           (call : Call) : result Session :=
  match call with
  | CreateUser d =>
      store_of (create_user hash_password password_pattern_match
                            db logged_in_user d)
  | UpdateUser d i => update_user hash_password db logged_in_user d i
  | DeleteUser i => store_of (delete_user db logged_in_user i)
  | CreateSponsorship d => store_of (create_sponsorship db logged_in_user d)
  | UpdateSponsorship d i =>
      store_of (update_sponsorship db logged_in_user d i)
  | DeleteSponsorship i => delete_sponsorship db logged_in_user i
  | CreatePayment now d =>
      store_of (create_payment_commit db now logged_in_user d)
  | UpdatePayment d i =>
      store_of (update_payment_commit db logged_in_user d i)
  | DeletePayment i => store_of (delete_payment db logged_in_user i)
  | CreateChildReport d =>
      store_of (create_child_report_commit db logged_in_user d)
  | UpdateChildReport d i =>
      store_of (update_child_report_commit db logged_in_user d i)
  | DeleteChildReport i => store_of (delete_child_report db logged_in_user i)
  | MarkReportAsRead i => store_of (mark_report_as_read i db logged_in_user)
  end.

(** The stores that a sequence of calls can lead to from [db] (a call
    that raises before its commit leaves the store alone). *)
Inductive reachable (db : Session) : Session -> Prop :=
| reach_refl : reachable db db
| reach_step (db1 db2 : Session) (logged_in_user : LoggedInUser)
             (call : Call) :
    reachable db db1 ->
    handle db1 logged_in_user call = Ok db2 ->
    reachable db db2.

End Api.

(** What one call that commits does to the store: it adds a row under
    a fresh key, rewrites a row in place, or deletes a row (a user with
    all the rows that name it). *)
Inductive change (db db' : Session) : Prop :=
| ch_add_user (u : User.t) :
    db' = with_users db (users db ++ [u]) ->
    ~ In (User.id u) (map User.id (users db)) ->
    (forall v, In v (users db) -> User.username v <> User.username u) ->
    change db db'
| ch_upd_user (u old : User.t) :
    db' = with_users db (map (replace_row User.id u) (users db)) ->
    In old (users db) ->
    User.id u = User.id old ->
    (forall v, In v (users db) -> User.id v <> User.id u ->
               User.username v <> User.username u) ->
    change db db'
| ch_del_user (i : Z) :
    db' = delete_user_cascade db i ->
    change db db'
| ch_add_sponsorship (s : Sponsorship.t) :
    db' = with_sponsorships db (sponsorships db ++ [s]) ->
    ~ In (Sponsorship.id s) (map Sponsorship.id (sponsorships db)) ->
    In (Sponsorship.sponsor_id s) (map User.id (users db)) ->
    In (Sponsorship.child_id s) (map User.id (users db)) ->
    (forall t, In t (sponsorships db) ->
               Sponsorship.sponsor_id t = Sponsorship.sponsor_id s ->
               Sponsorship.child_id t <> Sponsorship.child_id s) ->
    change db db'
| ch_upd_sponsorship (s old : Sponsorship.t) :
    db' = with_sponsorships db
            (map (replace_row Sponsorship.id s) (sponsorships db)) ->
    In old (sponsorships db) ->
    Sponsorship.id s = Sponsorship.id old ->
    Sponsorship.sponsor_id s = Sponsorship.sponsor_id old ->
    Sponsorship.child_id s = Sponsorship.child_id old ->
    change db db'
| ch_del_sponsorship (s : Sponsorship.t) :
    db' = with_sponsorships db
            (delete_row Sponsorship.id s (sponsorships db)) ->
    change db db'
| ch_add_payment (p : Payment.t) :
    db' = with_payments db (payments db ++ [p]) ->
    ~ In (Payment.id p) (map Payment.id (payments db)) ->
    In (Payment.sponsor_id p) (map User.id (users db)) ->
    In (Payment.child_id p) (map User.id (users db)) ->
    (forall q, In q (payments db) ->
               Payment.transaction_id q <> Payment.transaction_id p) ->
    change db db'
| ch_upd_payment (p old : Payment.t) :
    db' = with_payments db (map (replace_row Payment.id p) (payments db)) ->
    In old (payments db) ->
    Payment.id p = Payment.id old ->
    Payment.sponsor_id p = Payment.sponsor_id old ->
    Payment.child_id p = Payment.child_id old ->
    (forall q, In q (payments db) -> Payment.id q <> Payment.id p ->
               Payment.transaction_id q <> Payment.transaction_id p) ->
    change db db'
| ch_del_payment (p : Payment.t) :
    db' = with_payments db (delete_row Payment.id p (payments db)) ->
    change db db'
| ch_add_report (r : ChildReport.t) :
    db' = with_child_reports db (child_reports db ++ [r]) ->
    ~ In (ChildReport.id r) (map ChildReport.id (child_reports db)) ->
    In (ChildReport.child_id r) (map User.id (users db)) ->
    change db db'
| ch_upd_report (r old : ChildReport.t) :
    db' = with_child_reports db
            (map (replace_row ChildReport.id r) (child_reports db)) ->
    In old (child_reports db) ->
    ChildReport.id r = ChildReport.id old ->
    ChildReport.child_id r = ChildReport.child_id old ->
    change db db'
| ch_del_report (r : ChildReport.t) :
    db' = with_child_reports db
            (delete_row ChildReport.id r (child_reports db)) ->
    change db db'.

(** ** Invariants of the store *)

(** No two rows of a table have the same primary key. *)
Definition primary_keys_unique (db : Session) : Prop :=
  NoDup (map User.id (users db))
  /\ NoDup (map Sponsorship.id (sponsorships db))
  /\ NoDup (map Payment.id (payments db))
  /\ NoDup (map ChildReport.id (child_reports db)).

(** No two payments have the same transaction id, no two users the same
    username. *)
Definition unique_columns (db : Session) : Prop :=
  NoDup (map Payment.transaction_id (payments db))
  /\ NoDup (map User.username (users db)).

(** No two sponsorship rows link the same sponsor and child. *)
Definition sponsorship_pairs_unique (db : Session) : Prop :=
  NoDup (map (fun s => (Sponsorship.sponsor_id s, Sponsorship.child_id s))
             (sponsorships db)).

(** Every sponsor_id and child_id of a row is the id of a stored
    user. *)
Definition references_resolve (db : Session) : Prop :=
  (forall s, In s (sponsorships db) ->
             In (Sponsorship.sponsor_id s) (map User.id (users db))
             /\ In (Sponsorship.child_id s) (map User.id (users db)))
  /\ (forall q, In q (payments db) ->
                In (Payment.sponsor_id q) (map User.id (users db))
                /\ In (Payment.child_id q) (map User.id (users db)))
  /\ (forall r, In r (child_reports db) ->
                In (ChildReport.child_id r) (map User.id (users db))).

(** ** What a partial update must leave alone

    [old] is the stored row before the update and [new] the row after
    it: identity and relationship fields are equal, and so is every
    field whose value in the request is [None].  (In a user form the
    names, the role, the username and the password are required.) *)

Definition payment_update_frame (payment_data : PaymentUpdate)
           (old new : Payment.t) : Prop :=
  Payment.id new = Payment.id old
  /\ Payment.sponsor_id new = Payment.sponsor_id old
  /\ Payment.child_id new = Payment.child_id old
  /\ (pu_amount payment_data = None ->
      Payment.amount new = Payment.amount old)
  /\ (pu_currency payment_data = None ->
      Payment.currency new = Payment.currency old)
  /\ (pu_transaction_id payment_data = None ->
      Payment.transaction_id new = Payment.transaction_id old)
  /\ (pu_payment_method payment_data = None ->
      Payment.payment_method new = Payment.payment_method old)
  /\ (pu_status payment_data = None ->
      Payment.status new = Payment.status old)
  /\ (pu_payment_date payment_data = None ->
      Payment.payment_date new = Payment.payment_date old).

Definition report_update_frame (report_data : option ChildReportUpdate)
           (old new : ChildReport.t) : Prop :=
  ChildReport.id new = ChildReport.id old
  /\ ChildReport.child_id new = ChildReport.child_id old
  /\ (getattr_report report_data ru_report_date = None ->
      ChildReport.report_date new = ChildReport.report_date old)
  /\ (getattr_report report_data ru_report_type = None ->
      ChildReport.report_type new = ChildReport.report_type old)
  /\ (getattr_report report_data ru_details = None ->
      ChildReport.details new = ChildReport.details old)
  /\ (getattr_report report_data ru_status = None ->
      ChildReport.status new = ChildReport.status old).

Definition sponsorship_update_frame (sponsorship_data : SponsorshipUpdate)
           (old new : Sponsorship.t) : Prop :=
  Sponsorship.id new = Sponsorship.id old
  /\ Sponsorship.sponsor_id new = Sponsorship.sponsor_id old
  /\ Sponsorship.child_id new = Sponsorship.child_id old
  /\ (su_start_date sponsorship_data = None ->
      Sponsorship.start_date new = Sponsorship.start_date old)
  /\ (su_status sponsorship_data = None ->
      Sponsorship.status new = Sponsorship.status old).

Definition user_update_frame (user_data : UserCreate)
           (old new : User.t) : Prop :=
  User.id new = User.id old
  /\ User.profile_image new = User.profile_image old
  /\ User.image_gallery new = User.image_gallery old
  /\ (uc_is_active user_data = None ->
      User.is_active new = User.is_active old)
  /\ (uc_email user_data = None -> User.email new = User.email old)
  /\ (uc_phone_number user_data = None ->
      User.phone_number new = User.phone_number old)
  /\ (uc_date_of_birth user_data = None ->
      User.date_of_birth new = User.date_of_birth old)
  /\ (uc_gender user_data = None -> User.gender new = User.gender old)
  /\ (uc_background_info user_data = None ->
      User.background_info new = User.background_info old).

(** ** A small store used to run the handlers *)

Module Sample.

Definition mk_user (i : Z) (name : string) (r : UserRole) : User.t :=
  {| User.id := i;
     User.first_name := name;
     User.last_name := "Doe";
     User.role := r;
     User.username := name;
     User.hashed_password := "$2b$12$hash";
     User.email := None;
     User.phone_number := None;
     User.date_of_birth := Some {| year := 2015; month := 6; day := 15 |};
     User.gender := Some FEMALE;
     User.background_info := None;
     User.profile_image := None;
     User.image_gallery := None;
     User.is_active := true |}.

Definition admin : User.t := mk_user 1 "jane" ADMIN.
Definition sponsor_a : User.t := mk_user 2 "alice" SPONSOR.
Definition sponsor_b : User.t := mk_user 3 "bob" SPONSOR.
Definition child_c : User.t := mk_user 4 "carol" CHILD.
Definition child_d : User.t := mk_user 5 "dan" CHILD.

Definition day0 : date := {| year := 2024; month := 3; day := 20 |}.
Definition noon : datetime :=
  {| dt_date := day0; dt_microseconds := 43200000000; tzinfo := None |}.

Definition mk_sponsorship (i s c : Z) (st : string) : Sponsorship.t :=
  {| Sponsorship.id := i;
     Sponsorship.sponsor_id := s;
     Sponsorship.child_id := c;
     Sponsorship.start_date := day0;
     Sponsorship.status := st |}.

Definition mk_payment (i s c : Z) (t : string) : Payment.t :=
  {| Payment.id := i;
     Payment.sponsor_id := s;
     Payment.child_id := c;
     Payment.amount := 5000%float;
     Payment.currency := "KSh";
     Payment.transaction_id := t;
     Payment.payment_method := "Mpesa";
     Payment.status := "completed";
     Payment.payment_date := noon |}.

Definition report1 : ChildReport.t :=
  {| ChildReport.id := 1;
     ChildReport.child_id := 4;
     ChildReport.report_date := day0;
     ChildReport.report_type := "Academic";
     ChildReport.details := "Scored an A grade.";
     ChildReport.status := "unread" |}.

(** Carol has two sponsors, Alice (first row) and Bob; Alice's
    sponsorship of Dan is canceled. *)
Definition db : Session :=
  {| users := [admin; sponsor_a; sponsor_b; child_c; child_d];
     sponsorships := [mk_sponsorship 1 2 4 "active";
                      mk_sponsorship 2 3 4 "active";
                      mk_sponsorship 3 2 5 "canceled"];
     payments := [mk_payment 1 2 4 "TXN1";
                  mk_payment 2 3 4 "TXN2";
                  mk_payment 3 3 4 ""];
     child_reports := [report1] |}.

Definition priced (a : float) (q : Payment.t) : Payment.t :=
  {| Payment.id := Payment.id q;
     Payment.sponsor_id := Payment.sponsor_id q;
     Payment.child_id := Payment.child_id q;
     Payment.amount := a;
     Payment.currency := Payment.currency q;
     Payment.transaction_id := Payment.transaction_id q;
     Payment.payment_method := Payment.payment_method q;
     Payment.status := Payment.status q;
     Payment.payment_date := Payment.payment_date q |}.

Definition token (u : User.t) : LoggedInUser :=
  {| token_id := User.id u;
     token_username := User.username u;
     token_role := UserRole_value (User.role u) |}.

Definition new_payment (s c : Z) (t : string) : PaymentCreate :=
  {| pc_sponsor_id := s;
     pc_child_id := c;
     pc_amount := 2000.5%float;
     pc_currency := "KSh";
     pc_transaction_id := t;
     pc_payment_method := "Mpesa";
     pc_status := "completed";
     pc_payment_date := None |}.

Definition with_amount (a : float) (d : PaymentCreate) : PaymentCreate :=
  {| pc_sponsor_id := pc_sponsor_id d;
     pc_child_id := pc_child_id d;
     pc_amount := a;
     pc_currency := pc_currency d;
     pc_transaction_id := pc_transaction_id d;
     pc_payment_method := pc_payment_method d;
     pc_status := pc_status d;
     pc_payment_date := pc_payment_date d |}.

(** An engine whose SUM adds the column in table order. *)
Definition sql_sum (xs : list float) : option float :=
  match xs with
  | [] => None
  | x :: rest => Some (fold_left PrimFloat.add rest x)
  end.

Definition set_transaction_id (t : string) : PaymentUpdate :=
  {| pu_amount := None;
     pu_currency := None;
     pu_transaction_id := Some t;
     pu_payment_method := None;
     pu_status := None;
     pu_payment_date := None |}.

Definition new_sponsorship (s c : Z) : SponsorshipBase :=
  {| sb_sponsor_id := s;
     sb_child_id := c;
     sb_start_date := day0;
     sb_status := "active" |}.

Definition user_form (name : string) (r : UserRole) : UserCreate :=
  {| uc_first_name := name;
     uc_last_name := "Doe";
     uc_role := r;
     uc_is_active := Some true;
     uc_username := name;
     uc_password := "Test1234!";
     uc_email := None;
     uc_phone_number := None;
     uc_date_of_birth := None;
     uc_gender := None;
     uc_background_info := None |}.

End Sample.

(** * Pagination *)

Lemma total_pages_is_ceiling (n k : Z) :
  0 <= n -> 1 <= k ->
  let t := (n + k - 1) / k in
  n <= t * k /\ (t - 1) * k < n.
Proof.
  intros Hn Hk t.
  assert (Hdiv : n + k - 1 = k * t + (n + k - 1) mod k)
    by (apply Z.div_mod; lia).
  assert (Hmod : 0 <= (n + k - 1) mod k < k)
    by (apply Z.mod_pos_bound; lia).
  split; nia.
Qed.

Lemma skipn_beyond {A} (l : list A) (n : nat) :
  (List.length l <= n)%nat -> skipn n l = [].
Proof.
  revert n; induction l as [|a l IH]; intros [|n] H; simpl in *;
    try reflexivity; try lia.
  apply IH; lia.
Qed.

(** C1. For a page size in [1,100], [paginate_query] reports the
    number of selected rows as total_count and
    total_pages = (total_count + page_size - 1) // page_size, which is
    the ceiling of total_count / page_size and is 0 when total_count is
    0; a page beyond total_pages gets an empty result sequence with the
    same total_count and total_pages as any other page. *)
Theorem paginate_query_ceiling_and_overrun
        (A : Type) (query : list A) (page page_size : Z) :
  1 <= page_size <= 100 ->
  let p := paginate_query query page page_size in
  0 <= total_count p
  /\ total_count p = Z.of_nat (List.length query)
  /\ total_pages p = (total_count p + page_size - 1) / page_size
  /\ (total_count p <= total_pages p * page_size
      /\ (total_pages p - 1) * page_size < total_count p)
  /\ (total_count p = 0 -> total_pages p = 0)
  /\ (total_pages p < page ->
      results p = []
      /\ total_count p = total_count (paginate_query query 1 page_size)
      /\ total_pages p = total_pages (paginate_query query 1 page_size)).
Proof.
  intros Hps p. unfold p, paginate_query; simpl.
  set (n := Z.of_nat (List.length query)).
  assert (Hn : 0 <= n) by (unfold n; lia).
  destruct (total_pages_is_ceiling n page_size Hn) as [Hup Hlow];
    [lia|]. simpl in Hup, Hlow.
  repeat split; try assumption; try reflexivity.
  - intros H0. rewrite H0. apply Z.div_small. lia.
  - rewrite skipn_beyond; [apply firstn_nil|].
    apply Nat2Z.inj_le. fold n.
    rewrite Z2Nat.id by nia. nia.
Qed.

Lemma paginate_query_ceiling_and_overrun_witness :
  1 <= 2 <= 100
  /\ total_pages (paginate_query [1; 2; 3; 4; 5] 4 2) = 3
  /\ results (paginate_query [1; 2; 3; 4; 5] 4 2) = [].
Proof.
  assert (Hps : 1 <= 2 <= 100) by lia.
  pose proof (paginate_query_ceiling_and_overrun Z [1; 2; 3; 4; 5] 4 2 Hps)
    as H.
  cbv zeta in H.
  destruct H as (_ & _ & Ht & _ & _ & Hover).
  assert (Hlt : total_pages (paginate_query [1; 2; 3; 4; 5] 4 2) < 4)
    by (vm_compute; reflexivity).
  destruct (Hover Hlt) as (Hr & _ & _).
  split; [exact Hps | split; [exact Ht | exact Hr]].
Defined.

(** * Queries *)

Lemma first_filter_none {A} (f : A -> bool) (l : list A) :
  first (filter f l) = None <-> (forall x, In x l -> f x = false).
Proof.
  induction l as [|a l IH]; simpl.
  - split; [intros _ x []|reflexivity].
  - destruct (f a) eqn:Ha; simpl.
    + split; [discriminate|].
      intros H. rewrite (H a (or_introl eq_refl)) in Ha. discriminate.
    + rewrite IH. split.
      * intros H x [<-|Hx]; [assumption|apply H, Hx].
      * intros H x Hx. apply H. right. exact Hx.
Qed.

Lemma first_filter_some {A} (f : A -> bool) (l : list A) (x : A) :
  first (filter f l) = Some x -> In x l /\ f x = true.
Proof.
  induction l as [|a l IH]; simpl; [discriminate|].
  destruct (f a) eqn:Ha; simpl.
  - intros [= <-]. split; [left; reflexivity|exact Ha].
  - intros H. destruct (IH H) as [Hin Hf]. split; [right|]; assumption.
Qed.

Lemma first_filter_exists {A} (f : A -> bool) (l : list A) (x : A) :
  In x l -> f x = true -> exists y, first (filter f l) = Some y.
Proof.
  intros Hin Hf.
  destruct (first (filter f l)) as [y|] eqn:E; [exists y; reflexivity|].
  rewrite first_filter_none in E. rewrite (E x Hin) in Hf. discriminate.
Qed.

Lemma next_id_fresh (ids : list Z) : ~ In (next_id ids) ids.
Proof.
  assert (H : forall i, In i ids -> i <= fold_right Z.max 0 ids).
  { induction ids as [|a ids IH]; intros i Hi; [contradiction|].
    cbn [fold_right]. destruct Hi as [<-|Hi]; [lia|].
    specialize (IH i Hi). lia. }
  intros Hin. apply H in Hin. unfold next_id in Hin. lia.
Qed.

Lemma lookup_after_append {A} (key : A -> Z) (x : A) (k : Z) (l : list A) :
  ~ In (key x) (map key l) ->
  first (filter (fun y => key y =? k) (l ++ [x]))
  = if k =? key x then Some x
    else first (filter (fun y => key y =? k) l).
Proof.
  intros Hfresh. rewrite filter_app. cbn [filter].
  destruct (k =? key x) eqn:Ek.
  - apply Z.eqb_eq in Ek. subst k. rewrite Z.eqb_refl.
    assert (E : filter (fun y => key y =? key x) l = []).
    { induction l as [|a l IH]; [reflexivity|]. cbn [filter].
      destruct (key a =? key x) eqn:Ea.
      - exfalso. apply Hfresh. left. apply Z.eqb_eq, Ea.
      - apply IH. intros Hin. apply Hfresh. right. exact Hin. }
    rewrite E. reflexivity.
  - rewrite Z.eqb_sym, Ek, app_nil_r. reflexivity.
Qed.

(** * Payments: the sponsorship precondition *)

Lemma is_finite_not_nan (x : float) : is_finite x = true -> is_nan x = false.
Proof.
  unfold is_finite. destruct (is_nan x); [discriminate|reflexivity].
Qed.

Lemma transaction_id_not_taken (db : Session) (i : Z) (t : string) :
  (forall q, In q (payments db) -> Payment.transaction_id q <> t) ->
  transaction_id_taken db i t = false.
Proof.
  intros Hfresh. unfold transaction_id_taken.
  destruct (existsb _ (payments db)) eqn:Ex; [|reflexivity].
  apply existsb_exists in Ex. destruct Ex as (q & Hq & Hb).
  apply andb_true_iff in Hb. destruct Hb as [_ Hb].
  apply String.eqb_eq in Hb. exfalso. exact (Hfresh q Hq Hb).
Qed.

(** What a commit of [create_payment] has done: the checks passed, and
    one row, made of the request, was appended under a fresh id. *)
Lemma create_payment_commit_inv
      (db : Session) (now : datetime) (logged_in_user : LoggedInUser)
      (payment_data : PaymentCreate) (db' : Session) (p : Payment.t) :
  create_payment_commit db now logged_in_user payment_data = Ok (db', p) ->
  db' = with_payments db (payments db ++ [p])
  /\ Payment.id p = next_id (map Payment.id (payments db))
  /\ Payment.sponsor_id p = pc_sponsor_id payment_data
  /\ Payment.child_id p = pc_child_id payment_data
  /\ Payment.transaction_id p = pc_transaction_id payment_data
  /\ (exists sponsor,
        user_with_role db (pc_sponsor_id payment_data) SPONSOR = Some sponsor)
  /\ (exists child,
        user_with_role db (pc_child_id payment_data) CHILD = Some child)
  /\ (forall q, In q (payments db) ->
                Payment.transaction_id q <> Payment.transaction_id p).
Proof.
  unfold create_payment_commit.
  destruct (get_user_or_404 _ _ _) as [user| |]; cbn [bind];
    try discriminate.
  destruct (negb (is_admin user) && _); [discriminate|].
  destruct (user_with_role db (pc_sponsor_id payment_data) SPONSOR)
    as [sponsor|] eqn:Hs; [|discriminate].
  destruct (user_with_role db (pc_child_id payment_data) CHILD)
    as [child|] eqn:Hc; [|discriminate].
  destruct (first (filter _ (sponsorships db))); [|discriminate].
  destruct (first (filter _ (payments db))) eqn:E; [discriminate|].
  unfold add_payment.
  destruct (amount_is_null _ || transaction_id_taken _ _ _);
    [discriminate|].
  intros [= <- <-]. cbn.
  split; [reflexivity|]. split; [reflexivity|]. split; [reflexivity|].
  split; [reflexivity|]. split; [reflexivity|].
  split; [exists sponsor; reflexivity|].
  split; [exists child; reflexivity|].
  intros q Hq. rewrite first_filter_none in E.
  apply String.eqb_neq. exact (E q Hq).
Qed.

(** A successful [create_payment] is a commit whose row the response
    carries. *)
Lemma create_payment_inv
      (db : Session) (now : datetime) (logged_in_user : LoggedInUser)
      (payment_data : PaymentCreate) (db' : Session)
      (resp : JSONResponse Payment.t) :
  create_payment db now logged_in_user payment_data = Ok (db', resp) ->
  create_payment_commit db now logged_in_user payment_data
  = Ok (db', data resp).
Proof.
  unfold create_payment.
  destruct (create_payment_commit db now logged_in_user payment_data)
    as [[db1 p]| |]; cbn [bind]; try discriminate.
  destruct (json_compliant (Payment.amount p)); [|discriminate].
  intros [= <- <-]. reflexivity.
Qed.

(** C2, as amended.  A principal allowed to create the payment (an
    admin, or the sponsor named in it), with the sponsor and the child
    existing under their roles: without a sponsorship row of status
    "active" between the two the creation fails with 400 and the
    "create sponsorship first" detail; with such a row, a transaction
    id that no payment holds and an amount that is a finite number it
    succeeds with 201: the table of payments is the one before with one
    row more, which the response carries, which a lookup by its id
    finds, and whose fields are those of the request (the payment date
    the given one, or else the time of the call, as the column keeps
    it); the other tables are as before. *)
Theorem create_payment_requires_active_sponsorship
        (db : Session) (now : datetime) (logged_in_user : LoggedInUser)
        (payment_data : PaymentCreate) (user : User.t) :
  get_user_or_404 db (token_id logged_in_user) "User not found" = Ok user ->
  is_admin user = true \/ User.id user = pc_sponsor_id payment_data ->
  user_with_role db (pc_sponsor_id payment_data) SPONSOR <> None ->
  user_with_role db (pc_child_id payment_data) CHILD <> None ->
  ((forall s, In s (sponsorships db) ->
              Sponsorship.sponsor_id s = pc_sponsor_id payment_data ->
              Sponsorship.child_id s = pc_child_id payment_data ->
              Sponsorship.status s <> "active") ->
   create_payment db now logged_in_user payment_data
   = HTTPException HTTP_400_BAD_REQUEST no_active_sponsorship_detail)
  /\
  ((exists s, In s (sponsorships db)
              /\ Sponsorship.sponsor_id s = pc_sponsor_id payment_data
              /\ Sponsorship.child_id s = pc_child_id payment_data
              /\ Sponsorship.status s = "active") ->
   (forall q, In q (payments db) ->
              Payment.transaction_id q <> pc_transaction_id payment_data) ->
   is_finite (pc_amount payment_data) = true ->
   exists db' new_payment,
     create_payment db now logged_in_user payment_data
     = Ok (db',
           create_response "Payment recorded successfully" new_payment
             HTTP_201_CREATED
             (Some ("/payments/" ++ str_int (Payment.id new_payment))))
     /\ payments db' = (payments db ++ [new_payment])%list
     /\ users db' = users db
     /\ sponsorships db' = sponsorships db
     /\ child_reports db' = child_reports db
     /\ get_payment_or_404 db' (Payment.id new_payment) = Ok new_payment
     /\ Payment.id new_payment = next_id (map Payment.id (payments db))
     /\ ~ In (Payment.id new_payment) (map Payment.id (payments db))
     /\ Payment.sponsor_id new_payment = pc_sponsor_id payment_data
     /\ Payment.child_id new_payment = pc_child_id payment_data
     /\ Payment.amount new_payment = pc_amount payment_data
     /\ Payment.currency new_payment = pc_currency payment_data
     /\ Payment.transaction_id new_payment
        = pc_transaction_id payment_data
     /\ Payment.payment_method new_payment
        = pc_payment_method payment_data
     /\ Payment.status new_payment = pc_status payment_data
     /\ Payment.payment_date new_payment
        = replace_tzinfo (or_else (pc_payment_date payment_data) now) None).
Proof.
  intros Huser Hauth Hsponsor Hchild.
  assert (Hgate : negb (is_admin user)
                  && negb (User.id user =? pc_sponsor_id payment_data)
                  = false).
  { destruct Hauth as [-> | ->]; [reflexivity|].
    rewrite Z.eqb_refl. apply andb_false_r. }
  unfold create_payment, create_payment_commit.
  rewrite Huser. cbn [bind]. rewrite Hgate.
  destruct (user_with_role db (pc_sponsor_id payment_data) SPONSOR)
    as [sponsor|]; [|contradiction].
  destruct (user_with_role db (pc_child_id payment_data) CHILD)
    as [child|]; [|contradiction].
  split.
  - intros Hnone.
    match goal with
    | |- context [first (filter ?f (sponsorships db))] =>
        assert (E : first (filter f (sponsorships db)) = None)
    end.
    { apply first_filter_none. intros s Hs.
      destruct (Sponsorship.sponsor_id s =? pc_sponsor_id payment_data)
        eqn:E1; [|reflexivity].
      destruct (Sponsorship.child_id s =? pc_child_id payment_data)
        eqn:E2; [|reflexivity].
      simpl. apply String.eqb_neq.
      apply Hnone; [assumption| |]; apply Z.eqb_eq; assumption. }
    rewrite E. reflexivity.
  - intros (s & Hs & H1 & H2 & H3) Hfresh Hfinite.
    match goal with
    | |- context [first (filter ?f (sponsorships db))] =>
        destruct (first_filter_exists f (sponsorships db) s Hs) as [s' E]
    end.
    { rewrite H1, H2, H3, !Z.eqb_refl. reflexivity. }
    rewrite E.
    match goal with
    | |- context [first (filter ?f (payments db))] =>
        assert (E' : first (filter f (payments db)) = None)
    end.
    { apply first_filter_none. intros q Hq.
      apply String.eqb_neq. apply Hfresh, Hq. }
    rewrite E'.
    unfold add_payment, amount_is_null. cbn [Payment.amount
                                               Payment.transaction_id].
    rewrite (is_finite_not_nan _ Hfinite).
    rewrite (transaction_id_not_taken db _ _ Hfresh).
    cbn [orb bind Payment.amount]. unfold json_compliant. rewrite Hfinite.
    do 2 eexists. split; [reflexivity|].
    cbn [payments users sponsorships child_reports with_payments].
    split; [reflexivity|]. split; [reflexivity|]. split; [reflexivity|].
    split; [reflexivity|]. split.
    { unfold get_payment_or_404. cbn [payments with_payments].
      rewrite lookup_after_append by apply next_id_fresh.
      cbn [Payment.id]. rewrite Z.eqb_refl. reflexivity. }
    split; [reflexivity|]. split; [apply next_id_fresh|].
    cbn. unfold naive. destruct (pc_payment_date payment_data);
      repeat split; reflexivity.
Qed.

Lemma create_payment_requires_active_sponsorship_witness :
  create_payment Sample.db Sample.noon (Sample.token Sample.sponsor_a)
                 (Sample.new_payment 2 5 "TXN9")
  = HTTPException HTTP_400_BAD_REQUEST no_active_sponsorship_detail
  /\ exists db' new_payment,
       create_payment Sample.db Sample.noon (Sample.token Sample.sponsor_a)
                      (Sample.new_payment 2 4 "TXN9")
       = Ok (db',
             create_response "Payment recorded successfully" new_payment
               HTTP_201_CREATED (Some "/payments/4"))
       /\ payments db' = (payments Sample.db ++ [new_payment])%list
       /\ Payment.amount new_payment = 2000.5%float
       /\ Payment.transaction_id new_payment = "TXN9".
Proof.
  split.
  - apply (create_payment_requires_active_sponsorship
             Sample.db Sample.noon (Sample.token Sample.sponsor_a)
             (Sample.new_payment 2 5 "TXN9") Sample.sponsor_a).
    + reflexivity.
    + right. reflexivity.
    + vm_compute. discriminate.
    + vm_compute. discriminate.
    + simpl. intros s [<-|[<-|[<-|[]]]]; vm_compute; congruence.
  - destruct (create_payment_requires_active_sponsorship
                Sample.db Sample.noon (Sample.token Sample.sponsor_a)
                (Sample.new_payment 2 4 "TXN9") Sample.sponsor_a)
      as [_ H].
    + reflexivity.
    + right. reflexivity.
    + vm_compute. discriminate.
    + vm_compute. discriminate.
    + destruct H as (db' & p & Hr & Hp & _ & _ & _ & _ & Hid & _ & _ & _
                     & Ha & _ & Ht & _).
      * exists (Sample.mk_sponsorship 1 2 4 "active").
        simpl. repeat split. left. reflexivity.
      * simpl. intros q [<-|[<-|[<-|[]]]]; vm_compute; congruence.
      * reflexivity.
      * exists db', p. rewrite Hid in Hr.
        split; [exact Hr|]. split; [exact Hp|]. split; [exact Ha|exact Ht].
Defined.

(** C2: the claim as stated fails where the amount is no finite
    number.  Alice, a sponsor with an active sponsorship of Carol,
    records a payment under a fresh transaction id: every condition of
    the claim holds.  With a NaN amount the store refuses the row and
    nothing is persisted; with an infinite amount the request does not
    succeed either, the response cannot be rendered, while the row is
    in the store all the same. *)
Lemma create_payment_not_finite_fails :
  let alice := Sample.token Sample.sponsor_a in
  let payment_data := Sample.new_payment 2 4 "TXN9" in
  get_user_or_404 Sample.db (token_id alice) "User not found"
  = Ok Sample.sponsor_a
  /\ User.id Sample.sponsor_a = pc_sponsor_id payment_data
  /\ user_with_role Sample.db (pc_sponsor_id payment_data) SPONSOR
     = Some Sample.sponsor_a
  /\ user_with_role Sample.db (pc_child_id payment_data) CHILD
     = Some Sample.child_c
  /\ In (Sample.mk_sponsorship 1 2 4 "active") (sponsorships Sample.db)
  /\ (forall q, In q (payments Sample.db) ->
                Payment.transaction_id q <> pc_transaction_id payment_data)
  /\ create_payment Sample.db Sample.noon alice
                    (Sample.with_amount nan payment_data)
     = Unhandled "IntegrityError"
  /\ create_payment_commit Sample.db Sample.noon alice
                           (Sample.with_amount nan payment_data)
     = Unhandled "IntegrityError"
  /\ create_payment Sample.db Sample.noon alice
                    (Sample.with_amount infinity payment_data)
     = Unhandled "ValueError"
  /\ (exists db' p,
        create_payment_commit Sample.db Sample.noon alice
                              (Sample.with_amount infinity payment_data)
        = Ok (db', p)
        /\ In p (payments db') /\ Payment.amount p = infinity).
Proof.
  cbv zeta.
  split; [reflexivity|]. split; [reflexivity|]. split; [reflexivity|].
  split; [reflexivity|]. split; [simpl; tauto|]. split.
  { simpl. intros q [<-|[<-|[<-|[]]]]; vm_compute; congruence. }
  split; [reflexivity|]. split; [reflexivity|]. split; [reflexivity|].
  do 2 eexists. split; [reflexivity|]. split; [|reflexivity].
  simpl. tauto.
Qed.

(** * Payments: what a sponsor can list *)

Lemma In_firstn {A} (n : nat) (l : list A) (x : A) :
  In x (firstn n l) -> In x l.
Proof.
  revert l; induction n as [|n IH]; intros [|a l] H; simpl in H;
    try contradiction.
  destruct H as [<-|H]; [left; reflexivity|right; apply IH, H].
Qed.

Lemma In_skipn {A} (m : nat) (l : list A) (x : A) :
  In x (skipn m l) -> In x l.
Proof.
  revert l; induction m as [|m IH]; intros l H; [exact H|].
  destruct l as [|a l]; [exact H|]. right. apply IH. exact H.
Qed.

Lemma In_page {A} (l : list A) (n m : nat) (x : A) :
  In x (firstn n (skipn m l)) -> In x l.
Proof. intros H. eapply In_skipn, In_firstn, H. Qed.


Lemma get_user_or_404_found (db : Session) (i : Z) (detail : string)
      (user : User.t) :
  get_user_or_404 db i detail = Ok user ->
  In user (users db) /\ User.id user = i.
Proof.
  unfold get_user_or_404.
  destruct (first _) as [u|] eqn:E; [|discriminate].
  intros [= <-]. apply first_filter_some in E. destruct E as [Hin Hid].
  split; [exact Hin|apply Z.eqb_eq, Hid].
Qed.

Lemma user_with_role_found (db : Session) (i : Z) (r : UserRole)
      (u : User.t) :
  user_with_role db i r = Some u ->
  In u (users db) /\ User.id u = i /\ User.role u = r.
Proof.
  unfold user_with_role. intros E. apply first_filter_some in E.
  destruct E as [Hin Hb]. apply andb_true_iff in Hb. destruct Hb as [H1 H2].
  repeat split; [exact Hin|apply Z.eqb_eq, H1|].
  destruct (User.role u), r; simpl in H2; congruence.
Qed.





(** A filter of 0 is falsy and filters nothing: the request is not
    refused as unfiltered, and every payment is listed. *)
Remark get_payments_zero_sponsor_id :
  exists resp,
    get_payments Sample.db (Sample.token Sample.child_d) (Some 0) None 1 10
    = Ok resp
    /\ ld_items (data resp) = payments Sample.db.
Proof. eexists. split; reflexivity. Qed.

(** * Users: the admin gate *)

Lemma create_user_forbidden_for_non_admin
      (hash_password : string -> string)
      (password_pattern_match : string -> bool)
      (db : Session) (logged_in_user : LoggedInUser)
      (user_data : UserCreate) (user : User.t) :
  get_user_or_404 db (token_id logged_in_user) "User not found" = Ok user ->
  is_admin user = false ->
  create_user hash_password password_pattern_match db logged_in_user
              user_data
  = HTTPException HTTP_403_FORBIDDEN
      "You do not have permission to perform this action".
Proof.
  intros Huser Hadm. unfold create_user. rewrite Huser. cbn [bind].
  rewrite Hadm. reflexivity.
Qed.

(** [delete_user] looks the target up first: a missing target is a 404
    for everybody, an existing one a 403 for a non-admin. *)
Lemma delete_user_forbidden_for_non_admin
      (db : Session) (logged_in_user : LoggedInUser)
      (user_id : Z) (user target : User.t) :
  get_user_or_404 db (token_id logged_in_user) "User not found" = Ok user ->
  get_user_or_404 db user_id "User to delete not found" = Ok target ->
  is_admin user = false ->
  delete_user db logged_in_user user_id
  = HTTPException HTTP_403_FORBIDDEN
      "You do not have permission to perform this action".
Proof.
  intros Huser Htarget Hadm. unfold delete_user.
  rewrite Htarget. cbn [bind]. rewrite Huser. cbn [bind].
  rewrite Hadm. reflexivity.
Qed.

(** The only ways [update_user] fails: a principal or a target that
    does not resolve (404), or a username or email that another row
    holds.  The role of the principal is never looked at. *)
Lemma update_user_never_forbidden
      (hash_password : string -> string)
      (db : Session) (logged_in_user : LoggedInUser)
      (user_data : UserCreate) (user_id : Z) (detail : string) :
  update_user hash_password db logged_in_user user_data user_id
  <> HTTPException HTTP_403_FORBIDDEN detail.
Proof.
  unfold update_user, get_user_or_404.
  destruct (first _) as [user|]; cbn [bind]; [|discriminate].
  destruct (first _) as [target|]; cbn [bind]; [|discriminate].
  destruct (user_identity_taken _ _); discriminate.
Qed.

(** C4: the code at the failing input.  Alice, a sponsor, updates the
    record of Carol, a child: the update is carried out (here it even
    makes the target an admin) instead of being refused with 403. *)
Theorem update_user_by_sponsor_is_carried_out
        (hash_password : string -> string) :
  is_admin Sample.sponsor_a = false
  /\ exists db',
      update_user hash_password Sample.db (Sample.token Sample.sponsor_a)
                  (Sample.user_form "mallory" ADMIN) 4
      = Ok db'
      /\ get_user_or_404 Sample.db 4 "User not found" = Ok Sample.child_c
      /\ (exists changed,
             get_user_or_404 db' 4 "User not found" = Ok changed
             /\ changed <> Sample.child_c
             /\ User.role changed = ADMIN
             /\ User.username changed = "mallory").
Proof.
  split; [reflexivity|].
  eexists. split; [reflexivity|]. split; [reflexivity|].
  eexists. split; [reflexivity|].
  split; [discriminate|]. split; reflexivity.
Qed.

(** * Child detail view: who may read *)

(** What the gate of [get_child_details] lets through: an admin, or
    the sponsor of the first sponsorship row of the child. *)
Lemma get_child_details_gate
      (db : Session) (today : date) (logged_in_user : LoggedInUser)
      (id : Z) (user child : User.t) :
  get_user_or_404 db (token_id logged_in_user) "User not found" = Ok user ->
  user_with_role db id CHILD = Some child ->
  is_admin user = false ->
  (get_child_details db today logged_in_user id
   = HTTPException HTTP_403_FORBIDDEN "Access denied"
   <->
   forall s, first (filter (fun s => Sponsorship.child_id s =? id)
                           (sponsorships db)) = Some s ->
             Sponsorship.sponsor_id s <> User.id user).
Proof.
  intros Huser Hchild Hadm. unfold get_child_details.
  rewrite Huser. cbn [bind]. rewrite Hchild, Hadm. cbn [negb andb].
  destruct (first _) as [s|].
  - destruct (Sponsorship.sponsor_id s =? User.id user) eqn:E; cbn [negb].
    + apply Z.eqb_eq in E. split.
      * destruct (User.date_of_birth child), (User.gender child);
          discriminate.
      * intros H. exfalso. exact (H s eq_refl E).
    + apply Z.eqb_neq in E. split; [|reflexivity].
      intros _ s' [= <-]. exact E.
  - split; [|reflexivity]. intros _ s' [=].
Qed.

(** C7: the code at the failing input.  Bob sponsors Carol (an active
    sponsorship row links them), but he is not the sponsor of the
    first sponsorship row of Carol: his read of her detail view is
    refused with 403, while Alice's is served. *)
Theorem get_child_details_denies_second_sponsor (today : date) :
  In (Sample.mk_sponsorship 2 3 4 "active") (sponsorships Sample.db)
  /\ is_sponsor_of_child Sample.db (User.id Sample.sponsor_b)
                         (User.id Sample.child_c) = true
  /\ get_child_details Sample.db today (Sample.token Sample.sponsor_b) 4
     = HTTPException HTTP_403_FORBIDDEN "Access denied"
  /\ is_ok (get_child_details Sample.db today
                              (Sample.token Sample.sponsor_a) 4) = true.
Proof.
  split; [right; left; reflexivity|].
  split; [reflexivity|]. split; reflexivity.
Qed.

(** * Sponsorships: existence, roles and duplicates *)

(** C8: the code at the failing input.  An admin creates a sponsorship
    whose child_id is the id of Bob, a sponsor-role user: the role of
    the child is not checked, and the row is persisted. *)
Theorem create_sponsorship_accepts_non_child :
  is_admin Sample.admin = true
  /\ User.role Sample.sponsor_b = SPONSOR
  /\ user_with_role Sample.db (User.id Sample.sponsor_b) CHILD = None
  /\ exists db' resp,
      create_sponsorship Sample.db (Sample.token Sample.admin)
                         (Sample.new_sponsorship 2 3)
      = Ok (db', resp)
      /\ status_code resp = HTTP_201_CREATED
      /\ Sponsorship.child_id (data resp) = User.id Sample.sponsor_b
      /\ sponsorships db' = (sponsorships Sample.db ++ [data resp])%list.
Proof.
  split; [reflexivity|]. split; [reflexivity|]. split; [reflexivity|].
  do 2 eexists. split; [reflexivity|]. repeat split.
Qed.

(** The two checks that [create_sponsorship] does make: the child_id
    must resolve to a user, the sponsor_id to a sponsor-role user. *)
Lemma create_sponsorship_not_found
      (db : Session) (logged_in_user : LoggedInUser)
      (sponsorship_data : SponsorshipBase) (user : User.t) :
  get_user_or_404 db (token_id logged_in_user) "User not found" = Ok user ->
  is_admin user = true ->
  ((forall u, In u (users db) ->
              User.id u <> sb_child_id sponsorship_data) ->
   create_sponsorship db logged_in_user sponsorship_data
   = HTTPException HTTP_404_NOT_FOUND "Child not found")
  /\
  ((exists u, In u (users db)
              /\ User.id u = sb_child_id sponsorship_data) ->
   user_with_role db (sb_sponsor_id sponsorship_data) SPONSOR = None ->
   create_sponsorship db logged_in_user sponsorship_data
   = HTTPException HTTP_404_NOT_FOUND "Sponsor not found").
Proof.
  intros Huser Hadm. unfold create_sponsorship.
  rewrite Huser. cbn [bind]. rewrite Hadm. cbn [negb].
  unfold get_user_or_404. split.
  - intros Hnone.
    match goal with
    | |- context [first (filter ?f (users db))] =>
        assert (E : first (filter f (users db)) = None)
    end.
    { apply first_filter_none. intros u Hu. apply Z.eqb_neq, Hnone, Hu. }
    rewrite E. reflexivity.
  - intros (u & Hu & Hid) Hsp.
    match goal with
    | |- context [first (filter ?f (users db))] =>
        destruct (first_filter_exists f (users db) u Hu) as [u' E]
    end.
    { apply Z.eqb_eq, Hid. }
    rewrite E. cbn [bind]. rewrite Hsp. reflexivity.
Qed.

(** C5. An admin asks for a sponsorship between a sponsor-role user
    and an existing user as child; when some sponsorship row, of
    whatever status, already links the two, the request fails with 400
    "Child already sponsored by this sponsor".  A failure carries no
    new store: no row is persisted. *)
Theorem create_sponsorship_rejects_duplicate
        (db : Session) (logged_in_user : LoggedInUser)
        (sponsorship_data : SponsorshipBase) (user : User.t)
        (existing : Sponsorship.t) :
  get_user_or_404 db (token_id logged_in_user) "User not found" = Ok user ->
  is_admin user = true ->
  user_with_role db (sb_sponsor_id sponsorship_data) SPONSOR <> None ->
  (exists u, In u (users db)
             /\ User.id u = sb_child_id sponsorship_data) ->
  In existing (sponsorships db) ->
  Sponsorship.sponsor_id existing = sb_sponsor_id sponsorship_data ->
  Sponsorship.child_id existing = sb_child_id sponsorship_data ->
  create_sponsorship db logged_in_user sponsorship_data
  = HTTPException HTTP_400_BAD_REQUEST
      "Child already sponsored by this sponsor".
Proof.
  intros Huser Hadm Hsp (u & Hu & Hid) Hex Hs Hc.
  unfold create_sponsorship.
  rewrite Huser. cbn [bind]. rewrite Hadm. cbn [negb].
  unfold get_user_or_404 at 1.
  match goal with
  | |- context [first (filter ?f (users db))] =>
      destruct (first_filter_exists f (users db) u Hu) as [u' E]
  end.
  { apply Z.eqb_eq, Hid. }
  rewrite E. cbn [bind].
  destruct (user_with_role db (sb_sponsor_id sponsorship_data) SPONSOR);
    [|contradiction].
  match goal with
  | |- context [first (filter ?f (sponsorships db))] =>
      destruct (first_filter_exists f (sponsorships db) existing Hex)
        as [s' E']
  end.
  { rewrite Hs, Hc, !Z.eqb_refl. reflexivity. }
  rewrite E'. reflexivity.
Qed.

Lemma create_sponsorship_rejects_duplicate_witness :
  Sponsorship.status (Sample.mk_sponsorship 3 2 5 "canceled") = "canceled"
  /\ create_sponsorship Sample.db (Sample.token Sample.admin)
                        (Sample.new_sponsorship 2 5)
     = HTTPException HTTP_400_BAD_REQUEST
         "Child already sponsored by this sponsor".
Proof.
  split; [reflexivity|].
  apply (create_sponsorship_rejects_duplicate
           Sample.db (Sample.token Sample.admin)
           (Sample.new_sponsorship 2 5) Sample.admin
           (Sample.mk_sponsorship 3 2 5 "canceled")).
  - reflexivity.
  - reflexivity.
  - vm_compute. discriminate.
  - exists Sample.child_d. split; [simpl; tauto|reflexivity].
  - simpl. tauto.
  - reflexivity.
  - reflexivity.
Defined.

(** * Payments: uniqueness of the transaction id *)

Lemma create_payment_duplicate_transaction_id
      (db : Session) (now : datetime) (logged_in_user : LoggedInUser)
      (payment_data : PaymentCreate) (q : Payment.t) :
  In q (payments db) ->
  Payment.transaction_id q = pc_transaction_id payment_data ->
  is_ok (create_payment db now logged_in_user payment_data) = false
  /\ forall db' resp,
       create_payment db now logged_in_user payment_data <> Ok (db', resp).
Proof.
  intros Hq Ht.
  assert (Hnot : is_ok (create_payment db now logged_in_user payment_data)
                 = false).
  { unfold create_payment, create_payment_commit.
    destruct (get_user_or_404 _ _ _) as [user| |]; cbn [bind];
      try reflexivity.
    destruct (negb (is_admin user) && _); [reflexivity|].
    destruct (user_with_role db (pc_sponsor_id payment_data) SPONSOR);
      [|reflexivity].
    destruct (user_with_role db (pc_child_id payment_data) CHILD);
      [|reflexivity].
    destruct (first (filter _ (sponsorships db))); [|reflexivity].
    match goal with
    | |- context [first (filter ?f (payments db))] =>
        destruct (first_filter_exists f (payments db) q Hq) as [q' E]
    end.
    { apply String.eqb_eq, Ht. }
    rewrite E. reflexivity. }
  split; [exact Hnot|].
  intros db' resp E. rewrite E in Hnot. discriminate.
Qed.

(** With every earlier check passed, a duplicate transaction id on
    creation is the 400 "Transaction ID already exists". *)
Lemma create_payment_conflict
      (db : Session) (now : datetime) (logged_in_user : LoggedInUser)
      (payment_data : PaymentCreate) (user : User.t) (q : Payment.t) :
  get_user_or_404 db (token_id logged_in_user) "User not found" = Ok user ->
  is_admin user = true \/ User.id user = pc_sponsor_id payment_data ->
  user_with_role db (pc_sponsor_id payment_data) SPONSOR <> None ->
  user_with_role db (pc_child_id payment_data) CHILD <> None ->
  (exists s, In s (sponsorships db)
             /\ Sponsorship.sponsor_id s = pc_sponsor_id payment_data
             /\ Sponsorship.child_id s = pc_child_id payment_data
             /\ Sponsorship.status s = "active") ->
  In q (payments db) ->
  Payment.transaction_id q = pc_transaction_id payment_data ->
  create_payment db now logged_in_user payment_data
  = HTTPException HTTP_400_BAD_REQUEST "Transaction ID already exists".
Proof.
  intros Huser Hauth Hsponsor Hchild (s & Hs & H1 & H2 & H3) Hq Ht.
  unfold create_payment, create_payment_commit. rewrite Huser. cbn [bind].
  assert (Hgate : negb (is_admin user)
                  && negb (User.id user =? pc_sponsor_id payment_data)
                  = false).
  { destruct Hauth as [-> | ->]; [reflexivity|].
    rewrite Z.eqb_refl. apply andb_false_r. }
  rewrite Hgate.
  destruct (user_with_role db (pc_sponsor_id payment_data) SPONSOR);
    [|contradiction].
  destruct (user_with_role db (pc_child_id payment_data) CHILD);
    [|contradiction].
  match goal with
  | |- context [first (filter ?f (sponsorships db))] =>
      destruct (first_filter_exists f (sponsorships db) s Hs) as [s' E]
  end.
  { rewrite H1, H2, H3, !Z.eqb_refl. reflexivity. }
  rewrite E.
  match goal with
  | |- context [first (filter ?f (payments db))] =>
      destruct (first_filter_exists f (payments db) q Hq) as [q' E']
  end.
  { apply String.eqb_eq, Ht. }
  rewrite E'. reflexivity.
Qed.

(** For a new transaction id that is not the empty string, the update
    answers 400 "Transaction ID already exists" exactly when a payment
    of another id holds it. *)
Lemma update_payment_conflict_iff
      (db : Session) (logged_in_user : LoggedInUser)
      (payment_data : PaymentUpdate) (payment_id : Z)
      (user : User.t) (payment : Payment.t) (t : string) :
  get_user_or_404 db (token_id logged_in_user) "User not found" = Ok user ->
  is_admin user = true ->
  get_payment_or_404 db payment_id = Ok payment ->
  pu_transaction_id payment_data = Some t ->
  t <> "" ->
  (update_payment db logged_in_user payment_data payment_id
   = HTTPException HTTP_400_BAD_REQUEST "Transaction ID already exists"
   <->
   exists q, In q (payments db)
             /\ Payment.transaction_id q = t
             /\ Payment.id q <> payment_id).
Proof.
  intros Huser Hadm Hpay Ht Hne.
  unfold update_payment, update_payment_commit. rewrite Huser. cbn [bind].
  rewrite Hadm. cbn [negb]. rewrite Hpay. cbn [bind]. rewrite Ht.
  assert (Htr : truthy_str (Some t) = true)
    by (simpl; apply negb_true_iff, String.eqb_neq, Hne).
  rewrite Htr.
  destruct (first (filter _ (payments db))) as [q|] eqn:E.
  - split; [|reflexivity]. intros _.
    apply first_filter_some in E. destruct E as [Hq Hb].
    apply andb_true_iff in Hb. destruct Hb as [H1 H2].
    exists q. split; [exact Hq|]. split.
    + apply String.eqb_eq, H1.
    + apply Z.eqb_neq, negb_true_iff, H2.
  - cbn [bind]. split.
    + unfold commit_payment.
      destruct (amount_is_null _ || transaction_id_taken _ _ _);
        cbn [bind]; [discriminate|].
      destruct (json_compliant _); discriminate.
    + intros (q & Hq & H1 & H2). exfalso.
      rewrite first_filter_none in E. specialize (E q Hq). cbn beta in E.
      apply String.eqb_eq in H1. apply Z.eqb_neq in H2.
      rewrite H1, H2 in E. discriminate.
Qed.

(** C6: the code at the failing input.  Payment 3 holds the empty
    string as its transaction id; an admin sets the transaction id of
    payment 1 to the empty string.  The duplicate check is guarded by
    the truthiness of the new value and is skipped, the loop over the
    fields assigns the value (it is not [None]), and the flush is
    refused by the unique column: the request dies with an
    IntegrityError instead of the 400 "Transaction ID already exists". *)
Theorem update_payment_empty_transaction_id_unchecked :
  is_admin Sample.admin = true
  /\ In (Sample.mk_payment 3 3 4 "") (payments Sample.db)
  /\ update_payment Sample.db (Sample.token Sample.admin)
                    (Sample.set_transaction_id "") 1
     = Unhandled "IntegrityError"
  /\ update_payment Sample.db (Sample.token Sample.admin)
                    (Sample.set_transaction_id "TXN2") 1
     = HTTPException HTTP_400_BAD_REQUEST "Transaction ID already exists"
  /\ is_ok (update_payment Sample.db (Sample.token Sample.admin)
                           (Sample.set_transaction_id "TXN1") 1) = true.
Proof.
  split; [reflexivity|].
  split; [simpl; tauto|].
  split; [reflexivity|]. split; reflexivity.
Qed.

(** * Updates in place *)

Section Replace.

Context {A : Type} (key : A -> Z).

Lemma first_filter_replace (new old : A) (k : Z) (l : list A) :
  key new = k ->
  first (filter (fun x => key x =? k) l) = Some old ->
  first (filter (fun x => key x =? k) (map (replace_row key new) l))
  = Some new.
Proof.
  intros <-. induction l as [|a l IH]; [discriminate|].
  cbn [map filter].
  destruct (key a =? key new) eqn:E.
  - intros _.
    assert (R : replace_row key new a = new)
      by (unfold replace_row; rewrite E; reflexivity).
    rewrite R, Z.eqb_refl. reflexivity.
  - assert (R : replace_row key new a = a)
      by (unfold replace_row; rewrite E; reflexivity).
    rewrite R, E. exact IH.
Qed.

Lemma map_replace_idem (new : A) (l : list A) :
  map (replace_row key new) (map (replace_row key new) l)
  = map (replace_row key new) l.
Proof.
  rewrite map_map. apply map_ext. intros a. unfold replace_row.
  destruct (key a =? key new) eqn:E.
  - rewrite Z.eqb_refl. reflexivity.
  - rewrite E. reflexivity.
Qed.

End Replace.

Lemma get_payment_or_404_found (db : Session) (payment_id : Z)
      (payment : Payment.t) :
  get_payment_or_404 db payment_id = Ok payment ->
  In payment (payments db) /\ Payment.id payment = payment_id.
Proof.
  unfold get_payment_or_404.
  destruct (first _) as [q|] eqn:E; [|discriminate].
  intros [= <-]. apply first_filter_some in E. destruct E as [Hin Hid].
  split; [exact Hin|apply Z.eqb_eq, Hid].
Qed.

Lemma update_payment_frame
      (db : Session) (logged_in_user : LoggedInUser)
      (payment_data : PaymentUpdate) (payment_id : Z)
      (db' : Session) (resp : JSONResponse Payment.t) :
  update_payment db logged_in_user payment_data payment_id = Ok (db', resp) ->
  exists old,
    get_payment_or_404 db payment_id = Ok old
    /\ get_payment_or_404 db' payment_id = Ok (data resp)
    /\ payment_update_frame payment_data old (data resp)
    /\ payments db' = map (replace_row Payment.id (data resp)) (payments db)
    /\ users db' = users db
    /\ sponsorships db' = sponsorships db
    /\ child_reports db' = child_reports db.
Proof.
  unfold update_payment, update_payment_commit.
  destruct (get_user_or_404 _ _ _) as [user| |]; cbn [bind];
    try discriminate.
  destruct (negb (is_admin user)); [discriminate|].
  destruct (get_payment_or_404 db payment_id) as [old| |] eqn:Hold;
    cbn [bind]; try discriminate.
  match goal with
  | |- bind (bind ?c _) _ = _ -> _ => destruct c as [[]| |]; cbn [bind];
                                      try discriminate
  end.
  unfold commit_payment.
  destruct (amount_is_null _ || transaction_id_taken _ _ _); cbn [bind];
    [discriminate|].
  destruct (json_compliant _); [|discriminate].
  intros [= <- <-]. exists old.
  destruct (get_payment_or_404_found _ _ _ Hold) as [_ Hid].
  split; [reflexivity|]. split.
  { unfold get_payment_or_404 in *. cbn [payments with_payments].
    destruct (first (filter _ (payments db))) as [q|] eqn:E;
      [|discriminate].
    rewrite (first_filter_replace Payment.id
               (apply_payment_update old payment_data) q payment_id
               (payments db) Hid E).
    reflexivity. }
  cbn [data create_response].
  unfold payment_update_frame, report_update_frame,
    sponsorship_update_frame.
  repeat split; try (intros E; cbn; rewrite E; reflexivity).
Qed.

Lemma update_child_report_frame
      (db : Session) (logged_in_user : LoggedInUser)
      (report_data : option ChildReportUpdate) (report_id : Z)
      (db' : Session) (resp : JSONResponse ChildReport.t) :
  update_child_report db logged_in_user report_data report_id
  = Ok (db', resp) ->
  exists old,
    first (filter (fun r => ChildReport.id r =? report_id)
                  (child_reports db)) = Some old
    /\ first (filter (fun r => ChildReport.id r =? report_id)
                     (child_reports db')) = Some (data resp)
    /\ report_update_frame report_data old (data resp)
    /\ child_reports db'
       = map (replace_row ChildReport.id (data resp)) (child_reports db)
    /\ users db' = users db
    /\ sponsorships db' = sponsorships db
    /\ payments db' = payments db.
Proof.
  unfold update_child_report, update_child_report_commit.
  destruct (get_user_or_404 _ _ _) as [user| |]; cbn [bind];
    try discriminate.
  destruct (negb (is_admin user)); [discriminate|].
  destruct (first (filter _ (child_reports db))) as [old|] eqn:Hold;
    cbn [bind]; [|discriminate].
  destruct (report_status _); [|discriminate].
  intros [= <- <-]. exists old.
  pose proof (first_filter_some _ _ _ Hold) as [_ Hid].
  apply Z.eqb_eq in Hid.
  split; [reflexivity|]. split.
  { unfold commit_report. cbn [child_reports with_child_reports].
    apply (first_filter_replace ChildReport.id
             (apply_report_update old report_data) old report_id
             (child_reports db) Hid Hold). }
  cbn [data create_response].
  unfold payment_update_frame, report_update_frame,
    sponsorship_update_frame.
  repeat split; try (intros E; cbn; rewrite E; reflexivity).
Qed.

Lemma update_sponsorship_frame
      (db : Session) (logged_in_user : LoggedInUser)
      (sponsorship_data : SponsorshipUpdate) (sponsorship_id : Z)
      (db' : Session) (resp : JSONResponse Sponsorship.t) :
  update_sponsorship db logged_in_user sponsorship_data sponsorship_id
  = Ok (db', resp) ->
  exists old,
    get_sponsorship_or_404 db sponsorship_id = Ok old
    /\ sponsorship_update_frame sponsorship_data old (data resp)
    /\ sponsorships db'
       = map (replace_row Sponsorship.id (data resp)) (sponsorships db)
    /\ users db' = users db
    /\ payments db' = payments db
    /\ child_reports db' = child_reports db.
Proof.
  unfold update_sponsorship.
  destruct (get_user_or_404 _ _ _) as [user| |]; cbn [bind];
    try discriminate.
  destruct (negb (is_admin user)); [discriminate|].
  destruct (get_sponsorship_or_404 db sponsorship_id) as [old| |] eqn:Hold;
    cbn [bind]; try discriminate.
  intros [= <- <-]. exists old.
  split; [reflexivity|].
  cbn [data create_response].
  unfold payment_update_frame, report_update_frame,
    sponsorship_update_frame.
  repeat split; try (intros E; cbn; rewrite E; reflexivity).
Qed.

Lemma update_user_frame
      (hash_password : string -> string)
      (db : Session) (logged_in_user : LoggedInUser)
      (user_data : UserCreate) (user_id : Z) (db' : Session) :
  update_user hash_password db logged_in_user user_data user_id = Ok db' ->
  exists old new,
    get_user_or_404 db user_id "User to update not found" = Ok old
    /\ get_user_or_404 db' user_id "User to update not found" = Ok new
    /\ user_update_frame user_data old new
    /\ users db' = map (replace_row User.id new) (users db)
    /\ sponsorships db' = sponsorships db
    /\ payments db' = payments db
    /\ child_reports db' = child_reports db.
Proof.
  unfold update_user.
  destruct (get_user_or_404 db (token_id logged_in_user) _) as [user| |];
    cbn [bind]; try discriminate.
  destruct (get_user_or_404 db user_id _) as [old| |] eqn:Hold;
    cbn [bind]; try discriminate.
  destruct (user_identity_taken _ _); [discriminate|].
  intros [= <-].
  exists old, (apply_user_update hash_password old user_data).
  destruct (get_user_or_404_found _ _ _ _ Hold) as [_ Hid].
  split; [reflexivity|]. split.
  { unfold get_user_or_404 in *. cbn [users with_users].
    destruct (first (filter _ (users db))) as [u|] eqn:E; [|discriminate].
    rewrite (first_filter_replace User.id
               (apply_user_update hash_password old user_data) u user_id
               (users db) Hid E).
    reflexivity. }
  unfold user_update_frame.
  repeat split; try (intros E; cbn; rewrite E; reflexivity).
Qed.

(** C9. A successful partial update (of a payment, of a child report,
    of a sponsorship, of a user) rewrites one stored row: its id,
    sponsor_id and child_id are those of the row before, every field
    whose value in the request is None (absent) is as before, the
    other rows of the table and the other tables are untouched. *)
Theorem partial_update_touches_only_supplied_fields :
  (forall db logged_in_user payment_data payment_id db' resp,
      update_payment db logged_in_user payment_data payment_id
      = Ok (db', resp) ->
      exists old,
        get_payment_or_404 db payment_id = Ok old
        /\ get_payment_or_404 db' payment_id = Ok (data resp)
        /\ payment_update_frame payment_data old (data resp)
        /\ payments db'
           = map (replace_row Payment.id (data resp)) (payments db)
        /\ users db' = users db
        /\ sponsorships db' = sponsorships db
        /\ child_reports db' = child_reports db)
  /\
  (forall db logged_in_user report_data report_id db' resp,
      update_child_report db logged_in_user report_data report_id
      = Ok (db', resp) ->
      exists old,
        first (filter (fun r => ChildReport.id r =? report_id)
                      (child_reports db)) = Some old
        /\ first (filter (fun r => ChildReport.id r =? report_id)
                         (child_reports db')) = Some (data resp)
        /\ report_update_frame report_data old (data resp)
        /\ child_reports db'
           = map (replace_row ChildReport.id (data resp)) (child_reports db)
        /\ users db' = users db
        /\ sponsorships db' = sponsorships db
        /\ payments db' = payments db)
  /\
  (forall db logged_in_user sponsorship_data sponsorship_id db' resp,
      update_sponsorship db logged_in_user sponsorship_data sponsorship_id
      = Ok (db', resp) ->
      exists old,
        get_sponsorship_or_404 db sponsorship_id = Ok old
        /\ sponsorship_update_frame sponsorship_data old (data resp)
        /\ sponsorships db'
           = map (replace_row Sponsorship.id (data resp)) (sponsorships db)
        /\ users db' = users db
        /\ payments db' = payments db
        /\ child_reports db' = child_reports db)
  /\
  (forall hash_password db logged_in_user user_data user_id db',
      update_user hash_password db logged_in_user user_data user_id
      = Ok db' ->
      exists old new,
        get_user_or_404 db user_id "User to update not found" = Ok old
        /\ get_user_or_404 db' user_id "User to update not found" = Ok new
        /\ user_update_frame user_data old new
        /\ users db' = map (replace_row User.id new) (users db)
        /\ sponsorships db' = sponsorships db
        /\ payments db' = payments db
        /\ child_reports db' = child_reports db).
Proof.
  split; [|split; [|split]].
  - apply update_payment_frame.
  - apply update_child_report_frame.
  - apply update_sponsorship_frame.
  - apply update_user_frame.
Qed.

Lemma partial_update_touches_only_supplied_fields_witness :
  exists db' resp,
    update_payment Sample.db (Sample.token Sample.admin)
                   (Sample.set_transaction_id "TXN7") 1
    = Ok (db', resp)
    /\ Payment.transaction_id (data resp) = "TXN7"
    /\ payment_update_frame (Sample.set_transaction_id "TXN7")
                            (Sample.mk_payment 1 2 4 "TXN1") (data resp).
Proof.
  destruct partial_update_touches_only_supplied_fields as (Hp & _ & _ & _).
  do 2 eexists. split; [reflexivity|]. split; [reflexivity|].
  destruct (Hp Sample.db (Sample.token Sample.admin)
               (Sample.set_transaction_id "TXN7") 1 _ _ eq_refl)
    as (old & Hold & _ & Hframe & _).
  injection Hold as <-. exact Hframe.
Defined.

(** * Marking a report as read *)

Lemma commit_report_idem (db : Session) (report : ChildReport.t) :
  commit_report (commit_report db report) report = commit_report db report.
Proof.
  unfold commit_report, with_child_reports. cbn.
  rewrite map_replace_idem. reflexivity.
Qed.

(** C10. A successful mark-read stores the report with status "read"
    and every other field as it was, touches no other row and no other
    table, and a second mark-read by the same principal succeeds with
    the same response and leaves exactly the store of the first. *)
Theorem mark_report_as_read_idempotent
        (report_id : Z) (db : Session) (logged_in_user : LoggedInUser)
        (db1 : Session) (resp : JSONResponse ChildReport.t) :
  mark_report_as_read report_id db logged_in_user = Ok (db1, resp) ->
  (exists old,
      first (filter (fun r => ChildReport.id r =? report_id)
                    (child_reports db)) = Some old
      /\ first (filter (fun r => ChildReport.id r =? report_id)
                       (child_reports db1)) = Some (data resp)
      /\ ChildReport.status (data resp) = "read"
      /\ ChildReport.id (data resp) = ChildReport.id old
      /\ ChildReport.child_id (data resp) = ChildReport.child_id old
      /\ ChildReport.report_date (data resp) = ChildReport.report_date old
      /\ ChildReport.report_type (data resp) = ChildReport.report_type old
      /\ ChildReport.details (data resp) = ChildReport.details old)
  /\ child_reports db1
     = map (replace_row ChildReport.id (data resp)) (child_reports db)
  /\ users db1 = users db
  /\ sponsorships db1 = sponsorships db
  /\ payments db1 = payments db
  /\ mark_report_as_read report_id db1 logged_in_user = Ok (db1, resp).
Proof.
  unfold mark_report_as_read at 1.
  destruct (get_user_or_404 db _ _) as [user| |] eqn:Huser; cbn [bind];
    try discriminate.
  destruct (first (filter _ (child_reports db))) as [old|] eqn:Hold;
    [|discriminate].
  destruct (user_with_role db (ChildReport.child_id old) CHILD)
    as [child|] eqn:Hchild; [|discriminate].
  destruct (negb (is_admin user) && _) eqn:Hgate; [discriminate|].
  intros [= <- <-].
  pose proof (first_filter_some _ _ _ Hold) as [_ Hid].
  apply Z.eqb_eq in Hid.
  assert (Hnew : first (filter (fun r => ChildReport.id r =? report_id)
                               (child_reports
                                  (commit_report db (set_status_read old))))
                 = Some (set_status_read old)).
  { unfold commit_report. cbn [child_reports with_child_reports].
    apply (first_filter_replace ChildReport.id (set_status_read old)
             old report_id (child_reports db) Hid Hold). }
  cbn [data create_response].
  split.
  { exists old. split; [reflexivity|]. split; [exact Hnew|].
    repeat split. }
  split; [reflexivity|]. split; [reflexivity|].
  split; [reflexivity|]. split; [reflexivity|].
  unfold mark_report_as_read.
  change (get_user_or_404 (commit_report db (set_status_read old))
                          (token_id logged_in_user) "User not found")
    with (get_user_or_404 db (token_id logged_in_user) "User not found").
  rewrite Huser. cbn [bind]. rewrite Hnew.
  change (user_with_role (commit_report db (set_status_read old))
                         (ChildReport.child_id (set_status_read old)) CHILD)
    with (user_with_role db (ChildReport.child_id old) CHILD).
  rewrite Hchild.
  change (sponsorships_as_child (commit_report db (set_status_read old))
                                child)
    with (sponsorships_as_child db child).
  rewrite Hgate.
  change (set_status_read (set_status_read old))
    with (set_status_read old).
  rewrite commit_report_idem. reflexivity.
Qed.

Lemma mark_report_as_read_idempotent_witness :
  exists db1 resp,
    mark_report_as_read 1 Sample.db (Sample.token Sample.sponsor_b)
    = Ok (db1, resp)
    /\ ChildReport.status (data resp) = "read"
    /\ mark_report_as_read 1 db1 (Sample.token Sample.sponsor_b)
       = Ok (db1, resp).
Proof.
  do 2 eexists. split; [reflexivity|]. split; [reflexivity|].
  apply (mark_report_as_read_idempotent
           1 Sample.db (Sample.token Sample.sponsor_b) _ _ eq_refl).
Defined.

(** * Pagination: the shape of a page *)

Lemma firstn_add {A} (a b : nat) (l : list A) :
  firstn (a + b) l = (firstn a l ++ firstn b (skipn a l))%list.
Proof.
  revert l; induction a as [|a IH]; intros l; [reflexivity|].
  destruct l as [|x l]; simpl.
  - destruct b; reflexivity.
  - rewrite IH. reflexivity.
Qed.

Lemma page_rows_length {A} (query : list A) (page page_size : Z) :
  1 <= page -> 1 <= page_size ->
  Z.of_nat (List.length (results (paginate_query query page page_size)))
  = Z.max 0 (Z.min page_size
                   (Z.of_nat (List.length query) - (page - 1) * page_size)).
Proof.
  intros Hp Hs. unfold paginate_query. cbn [results].
  rewrite length_firstn, length_skipn. nia.
Qed.

(** X1. For page >= 1 and page_size >= 1 a page holds exactly
    min(page_size, total_count - offset) rows (none when the offset is
    past the end): never more than page_size, and exactly page_size on
    every page before the last. *)
Theorem paginate_query_page_length
        (A : Type) (query : list A) (page page_size : Z) :
  1 <= page -> 1 <= page_size ->
  let p := paginate_query query page page_size in
  let n := Z.of_nat (List.length (results p)) in
  n = Z.max 0 (Z.min page_size (total_count p - (page - 1) * page_size))
  /\ n <= page_size
  /\ (page < total_pages p -> n = page_size).
Proof.
  intros Hp Hs p n.
  assert (Hn : n = Z.max 0 (Z.min page_size
                              (total_count p - (page - 1) * page_size)))
    by (apply page_rows_length; assumption).
  assert (Htot : total_count p = Z.of_nat (List.length query))
    by reflexivity.
  split; [exact Hn|]. split; [lia|].
  intros Hlt.
  destruct (total_pages_is_ceiling (total_count p) page_size) as [_ Hlow];
    [lia | lia |].
  change ((total_count p + page_size - 1) / page_size)
    with (total_pages p) in Hlow.
  nia.
Qed.

Lemma paginate_query_page_length_witness :
  Z.of_nat (List.length (results (paginate_query [1; 2; 3; 4; 5] 3 2))) = 1.
Proof.
  assert (H1 : 1 <= 3) by lia. assert (H2 : 1 <= 2) by lia.
  destruct (paginate_query_page_length Z [1; 2; 3; 4; 5] 3 2 H1 H2)
    as (Hn & _ & _).
  exact Hn.
Defined.

(** X2. For page >= 1 and page_size >= 1 the page is not empty exactly
    when page <= total_pages: the callers that answer 404 (or the bare
    empty list) on an empty page do so exactly for the pages past the
    last one, which includes every page of an empty query. *)
Theorem paginate_query_nonempty_iff
        (A : Type) (query : list A) (page page_size : Z) :
  1 <= page -> 1 <= page_size ->
  (results (paginate_query query page page_size) <> []
   <-> page <= total_pages (paginate_query query page page_size)).
Proof.
  intros Hp Hs.
  pose proof (page_rows_length query page page_size Hp Hs) as Hlen.
  set (p := paginate_query query page page_size) in *.
  assert (Htot : total_count p = Z.of_nat (List.length query))
    by reflexivity.
  destruct (total_pages_is_ceiling (total_count p) page_size)
    as [Hup Hlow]; [lia | lia |].
  change ((total_count p + page_size - 1) / page_size)
    with (total_pages p) in Hup, Hlow.
  rewrite <- Htot in Hlen.
  split.
  - intros Hne.
    destruct (results p) as [|x l]; [contradiction|].
    simpl List.length in Hlen. nia.
  - intros Hle Hnil. rewrite Hnil in Hlen. simpl in Hlen. nia.
Qed.

Lemma paginate_query_nonempty_iff_witness :
  results (paginate_query [1; 2; 3; 4; 5] 3 2) <> [].
Proof.
  assert (H1 : 1 <= 3) by lia. assert (H2 : 1 <= 2) by lia.
  apply (proj2 (paginate_query_nonempty_iff Z [1; 2; 3; 4; 5] 3 2 H1 H2)).
  vm_compute. discriminate.
Defined.

Lemma pages_concat_firstn {A} (query : list A) (n k : nat) :
  List.concat (map (fun i => firstn n (skipn (i * n) query)) (seq 0 k))
  = firstn (k * n) query.
Proof.
  induction k as [|k IH]; [reflexivity|].
  rewrite seq_S, map_app, concat_app, IH. simpl.
  rewrite app_nil_r.
  replace (n + k * n)%nat with (k * n + n)%nat by lia.
  rewrite firstn_add. reflexivity.
Qed.

(** X3. For page_size >= 1 the pages 1 .. total_pages, one after the
    other, are the query itself: every row is on exactly one page and
    the order of the query is kept. *)
Theorem paginate_query_pages_cover
        (A : Type) (query : list A) (page_size : Z) :
  1 <= page_size ->
  List.concat (map (fun i => results (paginate_query query (Z.of_nat i + 1)
                                                page_size))
              (seq 0 (Z.to_nat (total_pages
                                  (paginate_query query 1 page_size)))))
  = query.
Proof.
  intros Hs.
  set (t := total_pages (paginate_query query 1 page_size)).
  destruct (total_pages_is_ceiling (Z.of_nat (List.length query)) page_size)
    as [Hup _]; [lia | lia |].
  change ((Z.of_nat (List.length query) + page_size - 1) / page_size)
    with t in Hup.
  rewrite (map_ext
             (fun i => results (paginate_query query (Z.of_nat i + 1)
                                               page_size))
             (fun i => firstn (Z.to_nat page_size)
                              (skipn (i * Z.to_nat page_size) query))).
  - rewrite pages_concat_firstn. apply firstn_all2.
    assert (0 <= t) by (unfold t, paginate_query; cbn [total_pages];
                        apply Z.div_pos; lia).
    apply Nat2Z.inj_le. rewrite Nat2Z.inj_mul, !Z2Nat.id by lia. lia.
  - intros i. unfold paginate_query. cbn [results].
    replace (Z.to_nat ((Z.of_nat i + 1 - 1) * page_size))
      with (i * Z.to_nat page_size)%nat; [reflexivity|].
    apply Nat2Z.inj. rewrite Nat2Z.inj_mul, !Z2Nat.id by nia. lia.
Qed.

Lemma paginate_query_pages_cover_witness :
  (results (paginate_query [1; 2; 3; 4; 5] 1 2)
     ++ results (paginate_query [1; 2; 3; 4; 5] 2 2)
     ++ results (paginate_query [1; 2; 3; 4; 5] 3 2))%list
  = [1; 2; 3; 4; 5].
Proof.
  assert (H : 1 <= 2) by lia.
  pose proof (paginate_query_pages_cover Z [1; 2; 3; 4; 5] 2 H) as E.
  vm_compute in E. vm_compute. exact E.
Defined.

(** * Admin views *)

Lemma forallb_page {A} (f : A -> bool) (query : list A) (n m : nat) :
  (forall x, In x query -> f x = true) ->
  forallb f (firstn n (skipn m query)) = true.
Proof.
  intros H. apply forallb_forall. intros x Hx. apply H.
  eapply In_page, Hx.
Qed.

(** What a listing shows of a table whose rows all load and render:
    the rows of the page. *)
Lemma listed_admin_listing {A}
      (db : Session) (logged_in_user : LoggedInUser) (query : list A)
      (loads renders : A -> bool) (none_found retrieved : string)
      (page page_size : Z) (user : User.t) :
  get_user_or_404 db (token_id logged_in_user) "User not found" = Ok user ->
  is_admin user = true ->
  (forall x, In x query -> loads x = true) ->
  (forall x, In x query -> renders x = true) ->
  listed (admin_listing db logged_in_user query loads renders
                        none_found retrieved page page_size)
  = firstn (Z.to_nat page_size)
           (skipn (Z.to_nat ((page - 1) * page_size)) query).
Proof.
  intros Huser Hadm Hloads Hrenders.
  unfold admin_listing. rewrite Huser. cbn [bind]. rewrite Hadm.
  cbn [negb]. rewrite (forallb_page loads) by exact Hloads. cbn [negb].
  rewrite (forallb_page renders) by exact Hrenders.
  destruct (firstn _ _); reflexivity.
Qed.

Lemma admin_listing_pages_through {A}
      (db : Session) (logged_in_user : LoggedInUser) (query : list A)
      (loads renders : A -> bool) (none_found retrieved : string)
      (page_size : Z) (user : User.t) :
  get_user_or_404 db (token_id logged_in_user) "User not found" = Ok user ->
  is_admin user = true ->
  1 <= page_size ->
  (forall x, In x query -> loads x = true) ->
  (forall x, In x query -> renders x = true) ->
  pages_through query page_size none_found retrieved
    (fun page => admin_listing db logged_in_user query loads renders
                               none_found retrieved page page_size).
Proof.
  intros Huser Hadm Hs Hloads Hrenders. split.
  - intros page Hp.
    pose proof (page_rows_length query page page_size Hp Hs) as Hlen.
    unfold paginate_query in Hlen. cbn [results] in Hlen.
    unfold admin_listing. rewrite Huser. cbn [bind]. rewrite Hadm.
    cbn [negb]. rewrite (forallb_page loads) by exact Hloads. cbn [negb].
    rewrite (forallb_page renders) by exact Hrenders.
    destruct (firstn (Z.to_nat page_size)
                     (skipn (Z.to_nat ((page - 1) * page_size)) query))
      as [|x rows] eqn:E.
    + eexists. split; [reflexivity|]. split; [reflexivity|].
      cbn [data message create_response]. split; [reflexivity|].
      unfold count. cbn [List.length] in Hlen. lia.
    + eexists. split; [reflexivity|]. split; [reflexivity|].
      cbn [data message create_response ld_page ld_page_size ld_total
                ld_total_pages ld_items].
      unfold count. cbn [List.length] in Hlen |- *.
      split; [reflexivity|].
      split; [lia|]. split; [reflexivity|]. split; [reflexivity|].
      split; [reflexivity|]. split; [reflexivity|]. split; [lia|].
      intros y Hy. rewrite <- E in Hy. eapply In_page, Hy.
  - rewrite (map_ext
               (fun page => listed (admin_listing db logged_in_user query
                                      loads renders none_found retrieved
                                      (Z.of_nat page) page_size))
               (fun page => firstn (Z.to_nat page_size)
                              (skipn (Z.to_nat ((Z.of_nat page - 1)
                                                * page_size)) query)))
      by (intros page; eapply listed_admin_listing; eassumption).
    rewrite <- seq_shift, map_map.
    rewrite (map_ext
               (fun i => firstn (Z.to_nat page_size)
                           (skipn (Z.to_nat ((Z.of_nat (S i) - 1)
                                             * page_size)) query))
               (fun i => firstn (Z.to_nat page_size)
                           (skipn (i * Z.to_nat page_size) query))).
    + rewrite pages_concat_firstn. apply firstn_all2.
      destruct (total_pages_is_ceiling (count query) page_size)
        as [Hup _]; [unfold count; lia | lia |].
      assert (0 <= (count query + page_size - 1) / page_size)
        by (apply Z.div_pos; unfold count; lia).
      unfold count in *.
      apply Nat2Z.inj_le. rewrite Nat2Z.inj_mul, !Z2Nat.id by lia. lia.
    + intros i.
      replace (Z.to_nat ((Z.of_nat (S i) - 1) * page_size))
        with (i * Z.to_nat page_size)%nat; [reflexivity|].
      apply Nat2Z.inj. rewrite Nat2Z.inj_mul, !Z2Nat.id by nia. lia.
Qed.

(** A row of the page that cannot be read back, or cannot be rendered,
    fails the listing. *)
Lemma admin_listing_raises {A}
      (db : Session) (logged_in_user : LoggedInUser) (query : list A)
      (loads renders : A -> bool) (none_found retrieved : string)
      (page page_size : Z) (user : User.t) (x : A) :
  get_user_or_404 db (token_id logged_in_user) "User not found" = Ok user ->
  is_admin user = true ->
  In x (results (paginate_query query page page_size)) ->
  (loads x = false ->
   admin_listing db logged_in_user query loads renders
                 none_found retrieved page page_size
   = Unhandled "LookupError")
  /\ ((forall y, In y query -> loads y = true) ->
      renders x = false ->
      admin_listing db logged_in_user query loads renders
                    none_found retrieved page page_size
      = Unhandled "ValueError").
Proof.
  intros Huser Hadm Hx.
  unfold paginate_query in Hx. cbn [results] in Hx.
  unfold admin_listing. rewrite Huser. cbn [bind]. rewrite Hadm.
  cbn [negb]. split.
  - intros Hl.
    destruct (forallb loads _) eqn:E; [|reflexivity].
    rewrite forallb_forall in E. rewrite (E x Hx) in Hl. discriminate.
  - intros Hloads Hr.
    rewrite (forallb_page loads) by exact Hloads. cbn [negb].
    destruct (firstn _ _) as [|y rows] eqn:E; [contradiction|].
    destruct (forallb renders (y :: rows)) eqn:Er; [|reflexivity].
    rewrite forallb_forall in Er. rewrite (Er x Hx) in Hr. discriminate.
Qed.

(** X4. The five listings of the admin.  A principal that is not an
    admin gets 403 from each.  For an admin and a page size of at least
    1, [get_all_sponsors] pages through the stored users of role
    sponsor, [get_all_children] through those of role child,
    [get_all_sponsorships] through the sponsorships, [get_all_payments]
    through the payments when every stored amount is a finite number,
    and [get_all_child_reports] through the reports when every stored
    status is "unread" or "read": each page from 1 on is answered with
    200 and holds the rows of the table that the page number and size
    select, and pages 1 to the last put together are the table, every
    row once and in order.  A page of payments that holds an amount
    that is not finite fails with ValueError, a page of reports that
    holds another status with LookupError. *)
Theorem admin_listings_page_through_their_tables
        (db : Session) (logged_in_user : LoggedInUser) (user : User.t)
        (page_size : Z) :
  get_user_or_404 db (token_id logged_in_user) "User not found" = Ok user ->
  1 <= page_size ->
  (is_admin user = false ->
   forall page,
     let forbidden {A} : result A :=
       HTTPException HTTP_403_FORBIDDEN "You do not have admin privileges" in
     get_all_sponsors db logged_in_user page page_size = forbidden
     /\ get_all_children db logged_in_user page page_size = forbidden
     /\ get_all_sponsorships db logged_in_user page page_size = forbidden
     /\ get_all_payments db logged_in_user page page_size = forbidden
     /\ get_all_child_reports db logged_in_user page page_size = forbidden)
  /\
  (is_admin user = true ->
   pages_through
     (filter (fun u => UserRole_eqb (User.role u) SPONSOR) (users db))
     page_size "No sponsors found" "Sponsors retrieved successfully"
     (fun page => get_all_sponsors db logged_in_user page page_size)
   /\ pages_through
        (filter (fun u => UserRole_eqb (User.role u) CHILD) (users db))
        page_size "No children found" "Children retrieved successfully"
        (fun page => get_all_children db logged_in_user page page_size)
   /\ pages_through (sponsorships db) page_size
        "No sponsorships found" "Sponsorships retrieved successfully"
        (fun page => get_all_sponsorships db logged_in_user page page_size)
   /\ ((forall q, In q (payments db) ->
                  is_finite (Payment.amount q) = true) ->
       pages_through (payments db) page_size
         "No payments found" "Payments retrieved successfully"
         (fun page => get_all_payments db logged_in_user page page_size))
   /\ ((forall r, In r (child_reports db) ->
                  ChildReport.status r = "unread"
                  \/ ChildReport.status r = "read") ->
       pages_through (child_reports db) page_size
         "No child reports found" "Child reports retrieved successfully"
         (fun page =>
            get_all_child_reports db logged_in_user page page_size))
   /\ (forall page q,
         In q (results (paginate_query (payments db) page page_size)) ->
         is_finite (Payment.amount q) = false ->
         get_all_payments db logged_in_user page page_size
         = Unhandled "ValueError")
   /\ (forall page r,
         In r (results (paginate_query (child_reports db) page page_size)) ->
         ChildReport.status r <> "unread" ->
         ChildReport.status r <> "read" ->
         get_all_child_reports db logged_in_user page page_size
         = Unhandled "LookupError")).
Proof.
  intros Huser Hs. split.
  - intros Hadm page.
    unfold get_all_sponsors, get_all_children, get_all_sponsorships,
      get_all_payments, get_all_child_reports, admin_listing.
    rewrite Huser. cbn [bind]. rewrite Hadm. cbn [negb].
    repeat split.
  - intros Hadm.
    split; [|split; [|split; [|split; [|split; [|split]]]]].
    + eapply admin_listing_pages_through; try eassumption; reflexivity.
    + eapply admin_listing_pages_through; try eassumption; reflexivity.
    + eapply admin_listing_pages_through; try eassumption; reflexivity.
    + intros Hfinite.
      eapply admin_listing_pages_through; try eassumption;
        try reflexivity; exact Hfinite.
    + intros Hstatus.
      eapply admin_listing_pages_through; try eassumption;
        [|reflexivity].
      intros r Hr. unfold report_status.
      destruct (Hstatus r Hr) as [-> | ->]; reflexivity.
    + intros page q Hq Hinf.
      destruct (admin_listing_raises
                  db logged_in_user (payments db) (fun _ => true)
                  (fun q => json_compliant (Payment.amount q))
                  "No payments found" "Payments retrieved successfully"
                  page page_size user q Huser Hadm Hq) as [_ H].
      apply H; [reflexivity|exact Hinf].
    + intros page r Hr Hu Hrd.
      destruct (admin_listing_raises
                  db logged_in_user (child_reports db)
                  (fun r => report_status (ChildReport.status r))
                  (fun _ => true)
                  "No child reports found"
                  "Child reports retrieved successfully"
                  page page_size user r Huser Hadm Hr) as [H _].
      apply H. unfold report_status.
      apply String.eqb_neq in Hu. apply String.eqb_neq in Hrd.
      rewrite Hu, Hrd. reflexivity.
Qed.

Lemma admin_listings_page_through_their_tables_witness :
  listed (get_all_sponsors Sample.db (Sample.token Sample.admin) 1 2)
  = [Sample.sponsor_a; Sample.sponsor_b]
  /\ (listed (get_all_payments Sample.db (Sample.token Sample.admin) 1 2)
        ++ listed (get_all_payments Sample.db (Sample.token Sample.admin)
                                    2 2))%list
     = payments Sample.db
  /\ get_all_payments Sample.db (Sample.token Sample.sponsor_a) 1 2
     = HTTPException HTTP_403_FORBIDDEN "You do not have admin privileges".
Proof.
  assert (Hs : 1 <= 2) by lia.
  destruct (admin_listings_page_through_their_tables
              Sample.db (Sample.token Sample.admin) Sample.admin 2
              eq_refl Hs) as [_ Hadm].
  destruct (Hadm eq_refl) as ([_ Hsponsors] & _ & _ & Hpayments & _).
  split; [|split].
  - vm_compute in Hsponsors. vm_compute. exact Hsponsors.
  - destruct Hpayments as [_ Hp].
    + simpl. intros q [<-|[<-|[<-|[]]]]; reflexivity.
    + vm_compute in Hp. vm_compute. exact Hp.
  - destruct (admin_listings_page_through_their_tables
                Sample.db (Sample.token Sample.sponsor_a) Sample.sponsor_a 2
                eq_refl Hs) as [Hno _].
    destruct (Hno eq_refl 1) as (_ & _ & _ & H & _). exact H.
Defined.

Lemma count_by_role (us : list User.t) :
  count (filter (fun u => UserRole_eqb (User.role u) SPONSOR) us)
  + count (filter (fun u => UserRole_eqb (User.role u) CHILD) us)
  + count (filter (fun u => UserRole_eqb (User.role u) ADMIN) us)
  = count us.
Proof.
  unfold count. induction us as [|u us IH]; [reflexivity|].
  cbn [filter]. destruct (User.role u); cbn [UserRole_eqb List.length];
    lia.
Qed.

Lemma count_role_occ (us : list User.t) (r : UserRole) :
  count (filter (fun u => UserRole_eqb (User.role u) r) us)
  = Z.of_nat (count_occ UserRole_eq_dec (map User.role us) r).
Proof.
  unfold count. induction us as [|u us IH]; [reflexivity|].
  cbn [filter map count_occ].
  destruct (UserRole_eq_dec (User.role u) r) as [E|E].
  - rewrite E.
    assert (Hr : UserRole_eqb r r = true) by (destruct r; reflexivity).
    rewrite Hr. cbn [List.length]. rewrite !Nat2Z.inj_succ, IH.
    reflexivity.
  - assert (Hr : UserRole_eqb (User.role u) r = false).
    { destruct (User.role u), r; try reflexivity; contradiction E;
        reflexivity. }
    rewrite Hr. exact IH.
Qed.

(** X5. The dashboard, for whatever SUM the engine computes.  A
    principal that is not an admin gets 403.  For an admin the request
    fails with ValueError when the total amount (the engine's sum, 0
    for NULL) is not a finite number, and is else answered with 200:
    total_sponsors and total_children are the numbers of stored users
    of role sponsor and of role child, which with the admins are all
    the users (so the two together are fewer than the users),
    total_payments is the number of payment rows and total_amount the
    total.  With no payment row and a sum that is NULL the answer is
    200 with 0 payments of total 0.  A payment that [create_payment]
    records raises total_payments by one and leaves the two user counts
    alone. *)
Theorem get_admin_dashboard_counts
        (sql_sum : list float -> option float)
        (db : Session) (logged_in_user : LoggedInUser) (user : User.t) :
  get_user_or_404 db (token_id logged_in_user) "User not found" = Ok user ->
  let roles := map User.role (users db) in
  let total := coalesce (sql_sum (map Payment.amount (payments db))) in
  (is_admin user = false ->
   get_admin_dashboard sql_sum db logged_in_user
   = HTTPException HTTP_403_FORBIDDEN "You do not have admin privileges")
  /\
  (is_admin user = true -> is_finite total = false ->
   get_admin_dashboard sql_sum db logged_in_user = Unhandled "ValueError")
  /\
  (is_admin user = true -> is_finite total = true ->
   exists resp,
     get_admin_dashboard sql_sum db logged_in_user = Ok resp
     /\ status_code resp = HTTP_200_OK
     /\ total_sponsors (data resp)
        = Z.of_nat (count_occ UserRole_eq_dec roles SPONSOR)
     /\ total_children (data resp)
        = Z.of_nat (count_occ UserRole_eq_dec roles CHILD)
     /\ total_sponsors (data resp) + total_children (data resp)
        + Z.of_nat (count_occ UserRole_eq_dec roles ADMIN)
        = Z.of_nat (List.length (users db))
     /\ total_sponsors (data resp) + total_children (data resp)
        < Z.of_nat (List.length (users db))
     /\ total_payments (data resp) = Z.of_nat (List.length (payments db))
     /\ total_amount (data resp) = total)
  /\
  (is_admin user = true -> sql_sum [] = None -> payments db = [] ->
   exists resp,
     get_admin_dashboard sql_sum db logged_in_user = Ok resp
     /\ total_payments (data resp) = 0
     /\ total_amount (data resp) = 0%float)
  /\
  (forall now principal payment_data db' created resp resp',
     create_payment db now principal payment_data = Ok (db', created) ->
     get_admin_dashboard sql_sum db logged_in_user = Ok resp ->
     get_admin_dashboard sql_sum db' logged_in_user = Ok resp' ->
     total_payments (data resp') = total_payments (data resp) + 1
     /\ total_sponsors (data resp') = total_sponsors (data resp)
     /\ total_children (data resp') = total_children (data resp)).
Proof.
  intros Huser roles total. subst roles total.
  split; [|split; [|split; [|split]]].
  - intros Hadm. unfold get_admin_dashboard. rewrite Huser. cbn [bind].
    rewrite Hadm. reflexivity.
  - intros Hadm Hinf. unfold get_admin_dashboard. rewrite Huser.
    cbn [bind]. rewrite Hadm. cbn [negb]. unfold json_compliant.
    rewrite Hinf. reflexivity.
  - intros Hadm Hfin. unfold get_admin_dashboard. rewrite Huser.
    cbn [bind]. rewrite Hadm. cbn [negb]. unfold json_compliant.
    rewrite Hfin. eexists. split; [reflexivity|].
    cbn [data status_code create_response total_sponsors total_children
              total_payments total_amount].
    pose proof (count_by_role (users db)) as Hsum.
    rewrite !count_role_occ in *.
    assert (Hadmins : (0 < count_occ UserRole_eq_dec
                              (map User.role (users db)) ADMIN)%nat).
    { apply count_occ_In.
      destruct (get_user_or_404_found _ _ _ _ Huser) as [Hin _].
      unfold is_admin in Hadm.
      replace ADMIN with (User.role user)
        by (destruct (User.role user);
            [reflexivity | discriminate | discriminate]).
      apply in_map, Hin. }
    unfold count in *.
    repeat split; try reflexivity; lia.
  - intros Hadm Hnull Hnone. unfold get_admin_dashboard. rewrite Huser.
    cbn [bind]. rewrite Hadm, Hnone. cbn [negb map]. rewrite Hnull.
    eexists. split; [reflexivity|split; reflexivity].
  - intros now principal payment_data db' created resp resp' Hc.
    apply create_payment_inv in Hc.
    apply create_payment_commit_inv in Hc. destruct Hc as [-> _].
    unfold get_admin_dashboard. cbn [users payments with_payments].
    change (get_user_or_404
              (with_payments db (payments db ++ [data created]))
              (token_id logged_in_user) "User not found")
      with (get_user_or_404 db (token_id logged_in_user) "User not found").
    rewrite Huser. cbn [bind].
    destruct (negb (is_admin user)); [discriminate|].
    destruct (json_compliant _); [|discriminate].
    destruct (json_compliant _); [|discriminate].
    intros [= <-] [= <-].
    cbn [data create_response total_sponsors total_children total_payments].
    unfold count. rewrite length_app. cbn [List.length].
    repeat split. lia.
Qed.

Lemma get_admin_dashboard_counts_witness :
  exists resp,
    get_admin_dashboard Sample.sql_sum Sample.db (Sample.token Sample.admin)
    = Ok resp
    /\ total_sponsors (data resp) = 2
    /\ total_children (data resp) = 2
    /\ total_payments (data resp) = 3
    /\ total_amount (data resp) = 15000%float.
Proof.
  destruct (get_admin_dashboard_counts
              Sample.sql_sum Sample.db (Sample.token Sample.admin)
              Sample.admin eq_refl)
    as (_ & _ & H & _).
  destruct (H eq_refl eq_refl)
    as (resp & Hr & _ & Hs & Hc & _ & _ & Hp & Ha).
  exists resp. split; [exact Hr|].
  split; [exact Hs|]. split; [exact Hc|]. split; [exact Hp|exact Ha].
Defined.

(** The sum of the amounts can leave the finite numbers where every
    amount is finite: with an engine that adds in table order, two
    payments of 2^1023 fail the dashboard. *)
Remark get_admin_dashboard_overflow :
  let big := Sample.priced 0x1p+1023%float in
  get_admin_dashboard Sample.sql_sum
    (with_payments Sample.db
       [big (Sample.mk_payment 1 2 4 "TXN1");
        big (Sample.mk_payment 2 3 4 "TXN2")])
    (Sample.token Sample.admin)
  = Unhandled "ValueError".
Proof. reflexivity. Qed.

(** * Reading one payment, one user *)



(** X7. [read_user]: the record of an admin is served to admins only;
    every other record is served to every principal that resolves. *)
Theorem read_user_admin_records
        (db : Session) (logged_in_user : LoggedInUser) (user_id : Z)
        (user fetched_user : User.t) :
  get_user_or_404 db (token_id logged_in_user) "User no longer exists"
  = Ok user ->
  get_user_or_404 db user_id "User not found" = Ok fetched_user ->
  (is_admin fetched_user = true -> is_admin user = false ->
   read_user db logged_in_user user_id
   = HTTPException HTTP_403_FORBIDDEN
       "You do not have permission to perform this action")
  /\
  (is_admin fetched_user = false \/ is_admin user = true ->
   read_user db logged_in_user user_id
   = Ok (create_response "User profile retrieved successfully"
           fetched_user HTTP_200_OK None)).
Proof.
  intros Huser Hfetched. unfold read_user.
  rewrite Huser. cbn [bind]. rewrite Hfetched. cbn [bind]. split.
  - intros -> ->. reflexivity.
  - intros [-> | ->]; [reflexivity|].
    cbn [negb]. rewrite andb_false_r. reflexivity.
Qed.

Lemma read_user_admin_records_witness :
  read_user Sample.db (Sample.token Sample.child_c) 1
  = HTTPException HTTP_403_FORBIDDEN
      "You do not have permission to perform this action"
  /\ is_ok (read_user Sample.db (Sample.token Sample.child_c) 2) = true.
Proof.
  split.
  - apply (read_user_admin_records
             Sample.db (Sample.token Sample.child_c) 1
             Sample.child_c Sample.admin eq_refl eq_refl);
      reflexivity.
  - destruct (read_user_admin_records
                Sample.db (Sample.token Sample.child_c) 2
                Sample.child_c Sample.sponsor_a eq_refl eq_refl)
      as [_ H].
    rewrite H; [reflexivity|]. left. reflexivity.
Defined.

(** * Reports and payments of a sponsor: what is listed to whom *)

Lemma reports_page_items (query : list ChildReport.t) (page page_size : Z)
      (not_found : string)
      (resp : JSONResponse (ListData ChildReport.t)) (r : ChildReport.t) :
  reports_page query page page_size not_found = Ok resp ->
  In r (ld_items (data resp)) -> In r query.
Proof.
  unfold reports_page.
  destruct (results (paginate_query query page page_size)) eqn:E;
    [discriminate|].
  intros [= <-]. cbn [data ld_items create_response]. rewrite <- E.
  unfold paginate_query. cbn [results]. apply In_page.
Qed.

Lemma Z_in_map {A} (f : A -> Z) (x : Z) (l : list A) :
  Z_in x (map f l) = true <-> exists a, In a l /\ f a = x.
Proof.
  unfold Z_in. rewrite existsb_exists. split.
  - intros (y & Hy & E). apply Z.eqb_eq in E. subst y.
    apply in_map_iff in Hy. destruct Hy as (a & Ha & Hin).
    exists a. split; assumption.
  - intros (a & Hin & Ha). exists x. split; [|apply Z.eqb_refl].
    rewrite <- Ha. apply in_map. exact Hin.
Qed.

(** A sponsorship row links the sponsor [s] and the child [c]. *)
Lemma is_sponsor_of_child_iff (db : Session) (s c : Z) :
  is_sponsor_of_child db s c = true
  <-> exists row, In row (sponsorships db)
                  /\ Sponsorship.sponsor_id row = s
                  /\ Sponsorship.child_id row = c.
Proof.
  unfold is_sponsor_of_child. rewrite existsb_exists. split.
  - intros (row & Hin & Hb). apply andb_true_iff in Hb.
    destruct Hb as [H1 H2]. apply Z.eqb_eq in H1, H2.
    exists row. repeat split; assumption.
  - intros (row & Hin & <- & <-). exists row. split; [exact Hin|].
    rewrite !Z.eqb_refl. reflexivity.
Qed.

(** X8. [get_reports] never shows a principal that is not an admin a
    report of a child that no sponsorship row links to that principal,
    whichever of child_id and sponsor_id the request carries. *)
Theorem get_reports_only_of_sponsored_children
        (db : Session) (logged_in_user : LoggedInUser)
        (child_id sponsor_id : option Z) (page page_size : Z)
        (user : User.t) (resp : JSONResponse (ListData ChildReport.t)) :
  get_user_or_404 db (token_id logged_in_user) "User not found" = Ok user ->
  is_admin user = false ->
  get_reports db logged_in_user child_id sponsor_id page page_size
  = Ok resp ->
  forall r, In r (ld_items (data resp)) ->
            is_sponsor_of_child db (User.id user) (ChildReport.child_id r)
            = true.
Proof.
  intros Huser Hadm. unfold get_reports. rewrite Huser. cbn [bind].
  rewrite Hadm. cbn [negb andb].
  destruct (negb (truthy child_id) && negb (truthy sponsor_id));
    [discriminate|].
  set (cid := match child_id with Some i => i | None => 0 end).
  set (sid := match sponsor_id with Some i => i | None => 0 end).
  assert (Hchildcase :
            forall child, user_with_role db cid CHILD = Some child ->
                          Z_in (User.id user)
                               (map Sponsorship.sponsor_id
                                    (sponsorships_as_child db child)) = true ->
                          forall query,
                            reports_page
                              (filter (fun r => ChildReport.child_id r =? cid)
                                      query)
                              page page_size "No reports found." = Ok resp ->
                            forall r, In r (ld_items (data resp)) ->
                                      is_sponsor_of_child
                                        db (User.id user)
                                        (ChildReport.child_id r) = true).
  { intros child Hc Hin query Hpage r Hr.
    apply (reports_page_items _ _ _ _ _ _ Hpage) in Hr.
    apply filter_In in Hr. destruct Hr as [_ Hr]. apply Z.eqb_eq in Hr.
    destruct (user_with_role_found _ _ _ _ Hc) as (_ & Hcid & _).
    apply Z_in_map in Hin. destruct Hin as (s & Hs & Hsid).
    apply filter_In in Hs. destruct Hs as [Hs Hsc]. apply Z.eqb_eq in Hsc.
    apply is_sponsor_of_child_iff. exists s.
    repeat split; [exact Hs | exact Hsid | congruence]. }
  destruct (truthy child_id && truthy sponsor_id).
  - destruct (user_with_role db cid CHILD) as [child|] eqn:Hc;
      [|discriminate].
    destruct (user_with_role db sid SPONSOR); [|discriminate].
    destruct (existsb _ (sponsorships_as_child db child)) eqn:Hex;
      [|discriminate].
    cbn [negb].
    destruct (User.id user =? sid) eqn:Hid; [|discriminate].
    cbn [negb bind]. apply Z.eqb_eq in Hid.
    apply (Hchildcase child eq_refl).
    apply Z_in_map. apply existsb_exists in Hex.
    destruct Hex as (s & Hs & Hb). apply Z.eqb_eq in Hb.
    exists s. split; [exact Hs|congruence].
  - destruct (truthy child_id).
    + destruct (user_with_role db cid CHILD) as [child|] eqn:Hc;
        [|discriminate].
      destruct (Z_in (User.id user) _) eqn:Hin; [|discriminate].
      cbn [negb bind]. apply (Hchildcase child eq_refl Hin).
    + destruct (User.id user =? sid) eqn:Hid; [|discriminate].
      cbn [negb]. apply Z.eqb_eq in Hid.
      destruct (user_with_role db sid SPONSOR) as [sponsor|] eqn:Hs;
        [|discriminate].
      destruct (map Sponsorship.child_id (sponsorships_as_sponsor db sponsor))
        as [|c0 cs] eqn:Hids; [discriminate|].
      cbn [bind]. intros Hpage r Hr.
      apply (reports_page_items _ _ _ _ _ _ Hpage) in Hr.
      apply filter_In in Hr. destruct Hr as [_ Hr].
      rewrite <- Hids in Hr. apply Z_in_map in Hr.
      destruct Hr as (s & Hsin & Hsc).
      apply filter_In in Hsin. destruct Hsin as [Hsin Hss].
      apply Z.eqb_eq in Hss.
      destruct (user_with_role_found _ _ _ _ Hs) as (_ & Hsid & _).
      apply is_sponsor_of_child_iff. exists s.
      repeat split; [exact Hsin | congruence | exact Hsc].
Qed.

Lemma get_reports_only_of_sponsored_children_witness :
  exists resp,
    get_reports Sample.db (Sample.token Sample.sponsor_b) (Some 4) None 1 10
    = Ok resp
    /\ is_sponsor_of_child Sample.db 3 (ChildReport.child_id Sample.report1)
       = true.
Proof.
  eexists. split; [reflexivity|].
  apply (get_reports_only_of_sponsored_children
           Sample.db (Sample.token Sample.sponsor_b) (Some 4) None 1 10
           Sample.sponsor_b _ eq_refl eq_refl eq_refl).
  left. reflexivity.
Defined.

(** X9. [get_sponsor_payments] is for sponsors only (an admin gets 403
    like a child) and lists nothing but payments made by the
    principal. *)
Theorem get_sponsor_payments_own_only
        (db : Session) (logged_in_user : LoggedInUser) (page page_size : Z)
        (user : User.t) :
  get_user_or_404 db (token_id logged_in_user) "User not found" = Ok user ->
  (User.role user <> SPONSOR ->
   get_sponsor_payments db logged_in_user page page_size
   = HTTPException HTTP_403_FORBIDDEN
       "Only sponsors can access this resource.")
  /\
  (forall resp,
      get_sponsor_payments db logged_in_user page page_size = Ok resp ->
      User.role user = SPONSOR
      /\ forall q, In q (ld_items (data resp)) ->
                   In q (payments db)
                   /\ Payment.sponsor_id q = User.id user).
Proof.
  intros Huser. unfold get_sponsor_payments. rewrite Huser. cbn [bind].
  split.
  - intros Hrole. destruct (User.role user); try reflexivity.
    contradiction.
  - intros resp.
    destruct (User.role user) eqn:Hrole; cbn [UserRole_eqb negb];
      try discriminate.
    destruct (results (paginate_query _ page page_size)) eqn:E;
      [discriminate|].
    intros [= <-]. split; [reflexivity|].
    cbn [data ld_items create_response]. intros q Hq.
    rewrite <- E in Hq. unfold paginate_query in Hq. cbn [results] in Hq.
    apply In_page in Hq. apply filter_In in Hq. destruct Hq as [Hin Hq].
    split; [exact Hin|apply Z.eqb_eq, Hq].
Qed.

Lemma get_sponsor_payments_own_only_witness :
  get_sponsor_payments Sample.db (Sample.token Sample.admin) 1 10
  = HTTPException HTTP_403_FORBIDDEN
      "Only sponsors can access this resource."
  /\ exists resp,
      get_sponsor_payments Sample.db (Sample.token Sample.sponsor_b) 1 10
      = Ok resp
      /\ Payment.sponsor_id (Sample.mk_payment 2 3 4 "TXN2") = 3.
Proof.
  split.
  - apply (get_sponsor_payments_own_only
             Sample.db (Sample.token Sample.admin) 1 10 Sample.admin
             eq_refl).
    discriminate.
  - destruct (get_sponsor_payments_own_only
                Sample.db (Sample.token Sample.sponsor_b) 1 10
                Sample.sponsor_b eq_refl) as [_ H].
    eexists. split; [reflexivity|].
    destruct (H _ eq_refl) as [_ Hq].
    exact (proj2 (Hq (Sample.mk_payment 2 3 4 "TXN2")
                     (or_introl eq_refl))).
Defined.

(** X10. [get_sponsor_reports] and [get_sponsor_report_by_id] are for
    sponsors only, and every report they return is about a child that
    a sponsorship row links to the principal. *)
Theorem sponsor_reports_only_of_sponsored_children
        (db : Session) (logged_in_user : LoggedInUser) (user : User.t) :
  get_user_or_404 db (token_id logged_in_user) "User not found" = Ok user ->
  (forall page page_size resp,
      get_sponsor_reports db logged_in_user page page_size = Ok resp ->
      User.role user = SPONSOR
      /\ forall r, In r (ld_items (data resp)) ->
                   In r (child_reports db)
                   /\ is_sponsor_of_child db (User.id user)
                                          (ChildReport.child_id r) = true)
  /\
  (forall report_id resp,
      get_sponsor_report_by_id db logged_in_user report_id = Ok resp ->
      User.role user = SPONSOR
      /\ In (data resp) (child_reports db)
      /\ ChildReport.id (data resp) = report_id
      /\ is_sponsor_of_child db (User.id user)
                             (ChildReport.child_id (data resp)) = true).
Proof.
  intros Huser.
  assert (Hlink : forall c,
             Z_in c (map Sponsorship.child_id
                         (sponsorships_as_sponsor db user)) = true ->
             is_sponsor_of_child db (User.id user) c = true).
  { intros c Hc. apply Z_in_map in Hc. destruct Hc as (s & Hs & Hsc).
    apply filter_In in Hs. destruct Hs as [Hin Hss]. apply Z.eqb_eq in Hss.
    apply is_sponsor_of_child_iff. exists s. repeat split; assumption. }
  split.
  - intros page page_size resp. unfold get_sponsor_reports.
    rewrite Huser. cbn [bind].
    destruct (User.role user) eqn:Hrole; cbn [UserRole_eqb negb];
      try discriminate.
    destruct (map Sponsorship.child_id (sponsorships_as_sponsor db user))
      as [|c0 cs] eqn:Hids; [discriminate|].
    intros Hpage. split; [reflexivity|]. intros r Hr.
    apply (reports_page_items _ _ _ _ _ _ Hpage) in Hr.
    apply filter_In in Hr. destruct Hr as [Hin Hr].
    split; [exact Hin|]. apply Hlink. exact Hr.
  - intros report_id resp. unfold get_sponsor_report_by_id.
    rewrite Huser. cbn [bind].
    destruct (User.role user) eqn:Hrole; cbn [UserRole_eqb negb];
      try discriminate.
    destruct (first (filter _ (child_reports db))) as [report|] eqn:E;
      [|discriminate].
    destruct (Z_in (ChildReport.child_id report) _) eqn:Hin;
      [|discriminate].
    cbn [negb]. intros [= <-]. cbn [data create_response].
    apply first_filter_some in E. destruct E as [Hr Hid].
    apply Z.eqb_eq in Hid.
    repeat split; [exact Hr | exact Hid | apply Hlink, Hin].
Qed.

Lemma sponsor_reports_only_of_sponsored_children_witness :
  exists resp,
    get_sponsor_report_by_id Sample.db (Sample.token Sample.sponsor_a) 1
    = Ok resp
    /\ is_sponsor_of_child Sample.db 2 (ChildReport.child_id (data resp))
       = true.
Proof.
  destruct (sponsor_reports_only_of_sponsored_children
              Sample.db (Sample.token Sample.sponsor_a) Sample.sponsor_a
              eq_refl) as [_ H].
  eexists. split; [reflexivity|].
  apply (H 1 _ eq_refl).
Defined.



(** X12. [get_sponsor_of_child] asks nothing of the principal but to
    resolve.  For a child-role user it answers 404 "This child does not
    have a sponsor" exactly when no sponsorship row names the child;
    a user it returns is the sponsor of the first such row, so a
    sponsorship row links it to the child. *)
Theorem get_sponsor_of_child_linked
        (db : Session) (logged_in_user : LoggedInUser) (child_id : Z)
        (user : User.t) :
  get_user_or_404 db (token_id logged_in_user) "User not found" = Ok user ->
  user_with_role db child_id CHILD <> None ->
  (get_sponsor_of_child db logged_in_user child_id
   = HTTPException HTTP_404_NOT_FOUND "This child does not have a sponsor"
   <-> forall s, In s (sponsorships db) ->
                 Sponsorship.child_id s <> child_id)
  /\
  (forall resp,
      get_sponsor_of_child db logged_in_user child_id = Ok resp ->
      In (data resp) (users db)
      /\ is_sponsor_of_child db (User.id (data resp)) child_id = true).
Proof.
  intros Huser Hchild. unfold get_sponsor_of_child.
  rewrite Huser. cbn [bind].
  destruct (user_with_role db child_id CHILD); [|contradiction].
  destruct (first (filter _ (sponsorships db))) as [s|] eqn:E.
  - apply first_filter_some in E. destruct E as [Hs Hc].
    apply Z.eqb_eq in Hc. split.
    + split.
      * unfold get_user_or_404. destruct (first _); discriminate.
      * intros H. exfalso. exact (H s Hs Hc).
    + intros resp.
      destruct (get_user_or_404 db (Sponsorship.sponsor_id s) _)
        as [sponsor| |] eqn:Hsp; cbn [bind]; try discriminate.
      intros [= <-]. cbn [data create_response].
      destruct (get_user_or_404_found _ _ _ _ Hsp) as [Hin Hid].
      split; [exact Hin|].
      apply is_sponsor_of_child_iff. exists s.
      repeat split; [exact Hs | congruence | exact Hc].
  - split; [|discriminate]. split; [|reflexivity].
    intros _ s Hs Hc. rewrite first_filter_none in E.
    specialize (E s Hs). cbn beta in E. apply Z.eqb_neq in E.
    contradiction.
Qed.

Lemma get_sponsor_of_child_linked_witness :
  exists resp,
    get_sponsor_of_child Sample.db (Sample.token Sample.child_d) 4 = Ok resp
    /\ is_sponsor_of_child Sample.db (User.id (data resp)) 4 = true.
Proof.
  destruct (get_sponsor_of_child_linked
              Sample.db (Sample.token Sample.child_d) 4 Sample.child_d
              eq_refl) as [_ H].
  - vm_compute. discriminate.
  - eexists. split; [reflexivity|]. apply (H _ eq_refl).
Defined.

(** * Users: creation, deletion, listing *)

(** X13. [create_user] by an admin answers 400 "Email or username
    already registered" exactly when a stored user has the username of
    the form or the email of the form; a form without email is compared
    with [email IS NULL], so it is refused as soon as one stored user
    has no email. *)
Theorem create_user_identity_taken
        (hash_password : string -> string)
        (password_pattern_match : string -> bool)
        (db : Session) (logged_in_user : LoggedInUser)
        (user_data : UserCreate) (user : User.t) :
  get_user_or_404 db (token_id logged_in_user) "User not found" = Ok user ->
  is_admin user = true ->
  (create_user hash_password password_pattern_match db logged_in_user
               user_data
   = HTTPException HTTP_400_BAD_REQUEST
       "Email or username already registered"
   <-> exists u, In u (users db)
                 /\ (User.username u = uc_username user_data
                     \/ User.email u = uc_email user_data)).
Proof.
  intros Huser Hadm. unfold create_user. rewrite Huser. cbn [bind].
  rewrite Hadm. cbn [negb].
  assert (Hopt : forall a b, opt_string_eqb a b = true <-> a = b).
  { intros [a|] [b|]; simpl; split; try discriminate; try reflexivity.
    - intros H. apply String.eqb_eq in H. congruence.
    - intros [= ->]. apply String.eqb_refl. }
  destruct (first (filter _ (users db))) as [u|] eqn:E.
  - split; [|reflexivity]. intros _.
    apply first_filter_some in E. destruct E as [Hin Hb].
    exists u. split; [exact Hin|].
    apply orb_true_iff in Hb. destruct Hb as [Hb|Hb].
    + left. apply String.eqb_eq, Hb.
    + right. apply Hopt, Hb.
  - rewrite first_filter_none in E. split.
    + destruct (negb (password_pattern_match _)); [discriminate|].
      destruct (user_identity_taken _ _); discriminate.
    + intros (u & Hin & Hu). exfalso. specialize (E u Hin).
      cbn beta in E. apply orb_false_iff in E. destruct E as [E1 E2].
      destruct Hu as [Hu|Hu].
      * apply String.eqb_neq in E1. contradiction.
      * apply Hopt in Hu. congruence.
Qed.

Lemma create_user_identity_taken_witness :
  User.email Sample.child_d = None
  /\ uc_email (Sample.user_form "erin" CHILD) = None
  /\ create_user (fun p => p) (fun _ => true) Sample.db
                 (Sample.token Sample.admin) (Sample.user_form "erin" CHILD)
     = HTTPException HTTP_400_BAD_REQUEST
         "Email or username already registered".
Proof.
  split; [reflexivity|]. split; [reflexivity|].
  apply (create_user_identity_taken
           (fun p => p) (fun _ => true) Sample.db
           (Sample.token Sample.admin) (Sample.user_form "erin" CHILD)
           Sample.admin eq_refl eq_refl).
  exists Sample.child_d. split; [simpl; tauto|]. right. reflexivity.
Defined.

(** X14. [delete_user]: an admin cannot delete the own account (400);
    a deletion that is carried out removes the user and, by cascade,
    every sponsorship, payment and report that names the user as
    sponsor or child; every other row of every table stays. *)
Theorem delete_user_cascades
        (db : Session) (logged_in_user : LoggedInUser) (user_id : Z)
        (user : User.t) :
  get_user_or_404 db (token_id logged_in_user) "User not found" = Ok user ->
  (User.id user = user_id -> is_admin user = true ->
   delete_user db logged_in_user user_id
   = HTTPException HTTP_400_BAD_REQUEST "You cannot delete your own account")
  /\
  (forall db' resp,
      delete_user db logged_in_user user_id = Ok (db', resp) ->
      is_admin user = true
      /\ User.id user <> user_id
      /\ (forall u, In u (users db') <->
                    In u (users db) /\ User.id u <> user_id)
      /\ (forall s, In s (sponsorships db') <->
                    In s (sponsorships db)
                    /\ Sponsorship.sponsor_id s <> user_id
                    /\ Sponsorship.child_id s <> user_id)
      /\ (forall q, In q (payments db') <->
                    In q (payments db)
                    /\ Payment.sponsor_id q <> user_id
                    /\ Payment.child_id q <> user_id)
      /\ (forall r, In r (child_reports db') <->
                    In r (child_reports db)
                    /\ ChildReport.child_id r <> user_id)).
Proof.
  intros Huser. unfold delete_user. split.
  - intros Hid Hadm.
    assert (Ht : get_user_or_404 db user_id "User to delete not found"
                 = Ok user).
    { unfold get_user_or_404 in *. rewrite <- Hid.
      destruct (get_user_or_404_found _ _ "User not found" _ Huser)
        as [_ Hid'].
      rewrite Hid'. destruct (first _); [|discriminate].
      injection Huser as ->. reflexivity. }
    rewrite Ht. cbn [bind]. rewrite Huser. cbn [bind].
    rewrite Hadm, Hid, Z.eqb_refl. reflexivity.
  - intros db' resp.
    destruct (get_user_or_404 db user_id _) as [target| |] eqn:Ht;
      cbn [bind]; try discriminate.
    rewrite Huser. cbn [bind].
    destruct (is_admin user); cbn [negb]; [|discriminate].
    destruct (User.id user =? user_id) eqn:Hid; [discriminate|].
    intros [= <- _]. apply Z.eqb_neq in Hid.
    destruct (get_user_or_404_found _ _ _ _ Ht) as [_ ->].
    split; [reflexivity|]. split; [exact Hid|].
    unfold delete_user_cascade.
    cbn [users sponsorships payments child_reports].
    split; [|split; [|split]]; intros x;
      rewrite filter_In, ?andb_true_iff, ?negb_true_iff, ?Z.eqb_neq;
      tauto.
Qed.

Lemma delete_user_cascades_witness :
  exists db' resp,
    delete_user Sample.db (Sample.token Sample.admin) 4 = Ok (db', resp)
    /\ payments db' = []
    /\ ~ In Sample.child_c (users db').
Proof.
  destruct (delete_user_cascades
              Sample.db (Sample.token Sample.admin) 4 Sample.admin eq_refl)
    as [_ H].
  do 2 eexists. split; [reflexivity|]. split; [reflexivity|].
  destruct (H _ _ eq_refl) as (_ & _ & Hu & _).
  intros Hin. apply Hu in Hin. destruct Hin as [_ Hne]. apply Hne.
  reflexivity.
Defined.

Lemma filter_ilike_incl (ilike : string -> string -> bool)
      (value : option string) (column : User.t -> string)
      (query : list User.t) :
  incl (filter_ilike ilike value column query) query
  /\ (List.length (filter_ilike ilike value column query)
      <= List.length query)%nat.
Proof.
  unfold filter_ilike. destruct value as [v|].
  - destruct (truthy_str (Some v)).
    + split; [apply incl_filter|apply filter_length_le].
    + split; [apply incl_refl|lia].
  - split; [apply incl_refl|lia].
Qed.

(** X15. [read_users] by an admin, for page_size >= 1: it never fails,
    not even on an empty page; the filtered count is at most the count
    of the whole table that it reports beside it; the message is "No
    users found" exactly when the filtered count is 0; the users of the
    page are stored users, of the role asked for if one is asked for. *)
Theorem read_users_counts
        (ilike : string -> string -> bool)
        (db : Session) (logged_in_user : LoggedInUser)
        (first_name last_name : option string)
        (role : option UserRole) (gender : option Gender)
        (page page_size : Z) (user : User.t) :
  get_user_or_404 db (token_id logged_in_user) "User not found" = Ok user ->
  is_admin user = true ->
  1 <= page_size ->
  exists resp,
    read_users ilike db logged_in_user first_name last_name role gender
               page page_size = Ok resp
    /\ 0 <= ud_filtered_user_count (data resp) <= ud_total_users (data resp)
    /\ ud_total_users (data resp) = Z.of_nat (List.length (users db))
    /\ (message resp = "No users found"
        <-> ud_filtered_user_count (data resp) = 0)
    /\ forall u, In u (ud_users (data resp)) ->
                 In u (users db)
                 /\ forall r, role = Some r -> User.role u = r.
Proof.
  intros Huser Hadm Hs. unfold read_users. rewrite Huser. cbn [bind].
  rewrite Hadm. cbn [negb].
  set (q1 := filter_ilike ilike first_name User.first_name (users db)).
  set (q2 := filter_ilike ilike last_name User.last_name q1).
  set (q3 := match role with
             | Some r => filter (fun u => UserRole_eqb (User.role u) r) q2
             | None => q2
             end).
  set (q4 := match gender with
             | Some g => filter _ q3
             | None => q3
             end).
  destruct (filter_ilike_incl ilike first_name User.first_name (users db))
    as [I1 L1].
  destruct (filter_ilike_incl ilike last_name User.last_name q1)
    as [I2 L2].
  fold q1 in I1, L1. fold q2 in I2, L2.
  assert (H3 : incl q3 q2 /\ (List.length q3 <= List.length q2)%nat
               /\ forall u r, role = Some r -> In u q3 -> User.role u = r).
  { unfold q3. destruct role as [r|].
    - split; [apply incl_filter|]. split; [apply filter_length_le|].
      intros u r' [= <-] Hu. apply filter_In in Hu. destruct Hu as [_ Hu].
      destruct (User.role u), r; simpl in Hu; congruence.
    - split; [apply incl_refl|]. split; [lia|]. discriminate. }
  destruct H3 as (I3 & L3 & R3).
  assert (H4 : incl q4 q3 /\ (List.length q4 <= List.length q3)%nat).
  { unfold q4. destruct gender.
    - split; [apply incl_filter|apply filter_length_le].
    - split; [apply incl_refl|lia]. }
  destruct H4 as [I4 L4].
  eexists. split; [reflexivity|].
  cbn [data message create_response ud_filtered_user_count ud_total_users
            ud_users].
  unfold paginate_query. cbn [total_count total_pages results].
  split; [lia|]. split; [reflexivity|]. split.
  - destruct (total_pages_is_ceiling (Z.of_nat (List.length q4)) page_size)
      as [Hup Hlow]; [lia | lia |].
    cbv zeta in Hup, Hlow.
    destruct (0 <? (Z.of_nat (List.length q4) + page_size - 1) / page_size)
      eqn:Hpos.
    + apply Z.ltb_lt in Hpos. split; [discriminate|]. nia.
    + apply Z.ltb_ge in Hpos. split; [|reflexivity]. intros _. nia.
  - intros u Hu. apply In_page in Hu.
    split.
    + apply I1, I2, I3, I4, Hu.
    + intros r Hr. apply (R3 u r Hr). apply I4, Hu.
Qed.

Lemma read_users_counts_witness :
  exists resp,
    read_users (fun _ _ => true) Sample.db (Sample.token Sample.admin)
               None None (Some CHILD) None 1 10 = Ok resp
    /\ ud_filtered_user_count (data resp) <= ud_total_users (data resp).
Proof.
  assert (Hs : 1 <= 10) by lia.
  destruct (read_users_counts
              (fun _ _ => true) Sample.db (Sample.token Sample.admin)
              None None (Some CHILD) None 1 10 Sample.admin
              eq_refl eq_refl Hs) as (resp & Hr & Hle & _).
  exists resp. split; [exact Hr|]. apply Hle.
Defined.

(** * Authentication *)

Lemma until_sep_absent (sep s : string) :
  after_first sep s = None -> until_sep sep s = s.
Proof.
  induction s as [|c s IH]; [reflexivity|].
  cbn [after_first until_sep].
  destruct (String.prefix sep (String c s)); [discriminate|].
  intros H. rewrite (IH H). reflexivity.
Qed.

Lemma split_1_bearer (t : string) :
  after_first "Bearer " t = None ->
  split_1 "Bearer " ("Bearer " ++ t) = Some t.
Proof.
  intros H. unfold split_1.
  assert (E : after_first "Bearer " ("Bearer " ++ t) = Some t).
  { cbn. destruct t; reflexivity. }
  rewrite E, (until_sep_absent _ _ H). reflexivity.
Qed.

(** X16. [get_current_user]: a request without a cookie and without an
    Authorization header is answered 401 "Not authenticated"; a cookie
    that is not empty is what counts, whatever the header says; and a
    principal that is let through carries the id and the subject of a
    token that [jwt.decode] accepted, the id not 0 and the username not
    empty. *)
Theorem get_current_user_outcomes
        (jwt_decode : string -> option Payload) :
  get_current_user jwt_decode
    {| cookies_access_token := None; headers_authorization := None |}
  = HTTPException HTTP_401_UNAUTHORIZED "Not authenticated"
  /\
  (forall cookie h1 h2,
      cookie <> "" ->
      get_current_user jwt_decode
        {| cookies_access_token := Some cookie;
           headers_authorization := h1 |}
      = get_current_user jwt_decode
          {| cookies_access_token := Some cookie;
             headers_authorization := h2 |})
  /\
  (forall request current,
      get_current_user jwt_decode request = Ok current ->
      cu_id current <> 0
      /\ cu_username current <> ""
      /\ exists token payload,
           jwt_decode token = Some payload
           /\ payload_id payload = Some (cu_id current)
           /\ payload_sub payload = Some (cu_username current)
           /\ payload_role payload = cu_role current).
Proof.
  split; [reflexivity|]. split.
  - intros cookie h1 h2 Hne. unfold get_current_user.
    cbn [cookies_access_token headers_authorization].
    assert (Ht : truthy_str (Some cookie) = true)
      by (simpl; apply negb_true_iff, String.eqb_neq, Hne).
    rewrite Ht. reflexivity.
  - intros request current. unfold get_current_user.
    match goal with
    | |- match ?tok with _ => _ end = _ -> _ => destruct tok as [token|]
    end; [|discriminate].
    destruct (negb (truthy_str (Some token))); [discriminate|].
    match goal with
    | |- bind ?c _ = _ -> _ => destruct c as [token'| |]
    end; cbn [bind]; try discriminate.
    destruct (jwt_decode token') as [payload|] eqn:Hdec; [|discriminate].
    destruct (negb (truthy (payload_id payload))
              || negb (truthy_str (payload_sub payload))) eqn:Hchk;
      [discriminate|].
    intros [= <-]. cbn [cu_id cu_username cu_role].
    apply orb_false_iff in Hchk. destruct Hchk as [Hid Hsub].
    apply negb_false_iff in Hid, Hsub.
    destruct (payload_id payload) as [i|] eqn:Ei; [|discriminate].
    destruct (payload_sub payload) as [n|] eqn:En; [|discriminate].
    simpl in Hid, Hsub. apply negb_true_iff in Hid, Hsub.
    apply Z.eqb_neq in Hid. apply String.eqb_neq in Hsub.
    cbn [or_else].
    split; [exact Hid|]. split; [exact Hsub|].
    exists token', payload. rewrite Ei, En. repeat split. exact Hdec.
Qed.

Lemma get_current_user_outcomes_witness :
  get_current_user (fun _ => None)
    {| cookies_access_token := Some "Bearer abc";
       headers_authorization := Some "Bearer xyz" |}
  = get_current_user (fun _ => None)
      {| cookies_access_token := Some "Bearer abc";
         headers_authorization := None |}.
Proof.
  destruct (get_current_user_outcomes (fun _ => None)) as (_ & H & _).
  apply H. discriminate.
Defined.

(** X17. Login, then authentication.  When the login succeeds it sets
    the cookie "Bearer <token>"; a later request with that cookie is
    recognised as the user who logged in, provided the token decodes to
    the claims it was made from, holds no "Bearer " itself, and the
    user has an id other than 0 and a username that is not empty. *)
Theorem login_then_authenticate
        (verify_password : string -> string -> bool)
        (create_access_token : Z -> string -> string -> Z -> string)
        (jwt_decode : string -> option Payload)
        (db : Session) (username password : string)
        (res : LoginResult) (header : option string) :
  create_token verify_password create_access_token db username password
  = Ok res ->
  jwt_decode (lr_access_token res)
  = Some {| payload_sub := Some (lr_username res);
            payload_id := Some (lr_id res);
            payload_role := Some (UserRole_value (lr_role res)) |} ->
  after_first "Bearer " (lr_access_token res) = None ->
  lr_id res <> 0 ->
  lr_username res <> "" ->
  lr_username res = username
  /\ (exists user, In user (users db)
                   /\ User.id user = lr_id res
                   /\ User.username user = username
                   /\ User.role user = lr_role res
                   /\ verify_password password (User.hashed_password user)
                      = true)
  /\ get_current_user jwt_decode
       {| cookies_access_token := Some (lr_cookie res);
          headers_authorization := header |}
     = Ok {| cu_id := lr_id res;
             cu_username := username;
             cu_role := Some (UserRole_value (lr_role res)) |}.
Proof.
  unfold create_token.
  destruct (first (filter _ (users db))) as [user|] eqn:E; [|discriminate].
  destruct (verify_password password (User.hashed_password user)) eqn:Hv;
    cbn [negb]; [|discriminate].
  intros [= <-].
  cbn [lr_access_token lr_username lr_id lr_role lr_cookie].
  intros Hdec Habsent Hid Hname.
  apply first_filter_some in E. destruct E as [Hin Hu].
  apply String.eqb_eq in Hu.
  split; [exact Hu|]. split.
  { exists user. repeat split; assumption. }
  set (token := create_access_token (User.id user) (User.username user)
                                    (UserRole_value (User.role user)) 7) in *.
  unfold get_current_user.
  cbn [cookies_access_token headers_authorization].
  change (String _ (String _ (String _ (String _ (String _ (String _
            (String _ token)))))))
    with ("Bearer " ++ token).
  assert (Ht : truthy_str (Some ("Bearer " ++ token)) = true)
    by reflexivity.
  rewrite Ht. cbn [negb].
  assert (Hp : String.prefix "Bearer " ("Bearer " ++ token) = true).
  { cbn. destruct token; reflexivity. }
  rewrite Hp, (split_1_bearer token Habsent). cbn [bind].
  rewrite Hdec. cbn [payload_id payload_sub payload_role truthy truthy_str].
  apply Z.eqb_neq in Hid. apply String.eqb_neq in Hname.
  rewrite Hid, Hname. cbn [negb orb or_else]. rewrite Hu. reflexivity.
Qed.

Lemma login_then_authenticate_witness :
  get_current_user
    (fun t => if String.eqb t "e30.e30.sig"
              then Some {| payload_sub := Some "alice";
                           payload_id := Some 2;
                           payload_role := Some "sponsor" |}
              else None)
    {| cookies_access_token := Some "Bearer e30.e30.sig";
       headers_authorization := None |}
  = Ok {| cu_id := 2; cu_username := "alice"; cu_role := Some "sponsor" |}.
Proof.
  pose proof
       (login_then_authenticate
          (fun _ _ => true) (fun _ _ _ _ => "e30.e30.sig")
          (fun t => if String.eqb t "e30.e30.sig"
                    then Some {| payload_sub := Some "alice";
                                 payload_id := Some 2;
                                 payload_role := Some "sponsor" |}
                    else None)
          Sample.db "alice" "Test1234!"
          {| lr_id := 2;
             lr_username := "alice";
             lr_role := SPONSOR;
             lr_access_token := "e30.e30.sig";
             lr_cookie := "Bearer e30.e30.sig" |}
          None eq_refl eq_refl eq_refl) as H.
  destruct H as (_ & _ & H).
  - simpl. lia.
  - discriminate.
  - exact H.
Defined.

(** * What a call that commits does to the store *)


Lemma store_of_ok {A} (r : result (Session * A)) (db' : Session) :
  store_of r = Ok db' -> exists a, r = Ok (db', a).
Proof.
  destruct r as [[db a]| |]; cbn; try discriminate.
  intros [= <-]. exists a. reflexivity.
Qed.

Lemma get_sponsorship_or_404_found (db : Session) (sponsorship_id : Z)
      (sponsorship : Sponsorship.t) :
  get_sponsorship_or_404 db sponsorship_id = Ok sponsorship ->
  In sponsorship (sponsorships db)
  /\ Sponsorship.id sponsorship = sponsorship_id.
Proof.
  unfold get_sponsorship_or_404.
  destruct (first _) as [s|] eqn:E; [|discriminate].
  intros [= <-]. apply first_filter_some in E. destruct E as [Hin Hid].
  split; [exact Hin|apply Z.eqb_eq, Hid].
Qed.

Lemma resolves (db : Session) (u : User.t) (i : Z) :
  In u (users db) -> User.id u = i -> In i (map User.id (users db)).
Proof. intros Hin <-. apply in_map, Hin. Qed.

Lemma create_user_change
      (hash_password : string -> string)
      (password_pattern_match : string -> bool)
      (db : Session) (logged_in_user : LoggedInUser)
      (user_data : UserCreate) (db' : Session)
      (resp : JSONResponse User.t) :
  create_user hash_password password_pattern_match db logged_in_user
              user_data = Ok (db', resp) ->
  change db db'.
Proof.
  unfold create_user.
  destruct (get_user_or_404 _ _ _) as [user| |]; cbn [bind];
    try discriminate.
  destruct (negb (is_admin user)); [discriminate|].
  destruct (first (filter _ (users db))) eqn:E; [discriminate|].
  destruct (negb (password_pattern_match _)); [discriminate|].
  destruct (user_identity_taken _ _); [discriminate|].
  intros [= <- _].
  eapply ch_add_user; [reflexivity | apply next_id_fresh |].
  intros v Hv. rewrite first_filter_none in E. specialize (E v Hv).
  cbn beta in E. apply orb_false_iff in E. destruct E as [E _].
  apply String.eqb_neq, E.
Qed.

Lemma update_user_change
      (hash_password : string -> string)
      (db : Session) (logged_in_user : LoggedInUser)
      (user_data : UserCreate) (user_id : Z) (db' : Session) :
  update_user hash_password db logged_in_user user_data user_id = Ok db' ->
  change db db'.
Proof.
  unfold update_user.
  destruct (get_user_or_404 db (token_id logged_in_user) _) as [user| |];
    cbn [bind]; try discriminate.
  destruct (get_user_or_404 db user_id _) as [old| |] eqn:Hold;
    cbn [bind]; try discriminate.
  destruct (user_identity_taken _ _) eqn:Ht; [discriminate|].
  intros [= <-].
  destruct (get_user_or_404_found _ _ _ _ Hold) as [Hin _].
  eapply ch_upd_user; [reflexivity | exact Hin | reflexivity |].
  intros v Hv Hne. unfold user_identity_taken in Ht.
  destruct (String.eqb (User.username v)
              (User.username (apply_user_update hash_password old
                                                user_data))) eqn:En;
    [|apply String.eqb_neq, En].
  exfalso.
  assert (Hex : existsb
                  (fun u => negb (User.id u =?
                                  User.id (apply_user_update hash_password
                                                             old user_data))
                            && (String.eqb (User.username u)
                                  (User.username
                                     (apply_user_update hash_password old
                                                        user_data))
                                || match User.email u,
                                         User.email
                                           (apply_user_update hash_password
                                                              old user_data)
                                   with
                                   | Some a, Some b => String.eqb a b
                                   | _, _ => false
                                   end))
                  (users db) = true).
  { apply existsb_exists. exists v. split; [exact Hv|].
    apply Z.eqb_neq in Hne. rewrite Hne, En. reflexivity. }
  rewrite Hex in Ht. discriminate.
Qed.

Lemma delete_user_change
      (db : Session) (logged_in_user : LoggedInUser) (user_id : Z)
      (db' : Session) (resp : JSONResponse unit) :
  delete_user db logged_in_user user_id = Ok (db', resp) ->
  change db db'.
Proof.
  unfold delete_user.
  destruct (get_user_or_404 db user_id _) as [target| |]; cbn [bind];
    try discriminate.
  destruct (get_user_or_404 _ _ _) as [user| |]; cbn [bind];
    try discriminate.
  destruct (negb (is_admin user)); [discriminate|].
  destruct (User.id user =? user_id); [discriminate|].
  intros [= <- _]. eapply ch_del_user. reflexivity.
Qed.

Lemma create_sponsorship_change
      (db : Session) (logged_in_user : LoggedInUser)
      (sponsorship_data : SponsorshipBase) (db' : Session)
      (resp : JSONResponse Sponsorship.t) :
  create_sponsorship db logged_in_user sponsorship_data = Ok (db', resp) ->
  change db db'.
Proof.
  unfold create_sponsorship.
  destruct (get_user_or_404 db (token_id logged_in_user) _) as [user| |];
    cbn [bind]; try discriminate.
  destruct (negb (is_admin user)); [discriminate|].
  destruct (get_user_or_404 db (sb_child_id sponsorship_data) _)
    as [child| |] eqn:Hc; cbn [bind]; try discriminate.
  destruct (user_with_role db (sb_sponsor_id sponsorship_data) SPONSOR)
    as [sponsor|] eqn:Hs; [|discriminate].
  destruct (first (filter _ (sponsorships db))) eqn:E; [discriminate|].
  intros [= <- _].
  destruct (get_user_or_404_found _ _ _ _ Hc) as [Hcin Hcid].
  destruct (user_with_role_found _ _ _ _ Hs) as (Hsin & Hsid & _).
  eapply ch_add_sponsorship;
    [reflexivity | apply next_id_fresh
     | exact (resolves db sponsor _ Hsin Hsid)
     | exact (resolves db child _ Hcin Hcid) |].
  intros t Ht Hsp Hch. rewrite first_filter_none in E.
  specialize (E t Ht). cbn [Sponsorship.sponsor_id Sponsorship.child_id]
    in *. rewrite Hsp, Hch, !Z.eqb_refl in E. discriminate.
Qed.

Lemma update_sponsorship_change
      (db : Session) (logged_in_user : LoggedInUser)
      (sponsorship_data : SponsorshipUpdate) (sponsorship_id : Z)
      (db' : Session) (resp : JSONResponse Sponsorship.t) :
  update_sponsorship db logged_in_user sponsorship_data sponsorship_id
  = Ok (db', resp) ->
  change db db'.
Proof.
  unfold update_sponsorship.
  destruct (get_user_or_404 _ _ _) as [user| |]; cbn [bind];
    try discriminate.
  destruct (negb (is_admin user)); [discriminate|].
  destruct (get_sponsorship_or_404 db sponsorship_id) as [old| |] eqn:Hold;
    cbn [bind]; try discriminate.
  intros [= <- _].
  destruct (get_sponsorship_or_404_found _ _ _ Hold) as [Hin _].
  eapply ch_upd_sponsorship;
    [reflexivity | exact Hin | reflexivity | reflexivity | reflexivity].
Qed.

Lemma delete_sponsorship_change
      (db : Session) (logged_in_user : LoggedInUser) (sponsorship_id : Z)
      (db' : Session) :
  delete_sponsorship db logged_in_user sponsorship_id = Ok db' ->
  change db db'.
Proof.
  unfold delete_sponsorship.
  destruct (get_user_or_404 _ _ _) as [user| |]; cbn [bind];
    try discriminate.
  destruct (negb (is_admin user)); [discriminate|].
  destruct (get_sponsorship_or_404 db sponsorship_id) as [old| |];
    cbn [bind]; try discriminate.
  intros [= <-]. eapply ch_del_sponsorship. reflexivity.
Qed.

Lemma create_payment_change
      (db : Session) (now : datetime) (logged_in_user : LoggedInUser)
      (payment_data : PaymentCreate) (db' : Session) (p : Payment.t) :
  create_payment_commit db now logged_in_user payment_data = Ok (db', p) ->
  change db db'.
Proof.
  intros H. apply create_payment_commit_inv in H.
  destruct H as (-> & Hid & Hsid & Hcid & _ & [sponsor Hs] & [child Hc]
                 & Hfresh).
  destruct (user_with_role_found _ _ _ _ Hs) as (Hsin & Hsi & _).
  destruct (user_with_role_found _ _ _ _ Hc) as (Hcin & Hci & _).
  eapply ch_add_payment; [reflexivity | | | | exact Hfresh].
  - rewrite Hid. apply next_id_fresh.
  - rewrite Hsid. exact (resolves db sponsor _ Hsin Hsi).
  - rewrite Hcid. exact (resolves db child _ Hcin Hci).
Qed.

Lemma transaction_id_free (db : Session) (p : Payment.t) :
  transaction_id_taken db (Payment.id p) (Payment.transaction_id p) = false ->
  forall q, In q (payments db) -> Payment.id q <> Payment.id p ->
            Payment.transaction_id q <> Payment.transaction_id p.
Proof.
  unfold transaction_id_taken. intros Ht q Hq Hne Heq.
  assert (Hex : existsb
                  (fun q => negb (Payment.id q =? Payment.id p)
                            && String.eqb (Payment.transaction_id q)
                                          (Payment.transaction_id p))
                  (payments db) = true).
  { apply existsb_exists. exists q. split; [exact Hq|].
    apply Z.eqb_neq in Hne. rewrite Hne, Heq, String.eqb_refl.
    reflexivity. }
  rewrite Hex in Ht. discriminate.
Qed.

Lemma update_payment_change
      (db : Session) (logged_in_user : LoggedInUser)
      (payment_data : PaymentUpdate) (payment_id : Z)
      (db' : Session) (p : Payment.t) :
  update_payment_commit db logged_in_user payment_data payment_id
  = Ok (db', p) ->
  change db db'.
Proof.
  unfold update_payment_commit.
  destruct (get_user_or_404 _ _ _) as [user| |]; cbn [bind];
    try discriminate.
  destruct (negb (is_admin user)); [discriminate|].
  destruct (get_payment_or_404 db payment_id) as [old| |] eqn:Hold;
    cbn [bind]; try discriminate.
  match goal with
  | |- bind ?c _ = _ -> _ => destruct c as [[]| |]; cbn [bind];
                             try discriminate
  end.
  unfold commit_payment.
  destruct (amount_is_null _); cbn [orb bind]; [discriminate|].
  destruct (transaction_id_taken _ _ _) eqn:Ht; cbn [bind];
    [discriminate|].
  intros [= <- _].
  destruct (get_payment_or_404_found _ _ _ Hold) as [Hin _].
  eapply ch_upd_payment;
    [reflexivity | exact Hin | reflexivity | reflexivity | reflexivity
     | exact (transaction_id_free db _ Ht)].
Qed.

Lemma delete_payment_change
      (db : Session) (logged_in_user : LoggedInUser) (payment_id : Z)
      (db' : Session) (resp : JSONResponse unit) :
  delete_payment db logged_in_user payment_id = Ok (db', resp) ->
  change db db'.
Proof.
  unfold delete_payment.
  destruct (get_user_or_404 _ _ _) as [user| |]; cbn [bind];
    try discriminate.
  destruct (negb (is_admin user)); [discriminate|].
  destruct (get_payment_or_404 db payment_id) as [old| |];
    cbn [bind]; try discriminate.
  intros [= <- _]. eapply ch_del_payment. reflexivity.
Qed.

Lemma create_child_report_change
      (db : Session) (logged_in_user : LoggedInUser)
      (report_data : ChildReportCreate) (db' : Session)
      (r : ChildReport.t) :
  create_child_report_commit db logged_in_user report_data = Ok (db', r) ->
  change db db'.
Proof.
  unfold create_child_report_commit.
  destruct (get_user_or_404 _ _ _) as [user| |]; cbn [bind];
    try discriminate.
  destruct (negb (is_admin user)); [discriminate|].
  destruct (user_with_role db (rc_child_id report_data) CHILD)
    as [child|] eqn:Hc; [|discriminate].
  intros [= <- _].
  destruct (user_with_role_found _ _ _ _ Hc) as (Hcin & Hcid & _).
  eapply ch_add_report;
    [reflexivity | apply next_id_fresh
     | exact (resolves db child _ Hcin Hcid)].
Qed.

Lemma update_child_report_change
      (db : Session) (logged_in_user : LoggedInUser)
      (report_data : option ChildReportUpdate) (report_id : Z)
      (db' : Session) (r : ChildReport.t) :
  update_child_report_commit db logged_in_user report_data report_id
  = Ok (db', r) ->
  change db db'.
Proof.
  unfold update_child_report_commit.
  destruct (get_user_or_404 _ _ _) as [user| |]; cbn [bind];
    try discriminate.
  destruct (negb (is_admin user)); [discriminate|].
  destruct (first (filter _ (child_reports db))) as [old|] eqn:Hold;
    [|discriminate].
  intros [= <- _]. apply first_filter_some in Hold.
  eapply ch_upd_report;
    [reflexivity | exact (proj1 Hold) | reflexivity | reflexivity].
Qed.

Lemma delete_child_report_change
      (db : Session) (logged_in_user : LoggedInUser) (report_id : Z)
      (db' : Session) (resp : JSONResponse Z) :
  delete_child_report db logged_in_user report_id = Ok (db', resp) ->
  change db db'.
Proof.
  unfold delete_child_report.
  destruct (get_user_or_404 _ _ _) as [user| |]; cbn [bind];
    try discriminate.
  destruct (negb (is_admin user)); [discriminate|].
  destruct (first (filter _ (child_reports db))) as [old|];
    [|discriminate].
  intros [= <- _]. eapply ch_del_report. reflexivity.
Qed.

Lemma mark_report_as_read_change
      (report_id : Z) (db : Session) (logged_in_user : LoggedInUser)
      (db' : Session) (resp : JSONResponse ChildReport.t) :
  mark_report_as_read report_id db logged_in_user = Ok (db', resp) ->
  change db db'.
Proof.
  unfold mark_report_as_read.
  destruct (get_user_or_404 _ _ _) as [user| |]; cbn [bind];
    try discriminate.
  destruct (first (filter _ (child_reports db))) as [old|] eqn:Hold;
    [|discriminate].
  destruct (user_with_role db _ CHILD); [|discriminate].
  destruct (negb (is_admin user) && _); [discriminate|].
  intros [= <- _]. apply first_filter_some in Hold.
  eapply ch_upd_report;
    [reflexivity | exact (proj1 Hold) | reflexivity | reflexivity].
Qed.

Lemma handle_change
      (hash_password : string -> string)
      (password_pattern_match : string -> bool)
      (db : Session) (logged_in_user : LoggedInUser) (call : Call)
      (db' : Session) :
  handle hash_password password_pattern_match db logged_in_user call
  = Ok db' ->
  change db db'.
Proof.
  destruct call; cbn [handle]; intros H;
    try (apply store_of_ok in H; destruct H as [resp H]).
  - eapply create_user_change, H.
  - eapply update_user_change, H.
  - eapply delete_user_change, H.
  - eapply create_sponsorship_change, H.
  - eapply update_sponsorship_change, H.
  - eapply delete_sponsorship_change, H.
  - eapply create_payment_change, H.
  - eapply update_payment_change, H.
  - eapply delete_payment_change, H.
  - eapply create_child_report_change, H.
  - eapply update_child_report_change, H.
  - eapply delete_child_report_change, H.
  - eapply mark_report_as_read_change, H.
Qed.

(** * Invariants of the store *)

Lemma NoDup_map_snoc {A B} (col : A -> B) (l : list A) (x : A) :
  NoDup (map col l) -> ~ In (col x) (map col l) ->
  NoDup (map col (l ++ [x])).
Proof.
  intros Hnd Hx. rewrite map_app. apply NoDup_app.
  - exact Hnd.
  - cbn. constructor; [intros []|constructor].
  - intros b Hb [<-|[]]. contradiction.
Qed.

Lemma NoDup_map_filter {A B} (col : A -> B) (f : A -> bool) (l : list A) :
  NoDup (map col l) -> NoDup (map col (filter f l)).
Proof.
  induction l as [|a l IH]; intros Hnd; [constructor|].
  inversion Hnd as [|? ? Ha Hl]; subst. cbn [filter].
  destruct (f a); [|apply IH, Hl].
  cbn [map]. constructor; [|apply IH, Hl].
  intros Hin. apply Ha. apply in_map_iff in Hin.
  destruct Hin as (x & Hx & Hin). apply filter_In in Hin.
  rewrite <- Hx. apply in_map. tauto.
Qed.

Lemma map_key_replace {A} (key : A -> Z) (new : A) (l : list A) :
  map key (map (replace_row key new) l) = map key l.
Proof.
  rewrite map_map. apply map_ext. intros a. unfold replace_row.
  destruct (key a =? key new) eqn:E; [|reflexivity].
  apply Z.eqb_eq in E. congruence.
Qed.

Lemma In_replace {A} (key : A -> Z) (new x : A) (l : list A) :
  In x (map (replace_row key new) l) -> x = new \/ In x l.
Proof.
  intros H. apply in_map_iff in H. destruct H as (a & Ha & Hin).
  unfold replace_row in Ha. destruct (key a =? key new); subst; tauto.
Qed.

(** A row rewritten in place keeps a column without duplicates when no
    row of another key holds the new value. *)
Lemma NoDup_map_replace {A B} (key : A -> Z) (col : A -> B)
      (new : A) (l : list A) :
  NoDup (map key l) -> NoDup (map col l) ->
  (forall q, In q l -> key q <> key new -> col q <> col new) ->
  NoDup (map col (map (replace_row key new) l)).
Proof.
  induction l as [|a l IH]; intros Hk Hc Hfree; [constructor|].
  inversion Hk as [|? ? Ka Kl]; subst.
  inversion Hc as [|? ? Ca Cl]; subst.
  cbn [map]. constructor.
  - intros Hin. apply in_map_iff in Hin. destruct Hin as (x & Hx & Hin).
    apply in_map_iff in Hin. destruct Hin as (y & Hy & Hyl). subst x.
    unfold replace_row in Hx.
    destruct (key a =? key new) eqn:Ea, (key y =? key new) eqn:Ey;
      rewrite ?Z.eqb_eq, ?Z.eqb_neq in *.
    + apply Ka. rewrite Ea, <- Ey. apply in_map, Hyl.
    + apply (Hfree y (or_intror Hyl) Ey). exact Hx.
    + apply (Hfree a (or_introl eq_refl) Ea). symmetry. exact Hx.
    + apply Ca. rewrite <- Hx. apply in_map, Hyl.
  - apply IH; [exact Kl | exact Cl |].
    intros q Hq. apply Hfree. right. exact Hq.
Qed.

(** With unique keys, a row rewritten in place without a change of
    [col] leaves the whole column as it was. *)
Lemma map_col_replace {A B} (key : A -> Z) (col : A -> B)
      (new old : A) (l : list A) :
  NoDup (map key l) -> In old l -> key new = key old -> col new = col old ->
  map col (map (replace_row key new) l) = map col l.
Proof.
  intros Hk Hold Hkey Hcol. rewrite map_map. apply map_ext_in.
  intros a Ha. unfold replace_row.
  destruct (key a =? key new) eqn:E; [|reflexivity].
  apply Z.eqb_eq in E. rewrite Hcol. f_equal.
  clear Hcol. rewrite Hkey in E. clear Hkey new.
  induction l as [|x l IH]; [contradiction|].
  inversion Hk as [|? ? Kx Kl]; subst.
  destruct Ha as [->|Ha], Hold as [->|Hold]; try reflexivity.
  - exfalso. apply Kx. rewrite E. apply in_map, Hold.
  - exfalso. apply Kx. rewrite <- E. apply in_map, Ha.
  - apply IH; assumption.
Qed.


Lemma primary_keys_unique_change (db db' : Session) :
  change db db' -> primary_keys_unique db -> primary_keys_unique db'.
Proof.
  intros Hch (Hu & Hs & Hp & Hr).
  destruct Hch; subst db'; unfold primary_keys_unique, delete_user_cascade,
    delete_row;
    cbn [users sponsorships payments child_reports with_users
               with_sponsorships with_payments with_child_reports];
    rewrite ?map_key_replace;
    repeat split;
    try assumption;
    try (apply NoDup_map_snoc; assumption);
    apply NoDup_map_filter; assumption.
Qed.

Lemma unique_columns_change (db db' : Session) :
  change db db' ->
  primary_keys_unique db -> unique_columns db -> unique_columns db'.
Proof.
  intros Hch (Hu & Hs & Hp & Hr) (Ht & Hn).
  destruct Hch; subst db'; unfold unique_columns, delete_user_cascade,
    delete_row;
    cbn [users sponsorships payments child_reports with_users
               with_sponsorships with_payments with_child_reports];
    split;
    try assumption;
    try (apply NoDup_map_filter; assumption).
  - apply NoDup_map_snoc; [assumption|].
    intros Hin. apply in_map_iff in Hin. destruct Hin as (v & Hv & Hin).
    eapply H1; eassumption.
  - apply (NoDup_map_replace User.id); assumption.
  - apply NoDup_map_snoc; [assumption|].
    intros Hin. apply in_map_iff in Hin. destruct Hin as (q & Hq & Hin).
    eapply H3; eassumption.
  - apply (NoDup_map_replace Payment.id); assumption.
Qed.

Lemma sponsorship_pairs_unique_change (db db' : Session) :
  change db db' ->
  primary_keys_unique db -> sponsorship_pairs_unique db ->
  sponsorship_pairs_unique db'.
Proof.
  intros Hch (Hu & Hs & Hp & Hr) Hpairs.
  destruct Hch; subst db'; unfold sponsorship_pairs_unique,
    delete_user_cascade, delete_row in *;
    cbn [users sponsorships payments child_reports with_users
               with_sponsorships with_payments with_child_reports];
    try assumption;
    try (apply NoDup_map_filter; assumption).
  - apply NoDup_map_snoc; [assumption|].
    intros Hin. apply in_map_iff in Hin. destruct Hin as (t & Ht & Hin).
    injection Ht as Hsp Hc. exact (H3 t Hin Hsp Hc).
  - rewrite (map_col_replace Sponsorship.id _ s old); try assumption.
    congruence.
Qed.

Lemma In_ids_filter (us : list User.t) (i k : Z) :
  In k (map User.id us) -> k <> i ->
  In k (map User.id (filter (fun u => negb (User.id u =? i)) us)).
Proof.
  intros Hin Hne. apply in_map_iff in Hin. destruct Hin as (u & <- & Hin).
  apply in_map. apply filter_In. split; [exact Hin|].
  apply negb_true_iff, Z.eqb_neq, Hne.
Qed.

Lemma references_resolve_change (db db' : Session) :
  change db db' -> references_resolve db -> references_resolve db'.
Proof.
  intros Hch (Hs & Hp & Hr).
  destruct Hch; subst db'; unfold references_resolve, delete_user_cascade,
    delete_row;
    cbn [users sponsorships payments child_reports with_users
               with_sponsorships with_payments with_child_reports];
    rewrite ?map_key_replace.
  - (* add_user *)
    rewrite map_app.
    split; [|split]; intros x Hx; [split|split|];
      apply in_or_app; left;
      first [apply Hs, Hx | apply Hp, Hx | apply Hr, Hx].
  - (* upd_user *)
    split; [|split]; intros x Hx; [split|split|];
      first [apply Hs, Hx | apply Hp, Hx | apply Hr, Hx].
  - (* del_user *)
    split; [|split]; intros x Hx; apply filter_In in Hx;
      destruct Hx as [Hx Hb];
      rewrite ?andb_true_iff, ?negb_true_iff, ?Z.eqb_neq in Hb;
      [split|split|]; apply In_ids_filter;
      first [apply Hs, Hx | apply Hp, Hx | apply Hr, Hx | tauto].
  - (* add_sponsorship *)
    split; [|split; assumption].
    intros x Hx. apply in_app_or in Hx. destruct Hx as [Hx|[<-|[]]];
      [apply Hs, Hx|split; assumption].
  - (* upd_sponsorship *)
    split; [|split; assumption].
    intros x Hx. apply In_replace in Hx. destruct Hx as [->|Hx];
      [|apply Hs, Hx].
    rewrite H2, H3. apply Hs. assumption.
  - (* del_sponsorship *)
    split; [|split; assumption].
    intros x Hx. apply filter_In in Hx. apply Hs, Hx.
  - (* add_payment *)
    split; [assumption|split; [|assumption]].
    intros x Hx. apply in_app_or in Hx. destruct Hx as [Hx|[<-|[]]];
      [apply Hp, Hx|split; assumption].
  - (* upd_payment *)
    split; [assumption|split; [|assumption]].
    intros x Hx. apply In_replace in Hx. destruct Hx as [->|Hx];
      [|apply Hp, Hx].
    rewrite H2, H3. apply Hp. assumption.
  - (* del_payment *)
    split; [assumption|split; [|assumption]].
    intros x Hx. apply filter_In in Hx. apply Hp, Hx.
  - (* add_report *)
    split; [assumption|split; [assumption|]].
    intros x Hx. apply in_app_or in Hx. destruct Hx as [Hx|[<-|[]]];
      [apply Hr, Hx|assumption].
  - (* upd_report *)
    split; [assumption|split; [assumption|]].
    intros x Hx. apply In_replace in Hx. destruct Hx as [->|Hx];
      [|apply Hr, Hx].
    rewrite H2. apply Hr. assumption.
  - (* del_report *)
    split; [assumption|split; [assumption|]].
    intros x Hx. apply filter_In in Hx. apply Hr, Hx.
Qed.

Ltac sample_nodup :=
  repeat constructor; simpl; intuition (try discriminate; try lia).

Lemma sample_primary_keys_unique : primary_keys_unique Sample.db.
Proof. unfold primary_keys_unique. simpl. repeat split; sample_nodup. Qed.

Lemma sample_unique_columns : unique_columns Sample.db.
Proof. unfold unique_columns. simpl. split; sample_nodup. Qed.

Lemma sample_sponsorship_pairs_unique : sponsorship_pairs_unique Sample.db.
Proof. unfold sponsorship_pairs_unique. simpl. sample_nodup. Qed.

Lemma sample_references_resolve : references_resolve Sample.db.
Proof.
  unfold references_resolve.
  split; [|split]; intros x Hx; simpl in Hx; decompose [or] Hx; subst;
    simpl; auto 10; try contradiction.
Qed.

(** X18. Primary keys stay unique: in every store that a sequence of
    calls of the API leads to from a store without two rows of one
    table under the same id, no table has two rows under the same id. *)
Theorem reachable_primary_keys_unique
        (hash_password : string -> string)
        (password_pattern_match : string -> bool)
        (db db' : Session) :
  reachable hash_password password_pattern_match db db' ->
  primary_keys_unique db ->
  primary_keys_unique db'.
Proof.
  intros Hreach Hinv. induction Hreach as [|db1 db2 l call _ IH Hstep];
    [exact Hinv|].
  eapply primary_keys_unique_change; [|exact IH].
  eapply handle_change, Hstep.
Qed.

Lemma reachable_primary_keys_unique_witness :
  exists db',
    handle (fun p => p) (fun _ => true) Sample.db
           (Sample.token Sample.admin)
           (CreatePayment Sample.noon (Sample.new_payment 2 4 "TXN9"))
    = Ok db'
    /\ primary_keys_unique db'.
Proof.
  eexists. split; [reflexivity|].
  apply (reachable_primary_keys_unique
           (fun p => p) (fun _ => true) Sample.db _
           (reach_step (fun p => p) (fun _ => true) Sample.db Sample.db _
              (Sample.token Sample.admin)
              (CreatePayment Sample.noon (Sample.new_payment 2 4 "TXN9"))
              (reach_refl _ _ _) eq_refl)
           sample_primary_keys_unique).
Defined.

(** X19. Unique columns stay unique: from a store with unique primary
    keys, distinct transaction ids and distinct usernames, no sequence
    of calls leads to a store with two payments of one transaction id
    or two users of one username. *)
Theorem reachable_unique_columns
        (hash_password : string -> string)
        (password_pattern_match : string -> bool)
        (db db' : Session) :
  reachable hash_password password_pattern_match db db' ->
  primary_keys_unique db ->
  unique_columns db ->
  unique_columns db'.
Proof.
  intros Hreach Hkeys Hinv.
  assert (H : primary_keys_unique db' /\ unique_columns db').
  { induction Hreach as [|db1 db2 l call _ IH Hstep]; [tauto|].
    destruct IH as [IHk IHu].
    pose proof (handle_change _ _ _ _ _ _ Hstep) as Hch.
    split.
    - eapply primary_keys_unique_change; eassumption.
    - eapply unique_columns_change; eassumption. }
  apply H.
Qed.

Lemma reachable_unique_columns_witness :
  exists db',
    handle (fun p => p) (fun _ => true) Sample.db
           (Sample.token Sample.admin)
           (UpdatePayment (Sample.set_transaction_id "TXN7") 1)
    = Ok db'
    /\ unique_columns db'.
Proof.
  eexists. split; [reflexivity|].
  apply (reachable_unique_columns
           (fun p => p) (fun _ => true) Sample.db _
           (reach_step (fun p => p) (fun _ => true) Sample.db Sample.db _
              (Sample.token Sample.admin)
              (UpdatePayment (Sample.set_transaction_id "TXN7") 1)
              (reach_refl _ _ _) eq_refl)
           sample_primary_keys_unique sample_unique_columns).
Defined.

(** X20. At most one sponsorship per pair: from a store with unique
    primary keys in which no two sponsorship rows link the same sponsor
    and child, no sequence of calls leads to a store with two
    sponsorship rows for one (sponsor, child) pair. *)
Theorem reachable_sponsorship_pairs_unique
        (hash_password : string -> string)
        (password_pattern_match : string -> bool)
        (db db' : Session) :
  reachable hash_password password_pattern_match db db' ->
  primary_keys_unique db ->
  sponsorship_pairs_unique db ->
  sponsorship_pairs_unique db'.
Proof.
  intros Hreach Hkeys Hinv.
  assert (H : primary_keys_unique db' /\ sponsorship_pairs_unique db').
  { induction Hreach as [|db1 db2 l call _ IH Hstep]; [tauto|].
    destruct IH as [IHk IHu].
    pose proof (handle_change _ _ _ _ _ _ Hstep) as Hch.
    split.
    - eapply primary_keys_unique_change; eassumption.
    - eapply sponsorship_pairs_unique_change; eassumption. }
  apply H.
Qed.

Lemma reachable_sponsorship_pairs_unique_witness :
  exists db',
    handle (fun p => p) (fun _ => true) Sample.db
           (Sample.token Sample.admin)
           (CreateSponsorship (Sample.new_sponsorship 3 5))
    = Ok db'
    /\ sponsorship_pairs_unique db'.
Proof.
  eexists. split; [reflexivity|].
  apply (reachable_sponsorship_pairs_unique
           (fun p => p) (fun _ => true) Sample.db _
           (reach_step (fun p => p) (fun _ => true) Sample.db Sample.db _
              (Sample.token Sample.admin)
              (CreateSponsorship (Sample.new_sponsorship 3 5))
              (reach_refl _ _ _) eq_refl)
           sample_primary_keys_unique sample_sponsorship_pairs_unique).
Defined.

(** X21. No dangling reference: from a store in which every sponsor_id
    and child_id of a sponsorship, a payment or a report is the id of a
    stored user, no sequence of calls (deletions of users included,
    which take the rows that name the user with them) leads to a store
    with a row that names a user that is not stored. *)
Theorem reachable_references_resolve
        (hash_password : string -> string)
        (password_pattern_match : string -> bool)
        (db db' : Session) :
  reachable hash_password password_pattern_match db db' ->
  references_resolve db ->
  references_resolve db'.
Proof.
  intros Hreach Hinv. induction Hreach as [|db1 db2 l call _ IH Hstep];
    [exact Hinv|].
  eapply references_resolve_change; [|exact IH].
  eapply handle_change, Hstep.
Qed.

Lemma reachable_references_resolve_witness :
  exists db',
    handle (fun p => p) (fun _ => true) Sample.db
           (Sample.token Sample.admin) (DeleteUser 4)
    = Ok db'
    /\ references_resolve db'.
Proof.
  eexists. split; [reflexivity|].
  apply (reachable_references_resolve
           (fun p => p) (fun _ => true) Sample.db _
           (reach_step (fun p => p) (fun _ => true) Sample.db Sample.db _
              (Sample.token Sample.admin)
              (DeleteUser 4)
              (reach_refl _ _ _) eq_refl)
           sample_references_resolve).
Defined.

(** * Creating and deleting rows: what a later lookup finds *)

Lemma lookup_after_delete {A} (key : A -> Z) (row : A) (k : Z)
      (l : list A) :
  first (filter (fun x => key x =? k) (delete_row key row l))
  = if k =? key row then None
    else first (filter (fun x => key x =? k) l).
Proof.
  unfold delete_row. induction l as [|a l IH]; cbn [filter].
  - destruct (k =? key row); reflexivity.
  - destruct (key a =? key row) eqn:Ea; cbn [negb filter].
    + rewrite IH. destruct (k =? key row) eqn:Ek; [reflexivity|].
      apply Z.eqb_eq in Ea. apply Z.eqb_neq in Ek.
      assert (Hak : (key a =? k) = false)
        by (apply Z.eqb_neq; congruence).
      rewrite Hak. reflexivity.
    + destruct (key a =? k) eqn:Hak; cbn [first].
      * apply Z.eqb_eq in Hak. apply Z.eqb_neq in Ea.
        assert (Ek : (k =? key row) = false)
          by (apply Z.eqb_neq; congruence).
        rewrite Ek. reflexivity.
      * exact IH.
Qed.


(** X22. The deletions are hard: after a successful [delete_payment],
    [delete_child_report] or [delete_sponsorship] the id no longer
    resolves (a later lookup, by any handler, finds nothing), every
    other id resolves to the row it resolved to before, and the other
    tables are untouched. *)
Theorem deleted_rows_are_gone :
  (forall db logged_in_user payment_id db' resp,
      delete_payment db logged_in_user payment_id = Ok (db', resp) ->
      is_ok (get_payment_or_404 db' payment_id) = false
      /\ (forall k, k <> payment_id ->
                    get_payment_or_404 db' k = get_payment_or_404 db k)
      /\ users db' = users db
      /\ sponsorships db' = sponsorships db
      /\ child_reports db' = child_reports db)
  /\
  (forall db logged_in_user report_id db' resp,
      delete_child_report db logged_in_user report_id = Ok (db', resp) ->
      first (filter (fun r => ChildReport.id r =? report_id)
                    (child_reports db')) = None
      /\ (forall k, k <> report_id ->
                    first (filter (fun r => ChildReport.id r =? k)
                                  (child_reports db'))
                    = first (filter (fun r => ChildReport.id r =? k)
                                    (child_reports db)))
      /\ users db' = users db
      /\ sponsorships db' = sponsorships db
      /\ payments db' = payments db)
  /\
  (forall db logged_in_user sponsorship_id db',
      delete_sponsorship db logged_in_user sponsorship_id = Ok db' ->
      is_ok (get_sponsorship_or_404 db' sponsorship_id) = false
      /\ (forall k, k <> sponsorship_id ->
                    get_sponsorship_or_404 db' k
                    = get_sponsorship_or_404 db k)
      /\ users db' = users db
      /\ payments db' = payments db
      /\ child_reports db' = child_reports db).
Proof.
  split; [|split].
  - intros db l pid db' resp. unfold delete_payment.
    destruct (get_user_or_404 _ _ _) as [user| |]; cbn [bind];
      try discriminate.
    destruct (negb (is_admin user)); [discriminate|].
    destruct (get_payment_or_404 db pid) as [old| |] eqn:Hold;
      cbn [bind]; try discriminate.
    intros [= <- _].
    destruct (get_payment_or_404_found _ _ _ Hold) as [_ Hid].
    unfold get_payment_or_404. cbn [payments with_payments].
    split; [|split; [|repeat split]].
    + rewrite lookup_after_delete, Hid, Z.eqb_refl. reflexivity.
    + intros k Hk. rewrite lookup_after_delete, Hid.
      apply Z.eqb_neq in Hk. rewrite Hk. reflexivity.
  - intros db l rid db' resp. unfold delete_child_report.
    destruct (get_user_or_404 _ _ _) as [user| |]; cbn [bind];
      try discriminate.
    destruct (negb (is_admin user)); [discriminate|].
    destruct (first (filter _ (child_reports db))) as [old|] eqn:Hold;
      [|discriminate].
    intros [= <- _]. apply first_filter_some in Hold.
    destruct Hold as [_ Hid]. apply Z.eqb_eq in Hid.
    cbn [child_reports with_child_reports].
    split; [|split; [|repeat split]].
    + rewrite lookup_after_delete, Hid, Z.eqb_refl. reflexivity.
    + intros k Hk. rewrite lookup_after_delete, Hid.
      apply Z.eqb_neq in Hk. rewrite Hk. reflexivity.
  - intros db l sid db'. unfold delete_sponsorship.
    destruct (get_user_or_404 _ _ _) as [user| |]; cbn [bind];
      try discriminate.
    destruct (negb (is_admin user)); [discriminate|].
    destruct (get_sponsorship_or_404 db sid) as [old| |] eqn:Hold;
      cbn [bind]; try discriminate.
    intros [= <-].
    destruct (get_sponsorship_or_404_found _ _ _ Hold) as [_ Hid].
    unfold get_sponsorship_or_404. cbn [sponsorships with_sponsorships].
    split; [|split; [|repeat split]].
    + rewrite lookup_after_delete, Hid, Z.eqb_refl. reflexivity.
    + intros k Hk. rewrite lookup_after_delete, Hid.
      apply Z.eqb_neq in Hk. rewrite Hk. reflexivity.
Qed.

Lemma deleted_rows_are_gone_witness :
  exists db' resp,
    delete_payment Sample.db (Sample.token Sample.admin) 2 = Ok (db', resp)
    /\ is_ok (get_payment_or_404 db' 2) = false
    /\ get_payment_or_404 db' 1 = Ok (Sample.mk_payment 1 2 4 "TXN1").
Proof.
  destruct deleted_rows_are_gone as (Hp & _ & _).
  do 2 eexists. split; [reflexivity|].
  destruct (Hp Sample.db (Sample.token Sample.admin) 2 _ _ eq_refl)
    as (Hgone & Hkept & _).
  split; [exact Hgone|]. rewrite Hkept by lia. reflexivity.
Defined.

(** X23. Insert, then look up: after a successful [create_payment],
    [create_sponsorship] or [create_child_report] the id of the
    response resolves to the row of the response, and every id that
    resolved before resolves to the same row: a creation never takes
    the id of a stored row. *)
Theorem created_rows_are_found :
  (forall db now logged_in_user payment_data db' resp,
      create_payment db now logged_in_user payment_data = Ok (db', resp) ->
      get_payment_or_404 db' (Payment.id (data resp)) = Ok (data resp)
      /\ forall k p, get_payment_or_404 db k = Ok p ->
                     get_payment_or_404 db' k = Ok p)
  /\
  (forall db logged_in_user sponsorship_data db' resp,
      create_sponsorship db logged_in_user sponsorship_data
      = Ok (db', resp) ->
      get_sponsorship_or_404 db' (Sponsorship.id (data resp))
      = Ok (data resp)
      /\ forall k s, get_sponsorship_or_404 db k = Ok s ->
                     get_sponsorship_or_404 db' k = Ok s)
  /\
  (forall db logged_in_user report_data db' resp,
      create_child_report db logged_in_user report_data = Ok (db', resp) ->
      first (filter (fun r => ChildReport.id r =? ChildReport.id (data resp))
                    (child_reports db')) = Some (data resp)
      /\ forall k r,
           first (filter (fun r => ChildReport.id r =? k)
                         (child_reports db)) = Some r ->
           first (filter (fun r => ChildReport.id r =? k)
                         (child_reports db')) = Some r).
Proof.
  split; [|split].
  - intros db now l d db' resp H.
    apply create_payment_inv, create_payment_commit_inv in H.
    destruct H as (-> & Hid & _).
    unfold get_payment_or_404. cbn [payments with_payments].
    split.
    + rewrite lookup_after_append by (rewrite Hid; apply next_id_fresh).
      rewrite Z.eqb_refl. reflexivity.
    + intros k q.
      rewrite lookup_after_append by (rewrite Hid; apply next_id_fresh).
      rewrite Hid.
      destruct (first (filter _ (payments db))) as [q'|] eqn:E;
        [|discriminate].
      intros [= <-]. apply first_filter_some in E.
      destruct E as [Hin Hk]. apply Z.eqb_eq in Hk.
      destruct (k =? next_id (map Payment.id (payments db))) eqn:Ek;
        [|reflexivity].
      exfalso. apply Z.eqb_eq in Ek.
      apply (next_id_fresh (map Payment.id (payments db))).
      rewrite <- Ek, <- Hk. apply in_map, Hin.
  - intros db l d db' resp. unfold create_sponsorship.
    destruct (get_user_or_404 db (token_id l) _) as [user| |]; cbn [bind];
      try discriminate.
    destruct (negb (is_admin user)); [discriminate|].
    destruct (get_user_or_404 db (sb_child_id d) _) as [child| |];
      cbn [bind]; try discriminate.
    destruct (user_with_role db (sb_sponsor_id d) SPONSOR); [|discriminate].
    destruct (first (filter _ (sponsorships db))); [discriminate|].
    intros [= <- <-]. cbn [data create_response].
    unfold get_sponsorship_or_404. cbn [sponsorships with_sponsorships].
    split.
    + rewrite lookup_after_append by apply next_id_fresh.
      cbn [Sponsorship.id]. rewrite Z.eqb_refl. reflexivity.
    + intros k s. rewrite lookup_after_append by apply next_id_fresh.
      cbn [Sponsorship.id].
      destruct (first (filter _ (sponsorships db))) as [s'|] eqn:E;
        [|discriminate].
      intros [= <-]. apply first_filter_some in E.
      destruct E as [Hin Hk]. apply Z.eqb_eq in Hk.
      destruct (k =? next_id (map Sponsorship.id (sponsorships db)))
        eqn:Ek; [|reflexivity].
      exfalso. apply Z.eqb_eq in Ek.
      apply (next_id_fresh (map Sponsorship.id (sponsorships db))).
      rewrite <- Ek, <- Hk. apply in_map, Hin.
  - intros db l d db' resp.
    unfold create_child_report, create_child_report_commit.
    destruct (get_user_or_404 _ _ _) as [user| |]; cbn [bind];
      try discriminate.
    destruct (negb (is_admin user)); [discriminate|].
    destruct (user_with_role db (rc_child_id d) CHILD); cbn [bind];
      [|discriminate].
    destruct (report_status _); [|discriminate].
    intros [= <- <-]. cbn [data create_response].
    cbn [child_reports with_child_reports].
    split.
    + rewrite lookup_after_append by apply next_id_fresh.
      cbn [ChildReport.id]. rewrite Z.eqb_refl. reflexivity.
    + intros k r. rewrite lookup_after_append by apply next_id_fresh.
      cbn [ChildReport.id]. intros E. rewrite E.
      apply first_filter_some in E.
      destruct E as [Hin Hk]. apply Z.eqb_eq in Hk.
      destruct (k =? next_id (map ChildReport.id (child_reports db)))
        eqn:Ek; [|reflexivity].
      exfalso. apply Z.eqb_eq in Ek.
      apply (next_id_fresh (map ChildReport.id (child_reports db))).
      rewrite <- Ek, <- Hk. apply in_map, Hin.
Qed.

Lemma created_rows_are_found_witness :
  exists db' resp,
    create_payment Sample.db Sample.noon (Sample.token Sample.sponsor_a)
                   (Sample.new_payment 2 4 "TXN9") = Ok (db', resp)
    /\ Payment.id (data resp) = 4
    /\ get_payment_or_404 db' 4 = Ok (data resp).
Proof.
  destruct created_rows_are_found as (Hp & _ & _).
  do 2 eexists. split; [reflexivity|]. split; [reflexivity|].
  destruct (Hp Sample.db Sample.noon (Sample.token Sample.sponsor_a)
               (Sample.new_payment 2 4 "TXN9") _ _ eq_refl) as [H _].
  exact H.
Defined.

(** * After the commit: the refresh and the response *)

(** The four handlers whose response can fail after the commit answer
    exactly when what they have written can be read back and
    rendered; the store is the committed one either way. *)
Lemma create_payment_after_commit
      (db : Session) (now : datetime) (logged_in_user : LoggedInUser)
      (payment_data : PaymentCreate) (db' : Session) (p : Payment.t) :
  create_payment_commit db now logged_in_user payment_data = Ok (db', p) ->
  Payment.amount p = pc_amount payment_data
  /\ is_nan (pc_amount payment_data) = false
  /\ (is_infinity (pc_amount payment_data) = true ->
      create_payment db now logged_in_user payment_data
      = Unhandled "ValueError")
  /\ (is_infinity (pc_amount payment_data) = false ->
      exists resp,
        create_payment db now logged_in_user payment_data = Ok (db', resp)
        /\ data resp = p /\ status_code resp = HTTP_201_CREATED).
Proof.
  intros Hc. unfold create_payment. rewrite Hc. cbn [bind].
  unfold create_payment_commit in Hc.
  destruct (get_user_or_404 _ _ _) as [user| |]; cbn [bind] in Hc;
    try discriminate.
  destruct (negb (is_admin user) && _); [discriminate|].
  destruct (user_with_role db (pc_sponsor_id payment_data) SPONSOR);
    [|discriminate].
  destruct (user_with_role db (pc_child_id payment_data) CHILD);
    [|discriminate].
  destruct (first (filter _ (sponsorships db))); [|discriminate].
  destruct (first (filter _ (payments db))); [discriminate|].
  unfold add_payment, amount_is_null in Hc. cbn [Payment.amount] in Hc.
  destruct (is_nan (pc_amount payment_data)) eqn:Hnan;
    cbn [orb] in Hc; [discriminate|].
  destruct (transaction_id_taken _ _ _); [discriminate|].
  injection Hc as <- <-. cbn [Payment.amount].
  unfold json_compliant, is_finite. rewrite Hnan. cbn [orb].
  split; [reflexivity|]. split; [reflexivity|]. split.
  - intros ->. reflexivity.
  - intros ->. eexists. split; [reflexivity|]. split; reflexivity.
Qed.

Lemma create_child_report_after_commit
      (db : Session) (logged_in_user : LoggedInUser)
      (report_data : ChildReportCreate) (db' : Session)
      (r : ChildReport.t) :
  create_child_report_commit db logged_in_user report_data = Ok (db', r) ->
  ChildReport.status r = rc_status report_data
  /\ In r (child_reports db')
  /\ (rc_status report_data <> "unread" ->
      rc_status report_data <> "read" ->
      create_child_report db logged_in_user report_data
      = Unhandled "LookupError")
  /\ (rc_status report_data = "unread" \/ rc_status report_data = "read" ->
      exists resp,
        create_child_report db logged_in_user report_data = Ok (db', resp)
        /\ data resp = r /\ status_code resp = HTTP_201_CREATED).
Proof.
  intros Hc. unfold create_child_report. rewrite Hc. cbn [bind].
  unfold create_child_report_commit in Hc.
  destruct (get_user_or_404 _ _ _) as [user| |]; cbn [bind] in Hc;
    try discriminate.
  destruct (negb (is_admin user)); [discriminate|].
  destruct (user_with_role db (rc_child_id report_data) CHILD);
    [|discriminate].
  injection Hc as <- <-. cbn [ChildReport.status].
  split; [reflexivity|]. split.
  { cbn [child_reports with_child_reports]. apply in_or_app. right.
    left. reflexivity. }
  unfold report_status. split.
  - intros Hu Hr. apply String.eqb_neq in Hu. apply String.eqb_neq in Hr.
    rewrite Hu, Hr. reflexivity.
  - intros [-> | ->]; eexists; (split; [reflexivity|]); split; reflexivity.
Qed.

Lemma update_child_report_after_commit
      (db : Session) (logged_in_user : LoggedInUser)
      (report_data : option ChildReportUpdate) (report_id : Z)
      (db' : Session) (r : ChildReport.t) :
  update_child_report_commit db logged_in_user report_data report_id
  = Ok (db', r) ->
  (ChildReport.status r <> "unread" -> ChildReport.status r <> "read" ->
   update_child_report db logged_in_user report_data report_id
   = Unhandled "LookupError")
  /\ (ChildReport.status r = "unread" \/ ChildReport.status r = "read" ->
      exists resp,
        update_child_report db logged_in_user report_data report_id
        = Ok (db', resp)
        /\ data resp = r /\ status_code resp = HTTP_200_OK).
Proof.
  intros Hc. unfold update_child_report. rewrite Hc. cbn [bind].
  unfold report_status. split.
  - intros Hu Hr. apply String.eqb_neq in Hu. apply String.eqb_neq in Hr.
    rewrite Hu, Hr. reflexivity.
  - intros [-> | ->]; eexists; (split; [reflexivity|]); split; reflexivity.
Qed.

(** A payment date that an update supplies is stored, and answered,
    with its fields and without tzinfo. *)
Lemma update_payment_date_is_naive
      (db : Session) (logged_in_user : LoggedInUser)
      (payment_data : PaymentUpdate) (payment_id : Z)
      (db' : Session) (resp : JSONResponse Payment.t) (value : datetime) :
  update_payment db logged_in_user payment_data payment_id = Ok (db', resp) ->
  pu_payment_date payment_data = Some value ->
  Payment.payment_date (data resp) = replace_tzinfo value None
  /\ get_payment_or_404 db' payment_id = Ok (data resp).
Proof.
  intros Hu Hv.
  destruct (update_payment_frame _ _ _ _ _ _ Hu) as (old & _ & Hfound & _).
  split; [|exact Hfound].
  unfold update_payment, update_payment_commit in Hu.
  destruct (get_user_or_404 _ _ _) as [user| |]; cbn [bind] in Hu;
    try discriminate.
  destruct (negb (is_admin user)); [discriminate|].
  destruct (get_payment_or_404 db payment_id) as [old'| |];
    cbn [bind] in Hu; try discriminate.
  match type of Hu with
  | bind (bind ?c _) _ = _ => destruct c as [[]| |]; cbn [bind] in Hu;
                              try discriminate
  end.
  destruct (commit_payment _ _); cbn [bind] in Hu; try discriminate.
  destruct (json_compliant _); [|discriminate].
  injection Hu as _ <-. cbn [data create_response].
  unfold apply_payment_update. cbn [Payment.payment_date]. rewrite Hv.
  reflexivity.
Qed.

(** The store after a call whose response fails: an admin files a
    report under a status that the column's Enum does not have. *)
Remark create_child_report_unknown_status :
  let report_data :=
    {| rc_child_id := 4;
       rc_report_date := Sample.day0;
       rc_report_type := "Health";
       rc_details := "Check-up.";
       rc_status := "archived" |} in
  create_child_report Sample.db (Sample.token Sample.admin) report_data
  = Unhandled "LookupError"
  /\ exists db',
       handle (fun p => p) (fun _ => true) Sample.db
              (Sample.token Sample.admin) (CreateChildReport report_data)
       = Ok db'
       /\ map ChildReport.status (child_reports db') = ["unread"; "archived"].
Proof.
  split; [reflexivity|]. eexists. split; reflexivity.
Qed.
